(** * yum-metadata-parser, db.c: the SQLite cache writer

    A shallow embedding of [db.c]: the file-list compaction codec
    ([package_files_to_hash]), the cache-coherency protocol
    ([dbinfo_status], [yum_db_open], [yum_db_dbinfo_update]), the schema
    declarations and the row writers, over a small executable model of
    the GLib and SQLite calls the file makes. *)

From Stdlib Require Import ZArith Ascii String List Lia.
From stdpp Require Import base option list gmap strings.

Local Open Scope Z_scope.

(* ===================================================================== *)
(** ** C strings *)
(* ===================================================================== *)

Module CString.

(** [G_IS_DIR_SEPARATOR] on Unix. *)
Definition is_dir_separator (c : ascii) : bool := Ascii.eqb c "/"%char.

Fixpoint has_slash (s : string) : bool :=
  match s with
  | EmptyString => false
  | String c s' => is_dir_separator c || has_slash s'
  end.

Fixpoint ends_with_slash (s : string) : bool :=
  match s with
  | EmptyString => false
  | String c EmptyString => is_dir_separator c
  | String _ s' => ends_with_slash s'
  end.

(** The string without its trailing run of separators. *)
Fixpoint strip_trailing_slashes (s : string) : string :=
  match s with
  | EmptyString => EmptyString
  | String c s' =>
      match strip_trailing_slashes s' with
      | EmptyString => if is_dir_separator c then EmptyString else String c EmptyString
      | r => String c r
      end
  end.

(** What follows the last separator (the whole string when it has none). *)
Fixpoint last_component (s : string) : string :=
  match s with
  | EmptyString => EmptyString
  | String c s' =>
      if is_dir_separator c then last_component s'
      else if has_slash s' then last_component s'
      else String c s'
  end.

(** What precedes the last separator (empty when there is none). *)
Fixpoint before_last_slash (s : string) : string :=
  match s with
  | EmptyString => EmptyString
  | String c s' => if has_slash s' then String c (before_last_slash s') else EmptyString
  end.

(** The pieces of [s] between separators, as [split(s, '/')] gives them:
    [n] separators give [n + 1] pieces, empty ones included. *)
Fixpoint split_slash (s : string) : list string :=
  match s with
  | EmptyString => [EmptyString]
  | String c s' =>
      if is_dir_separator c then EmptyString :: split_slash s'
      else match split_slash s' with
           | x :: xs => String c x :: xs
           | [] => [String c EmptyString]
           end
  end.

End CString.

(* ===================================================================== *)
(** ** GLib path functions *)
(* ===================================================================== *)

(** Modelled from the spec: [g_path_get_basename] is a GLib function, not
    part of [db.c]; section 4.4 of the specification asks for standard
    path splitting.  GLib documents: the empty string gives ["."], a
    string made of separators only gives one separator, trailing
    separators are dropped, and otherwise the name after the last
    separator is returned. *)
Definition g_path_get_basename (file_name : string) : string :=
  match file_name with
  | EmptyString => "."
  | _ =>
      match CString.strip_trailing_slashes file_name with
      | EmptyString => "/"
      | t => CString.last_component t
      end
  end.

(** Modelled from the spec: [g_path_get_dirname] is a GLib function, not
    part of [db.c].  GLib documents: a name with no separator gives ["."];
    otherwise the part before the last separator, without the separators
    that end it, and ["/"] when nothing remains. *)
Definition g_path_get_dirname (file_name : string) : string :=
  if CString.has_slash file_name then
    match CString.strip_trailing_slashes (CString.before_last_slash file_name) with
    | EmptyString => "/"
    | d => d
    end
  else ".".

(* ===================================================================== *)
(** ** The file-list codec *)
(* ===================================================================== *)

(** Modelled from the spec: [PackageFile] is declared in package.h, which
    is not among the sources.  The specification's FileEntry has a path
    and a kind; [db.c] reads them as the C strings [file->name] and
    [file->type]. *)
Record PackageFile := mkPackageFile {
  pf_type : string;
  pf_name : string
}.

(** [EncodedPackageFile]: the two growable buffers of one directory. *)
Record EncodedPackageFile := mkEncodedPackageFile {
  files : string;
  types : string
}.

Definition encoded_package_file_new : EncodedPackageFile :=
  {| files := ""; types := "" |}.

(** The body of the loop of [package_files_to_hash] once [enc] is found:
    the separator and the base name go to [files], and the type code to
    [types] when the type is one of the three the [if] chain names. *)
Definition encode_append (enc : EncodedPackageFile) (file : PackageFile)
  : EncodedPackageFile :=
  let name := g_path_get_basename (pf_name file) in
  let files1 :=
    if negb (Nat.eqb (String.length (files enc)) 0)
    then files enc +:+ "/" else files enc in
  let files2 := files1 +:+ name in
  let types1 :=
    if String.eqb (pf_type file) "dir" then types enc +:+ "d"
    else if String.eqb (pf_type file) "file" then types enc +:+ "f"
    else if String.eqb (pf_type file) "ghost" then types enc +:+ "g"
    else types enc in
  {| files := files2; types := types1 |}.

(** One iteration of the loop: look the directory up, create its entry
    when it has none, append. *)
Definition package_files_step (hash : gmap string EncodedPackageFile)
    (file : PackageFile) : gmap string EncodedPackageFile :=
  let dir := g_path_get_dirname (pf_name file) in
  let enc :=
    match hash !! dir with
    | Some enc => enc
    | None => encoded_package_file_new
    end in
  <[dir := encode_append enc file]> hash.

Definition package_files_to_hash (files : list PackageFile)
  : gmap string EncodedPackageFile :=
  fold_left package_files_step files ∅.

(* ===================================================================== *)
(** ** Reading a group back *)
(* ===================================================================== *)

(** The kinds of the specification's data model. *)
Inductive FileKind := Directory | File | Ghost.

Global Instance FileKind_eq_dec : EqDecision FileKind.
Proof. solve_decision. Defined.

(** The kind a [type] string names: the three comparisons of the codec. *)
Definition kind_of_type (t : string) : option FileKind :=
  if String.eqb t "dir" then Some Directory
  else if String.eqb t "file" then Some File
  else if String.eqb t "ghost" then Some Ghost
  else None.

(** The kind a type code stands for. *)
Definition kind_of_code (c : ascii) : option FileKind :=
  if Ascii.eqb c "d"%char then Some Directory
  else if Ascii.eqb c "f"%char then Some File
  else if Ascii.eqb c "g"%char then Some Ghost
  else None.

(** A reader of a [filelist] row: split [filenames] on the separator and
    pair the pieces, position by position, with the characters of
    [filetypes]. *)
Definition decode_group (enc : EncodedPackageFile)
  : list (string * option FileKind) :=
  zip (CString.split_slash (files enc))
      (map kind_of_code (list_ascii_of_string (types enc))).

(** The [(basename, kind)] pairs path splitting assigns to directory
    [dir], in input order. *)
Definition group_pairs (dir : string) (fs : list PackageFile)
  : list (string * option FileKind) :=
  map (fun f => (g_path_get_basename (pf_name f), kind_of_type (pf_type f)))
      (filter (fun f => g_path_get_dirname (pf_name f) = dir) fs).

(** The entries the codec packs losslessly: the type is one of the three
    it knows, and the base name is not the separator itself (the name is
    not made of separators only). *)
Definition codec_entry_ok (f : PackageFile) : bool :=
  match kind_of_type (pf_type f) with
  | Some _ => negb (String.eqb (g_path_get_basename (pf_name f)) "/")
  | None => false
  end.

(** The positional-alignment invariant of one group. *)
Definition aligned (enc : EncodedPackageFile) : Prop :=
  length (CString.split_slash (files enc)) = String.length (types enc).

(** What the loop leaves under one key, given what was there: the entries
    of that directory appended in order to the entry found or created. *)
Definition group_fold (g : list PackageFile) (o : option EncodedPackageFile)
  : option EncodedPackageFile :=
  fold_left (fun o f => Some (encode_append (default encoded_package_file_new o) f)) g o.

(** The entries of [fs] that [g_path_get_dirname] sends to [dir]. *)
Definition group_of (dir : string) (fs : list PackageFile) : list PackageFile :=
  filter (fun f => g_path_get_dirname (pf_name f) = dir) fs.

(** A buffer pair as the loop keeps it: untouched, or non-empty and aligned. *)
Definition codec_inv (enc : EncodedPackageFile) : Prop :=
  (files enc = "" /\ types enc = "") \/ (files enc <> "" /\ aligned enc).

(* ===================================================================== *)
(** ** C integers *)
(* ===================================================================== *)

(** The value of a [gint64] converted to [int] (32 bits, two's complement),
    as happens when a [gint64] is passed for an [int] parameter. *)
Definition to_int (z : Z) : Z := (z + 2 ^ 31) mod 2 ^ 32 - 2 ^ 31.

Definition fits_int (z : Z) : Prop := - 2 ^ 31 <= z < 2 ^ 31.

(* ===================================================================== *)
(** ** SQLite: the part of it [db.c] uses *)
(* ===================================================================== *)

(** SQLite is a library [db.c] links against.  The model keeps what the
    statements of [db.c] read and write: the tables with their columns
    and rows, the names of indexes, the AFTER DELETE triggers, and the
    rows of [db_info].  A statement either runs to its end or fails and
    changes nothing. *)

(** A cell of a row.  Column affinity is not modelled: an integer bound
    into a column declared TEXT is kept as the integer it reads back as. *)
Inductive value := VNull | VInt (n : Z) | VText (s : string).

Global Instance value_eq_dec : EqDecision value.
Proof. solve_decision. Defined.

Inductive coltype := TEXT | INTEGER | INTEGER_PRIMARY_KEY.

Global Instance coltype_eq_dec : EqDecision coltype.
Proof. solve_decision. Defined.

Record table := mkTable {
  columns : list (string * coltype);
  rows : list (list value)
}.

(** [CREATE TRIGGER .. AFTER DELETE ON trig_table BEGIN .. END] whose body
    is, for each name [t] of [trig_deletes] in order,
    [DELETE FROM t WHERE pkgKey = old.pkgKey]. *)
Record trigger := mkTrigger {
  trig_table : string;
  trig_deletes : list string
}.

(** A row of [db_info] as [dbinfo_status] reads it: [sqlite3_column_int]
    of [dbversion] and [sqlite3_column_text] of [checksum]. *)
Record Stamp := mkStamp {
  stamp_dbversion : Z;
  stamp_checksum : string
}.

Global Instance Stamp_eq_dec : EqDecision Stamp.
Proof. solve_decision. Defined.

(** The content of a database file.  [db_info] is [None] while the table
    does not exist. *)
Record database := mkDatabase {
  db_info : option (list Stamp);
  tables : gmap string table;
  indexes : gmap string (string * string);
  triggers : gmap string trigger
}.

Definition empty_database : database :=
  {| db_info := None; tables := ∅; indexes := ∅; triggers := ∅ |}.

Definition set_db_info (o : option (list Stamp)) (d : database) : database :=
  {| db_info := o; tables := tables d; indexes := indexes d; triggers := triggers d |}.

Definition set_tables (ts : gmap string table) (d : database) : database :=
  {| db_info := db_info d; tables := ts; indexes := indexes d; triggers := triggers d |}.

Definition set_indexes (ix : gmap string (string * string)) (d : database) : database :=
  {| db_info := db_info d; tables := tables d; indexes := ix; triggers := triggers d |}.

Definition set_triggers (tg : gmap string trigger) (d : database) : database :=
  {| db_info := db_info d; tables := tables d; indexes := indexes d; triggers := tg |}.

(** The statements [db.c] passes to [sqlite3_exec] and [sqlite3_prepare],
    and the row deletion a client of the cache issues. *)
Inductive sql :=
  | CREATE_TABLE_db_info
      (* CREATE TABLE db_info (dbversion TEXT, checksum TEXT) *)
  | DELETE_FROM_db_info
      (* DELETE FROM db_info *)
  | INSERT_INTO_db_info (dbversion : Z) (checksum : string)
      (* INSERT INTO db_info (dbversion, checksum) VALUES (%d, '%s') *)
  | PRAGMA_synchronous (n : Z)
  | CREATE_TABLE (name : string) (cols : list (string * coltype))
  | CREATE_INDEX (name tbl col : string)
  | CREATE_TRIGGER (name tbl : string) (deletes : list string)
  | INSERT_INTO (tbl : string) (cols : list string) (vals : list value)
  | DELETE_FROM_WHERE (tbl col : string) (v : value).

(** The value of the SQL string literal whose text between the enclosing
    apostrophes is [body]: a doubled apostrophe stands for one.  [None]
    when [body] holds a lone apostrophe: the literal then ends there and
    the rest of [body] is read as SQL, which this model does not follow
    ([run_sql] gives an error result there, where SQLite runs whatever
    the text says).  The statements about a checksum written assume it
    has no apostrophe, or only doubled ones. *)
Fixpoint sql_literal (body : string) : option string :=
  match body with
  | EmptyString => Some EmptyString
  | String c s =>
      if Ascii.eqb c "'"%char then
        match s with
        | String c2 s2 =>
            if Ascii.eqb c2 "'"%char
            then option_map (String "'"%char) (sql_literal s2)
            else None
        | EmptyString => None
        end
      else option_map (String c) (sql_literal s)
  end.

(** Tables and indexes share one name space. *)
Definition object_exists (d : database) (name : string) : bool :=
  bool_decide (is_Some (tables d !! name))
  || bool_decide (is_Some (indexes d !! name))
  || (String.eqb name "db_info" && bool_decide (is_Some (db_info d))).

Fixpoint column_index (c : string) (cols : list (string * coltype)) : option nat :=
  match cols with
  | [] => None
  | (c', _) :: cols' =>
      if String.eqb c c' then Some 0%nat else S <$> column_index c cols'
  end.

Definition cell (t : table) (c : string) (r : list value) : option value :=
  match column_index c (columns t) with
  | Some i => r !! i
  | None => None
  end.

(** SQL's [=] on the values this model keeps: NULL equals nothing. *)
Definition sql_eq (a b : value) : bool :=
  match a, b with
  | VInt x, VInt y => Z.eqb x y
  | VText x, VText y => String.eqb x y
  | _, _ => false
  end.

(** [WHERE c = v] on a row of [t]. *)
Definition row_matches (t : table) (c : string) (v : value) (r : list value) : bool :=
  match cell t c r with
  | Some x => sql_eq x v
  | None => false
  end.

(** The rowid SQLite gives a new row of [t]: one more than the largest
    key in use, read from the INTEGER PRIMARY KEY column (an alias of the
    rowid); for a table without one the hidden rowid is not kept and the
    row count stands for it.  This is SQLite's choice as long as the keys
    in use are from 0 to 2^63 - 2, which holds of a table only [db.c] has
    written: SQLite also adds one to a negative largest key, and picks an
    unused rowid at random once 2^63 - 1 is in use, which the model does
    not follow.  The statements that say what the new key is assume the
    keys in that range. *)
Definition primary_key_column (t : table) : option string :=
  fst <$> head (filter (fun c => bool_decide (snd c = INTEGER_PRIMARY_KEY)) (columns t)).

Definition max_key (t : table) (c : string) : Z :=
  fold_left (fun m r => match cell t c r with
                        | Some (VInt k) => Z.max m k
                        | _ => m
                        end) (rows t) 0.

Definition next_rowid (t : table) : Z :=
  match primary_key_column t with
  | Some c => max_key t c + 1
  | None => Z.of_nat (length (rows t)) + 1
  end.

(** The value bound to column [c] by [INSERT INTO t (cols) VALUES (vals)]. *)
Fixpoint bound_value (c : string) (cols : list string) (vals : list value)
  : option value :=
  match cols, vals with
  | c' :: cols', v :: vals' =>
      if String.eqb c c' then Some v else bound_value c cols' vals'
  | _, _ => None
  end.

(** The row an insert adds: each column takes the value bound to it; an
    INTEGER PRIMARY KEY column left out takes the new rowid, any other
    column left out is NULL. *)
Definition new_row (t : table) (cols : list string) (vals : list value)
  : list value :=
  map (fun c =>
         match bound_value (fst c) cols vals with
         | Some v => v
         | None =>
             match snd c with
             | INTEGER_PRIMARY_KEY => VInt (next_rowid t)
             | _ => VNull
             end
         end) (columns t).

Definition has_columns (t : table) (cols : list string) : bool :=
  forallb (fun c => bool_decide (is_Some (column_index c (columns t)))) cols.

Definition insert_into (d : database) (tbl : string) (cols : list string)
    (vals : list value) : option database :=
  match tables d !! tbl with
  | Some t =>
      if has_columns t cols && Nat.eqb (length cols) (length vals)
      then Some (set_tables
                   (<[tbl := {| columns := columns t;
                                rows := rows t ++ [new_row t cols vals] |}]> (tables d)) d)
      else None
  | None => None
  end.

(** [DELETE FROM tbl WHERE col = v], without the triggers. *)
Definition delete_where (d : database) (tbl col : string) (v : value)
  : option database :=
  match tables d !! tbl with
  | Some t =>
      match column_index col (columns t) with
      | Some _ =>
          Some (set_tables
                  (<[tbl := {| columns := columns t;
                               rows := filter (fun r => negb (row_matches t col v r)) (rows t) |}]>
                     (tables d)) d)
      | None => None
      end
  | None => None
  end.

(** The body of a trigger for one deleted row whose [pkgKey] is [old]. *)
Fixpoint run_trigger_body (d : database) (old : value) (deletes : list string)
  : option database :=
  match deletes with
  | [] => Some d
  | t :: rest =>
      match delete_where d t "pkgKey" old with
      | Some d' => run_trigger_body d' old rest
      | None => None
      end
  end.

(** The AFTER DELETE triggers declared on [tbl], in the order SQLite's
    schema table lists them (here: by name). *)
Definition triggers_on (d : database) (tbl : string) : list trigger :=
  filter (fun tg => bool_decide (trig_table tg = tbl)) (snd <$> map_to_list (triggers d)).

Fixpoint fire_triggers (d : database) (old : value) (tgs : list trigger)
  : option database :=
  match tgs with
  | [] => Some d
  | tg :: rest =>
      match run_trigger_body d old (trig_deletes tg) with
      | Some d' => fire_triggers d' old rest
      | None => None
      end
  end.

(** The triggers fire once for every row deleted. *)
Fixpoint fire_for_rows (d : database) (t : table) (tgs : list trigger)
    (deleted : list (list value)) : option database :=
  match deleted with
  | [] => Some d
  | r :: rest =>
      match cell t "pkgKey" r with
      | Some old =>
          match fire_triggers d old tgs with
          | Some d' => fire_for_rows d' t tgs rest
          | None => None
          end
      | None => None
      end
  end.

(** [DELETE FROM tbl WHERE col = v] as SQLite runs it: the rows go, then
    the AFTER DELETE triggers on [tbl] fire for each of them; an error in
    a trigger undoes the statement. *)
Definition delete_from_where (d : database) (tbl col : string) (v : value)
  : option database :=
  match tables d !! tbl, delete_where d tbl col v with
  | Some t, Some d1 =>
      match triggers_on d tbl with
      | [] => Some d1
      | tgs => fire_for_rows d1 t tgs (filter (fun r => row_matches t col v r) (rows t))
      end
  | _, _ => None
  end.

(** One statement run to completion on a database: [None] is an error
    result, which leaves the database as it was. *)
Definition run_sql (d : database) (q : sql) : option database :=
  match q with
  | CREATE_TABLE_db_info =>
      if object_exists d "db_info" then None else Some (set_db_info (Some []) d)
  | DELETE_FROM_db_info =>
      match db_info d with
      | Some _ => Some (set_db_info (Some []) d)
      | None => None
      end
  | INSERT_INTO_db_info v body =>
      match db_info d, sql_literal body with
      | Some stamps, Some text =>
          Some (set_db_info (Some (stamps ++ [mkStamp v text])) d)
      | _, _ => None
      end
  | PRAGMA_synchronous _ => Some d
  | CREATE_TABLE name cols =>
      if object_exists d name then None
      else Some (set_tables (<[name := {| columns := cols; rows := [] |}]> (tables d)) d)
  | CREATE_INDEX name tbl col =>
      if object_exists d name then None
      else match tables d !! tbl with
           | Some t =>
               match column_index col (columns t) with
               | Some _ => Some (set_indexes (<[name := (tbl, col)]> (indexes d)) d)
               | None => None
               end
           | None => None
           end
  | CREATE_TRIGGER name tbl deletes =>
      match triggers d !! name, tables d !! tbl with
      | None, Some _ =>
          Some (set_triggers (<[name := mkTrigger tbl deletes]> (triggers d)) d)
      | _, _ => None
      end
  | INSERT_INTO tbl cols vals => insert_into d tbl cols vals
  | DELETE_FROM_WHERE tbl col v => delete_from_where d tbl col v
  end.

(* ===================================================================== *)
(** ** The process and its file system *)
(* ===================================================================== *)

(** What a path holds: a database; a file that is no database
    (another format or version), which [sqlite3_open] opens all the same,
    since it does not read the file, and on which every statement then
    fails; a file [sqlite3_open] cannot open and [unlink] removes (a
    file the process may not read, in a directory it may write); or
    something neither opened nor removed (a directory). *)
Inductive file :=
  | Database (d : database)
  | Foreign
  | Unreadable
  | Blocked.

(** Modelled from the spec: the levels of debug.h, which is not among the
    sources; [db.c] uses these two. *)
Inductive DebugLevel := DEBUG_LEVEL_INFO | DEBUG_LEVEL_ERROR.

(** Result codes. *)
Inductive rc := SQLITE_OK | SQLITE_ERROR | SQLITE_CANTOPEN | SQLITE_DONE.

Global Instance rc_eq_dec : EqDecision rc.
Proof. solve_decision. Defined.

(** The state the functions of [db.c] act on: the files; the rowid of the
    last insert; for the coming calls of [sqlite3_step], whether the
    storage fails them ([true]: disk full, I/O error; no entry: it does
    not); and what [debug] has printed. *)
Record world := mkWorld {
  fs : gmap string file;
  last_insert_rowid : Z;
  step_faults : list bool;
  debug_log : list (DebugLevel * string)
}.

Definition set_fs (f : gmap string file) (w : world) : world :=
  {| fs := f; last_insert_rowid := last_insert_rowid w;
     step_faults := step_faults w; debug_log := debug_log w |}.

Definition set_last_insert_rowid (k : Z) (w : world) : world :=
  {| fs := fs w; last_insert_rowid := k;
     step_faults := step_faults w; debug_log := debug_log w |}.

Definition set_step_faults (l : list bool) (w : world) : world :=
  {| fs := fs w; last_insert_rowid := last_insert_rowid w;
     step_faults := l; debug_log := debug_log w |}.

(** Modelled from the spec: [debug (level, format, ...)] of debug.h
    reports a message; the model appends it to a log, keeping the format
    and not its arguments. *)
Definition debug (level : DebugLevel) (message : string) (w : world) : world :=
  {| fs := fs w; last_insert_rowid := last_insert_rowid w;
     step_faults := step_faults w; debug_log := debug_log w ++ [(level, message)] |}.

(** A connection ([sqlite3 *]) is known by the path it was opened on. *)
Abbreviation sqlite3 := string (only parsing).

(** A [GError]: the format of its message. *)
Abbreviation GError := string (only parsing).

Definition get_db (w : world) (db : sqlite3) : option database :=
  match fs w !! db with
  | Some (Database d) => Some d
  | _ => None
  end.

Definition set_db (db : sqlite3) (d : database) (w : world) : world :=
  set_fs (<[db := Database d]> (fs w)) w.

(** [g_file_test (path, G_FILE_TEST_EXISTS)]. *)
Definition g_file_test_exists (w : world) (path : string) : bool :=
  bool_decide (is_Some (fs w !! path)).

(** [sqlite3_open]: an absent file is created empty; a file that can
    be opened is opened, whatever it holds. *)
Definition sqlite3_open (w : world) (path : string) : world * rc :=
  match fs w !! path with
  | Some (Database _) => (w, SQLITE_OK)
  | Some Foreign => (w, SQLITE_OK)
  | Some Unreadable => (w, SQLITE_CANTOPEN)
  | Some Blocked => (w, SQLITE_CANTOPEN)
  | None => (set_db path empty_database w, SQLITE_OK)
  end.

(** [sqlite3_close]: nothing of the connection is kept, so nothing changes. *)
Definition sqlite3_close (w : world) (db : sqlite3) : world := w.

(** [unlink]; its result is not looked at. *)
Definition unlink (w : world) (path : string) : world :=
  match fs w !! path with
  | Some Blocked => w
  | _ => set_fs (delete path (fs w)) w
  end.

(** [sqlite3_exec] with no callback. *)
Definition sqlite3_exec (w : world) (db : sqlite3) (q : sql) : world * rc :=
  match get_db w db with
  | Some d =>
      match run_sql d q with
      | Some d' => (set_db db d' w, SQLITE_OK)
      | None => (w, SQLITE_ERROR)
      end
  | None => (w, SQLITE_ERROR)
  end.

(* ===================================================================== *)
(** ** db.c: the coherency protocol *)
(* ===================================================================== *)

Definition yum_db_filename (prefix : string) : string := prefix +:+ ".sqlite".

Inductive DBStatus :=
  | DB_STATUS_OK
  | DB_STATUS_VERSION_MISMATCH
  | DB_STATUS_CHECKSUM_MISMATCH
  | DB_STATUS_ERROR.

(** Modelled from the spec: [CreateTablesFn] is declared in db.h, which is
    not among the sources: the caller's "create tables" capability, called
    as [create_tables (db, err)]. *)
Definition CreateTablesFn := world -> sqlite3 -> world * option GError.

Section Cache.

(** The compiled format-version constant, an [int] that db.h defines;
    db.h is not among the sources, so its value is a parameter. *)
Variable YUM_SQLITE_CACHE_DBVERSION : Z.

(** [dbinfo_status]: the first row of
    [SELECT dbversion, checksum FROM db_info] decides; with no table (the
    statement does not compile) or no row the status stays
    [DB_STATUS_ERROR]. *)
Definition dbinfo_status (w : world) (db : sqlite3) (checksum : string)
  : world * DBStatus :=
  match get_db w db with
  | Some d =>
      match db_info d with
      | Some (row :: _) =>
          let dbversion := stamp_dbversion row in
          let dbchecksum := stamp_checksum row in
          if negb (Z.eqb dbversion YUM_SQLITE_CACHE_DBVERSION) then
            (debug DEBUG_LEVEL_INFO
               "Warning: cache file is version %d, we need %d, will regenerate" w,
             DB_STATUS_VERSION_MISMATCH)
          else if negb (String.eqb checksum dbchecksum) then
            (debug DEBUG_LEVEL_INFO
               "sqlite cache needs updating, reading in metadata\n" w,
             DB_STATUS_CHECKSUM_MISMATCH)
          else (w, DB_STATUS_OK)
      | Some [] => (w, DB_STATUS_ERROR)
      | None => (w, DB_STATUS_ERROR)
      end
  | None => (w, DB_STATUS_ERROR)
  end.

Definition yum_db_create_dbinfo_table (w : world) (db : sqlite3)
  : world * option GError :=
  let '(w1, r) := sqlite3_exec w db CREATE_TABLE_db_info in
  if bool_decide (r <> SQLITE_OK)
  then (w1, Some "Can not create db_info table: %s")
  else (w1, None).

(** The end of [yum_db_open], from [if (!db)] on.  [db] is the connection
    still open, if any.  The result is the connection returned ([None]:
    NULL) and the error set. *)
Definition yum_db_open_create (w : world) (path : string) (db : option sqlite3)
    (create_tables : CreateTablesFn) : world * option sqlite3 * option GError :=
  let '(w1, r) :=
    match db with
    | None => sqlite3_open w path
    | Some _ => (w, SQLITE_OK)
    end in
  if bool_decide (r <> SQLITE_OK) then
    (sqlite3_close w1 path, None, Some "Can not open SQL database: %s")
  else
    let '(w2, err) := yum_db_create_dbinfo_table w1 path in
    match err with
    | Some e => (sqlite3_close w2 path, None, Some e)
    | None =>
        let '(w3, err) := create_tables w2 path in
        match err with
        | Some e => (sqlite3_close w3 path, None, Some e)
        | None =>
            let '(w4, _) := sqlite3_exec w3 path (PRAGMA_synchronous 0) in
            (w4, Some path, None)
        end
    end.

Definition yum_db_open (w : world) (path checksum : string)
    (create_tables : CreateTablesFn) : world * option sqlite3 * option GError :=
  let db_existed := g_file_test_exists w path in
  let '(w1, r) := sqlite3_open w path in
  if bool_decide (r = SQLITE_OK) then
    if db_existed then
      let '(w2, status) := dbinfo_status w1 path checksum in
      match status with
      | DB_STATUS_OK =>
          (* Everything is up-to-date *)
          (sqlite3_close w2 path, None, None)
      | DB_STATUS_CHECKSUM_MISMATCH =>
          let '(w3, _) := sqlite3_exec w2 path (PRAGMA_synchronous 0) in
          let '(w4, _) := sqlite3_exec w3 path DELETE_FROM_db_info in
          (w4, Some path, None)
      | DB_STATUS_VERSION_MISMATCH
      | DB_STATUS_ERROR =>
          yum_db_open_create (sqlite3_close w2 path) path None create_tables
      end
    else yum_db_open_create w1 path (Some path) create_tables
  else
    (* Let's try to delete it and try again,
       maybe it's a sqlite3 version mismatch. *)
    yum_db_open_create (unlink (sqlite3_close w1 path) path) path None create_tables.

Definition yum_db_dbinfo_update (w : world) (db : sqlite3) (checksum : string)
  : world * option GError :=
  let sql := INSERT_INTO_db_info YUM_SQLITE_CACHE_DBVERSION checksum in
  let '(w1, r) := sqlite3_exec w db sql in
  if bool_decide (r <> SQLITE_OK)
  then (w1, Some "Can not update dbinfo table: %s")
  else (w1, None).

End Cache.

(* ===================================================================== *)
(** ** db.c: the schemas *)
(* ===================================================================== *)

(** A function that runs statements in order and, at the first that
    fails, sets the error that goes with it and returns. *)
Fixpoint exec_script (w : world) (db : sqlite3) (script : list (sql * GError))
  : world * option GError :=
  match script with
  | [] => (w, None)
  | (q, message) :: rest =>
      let '(w1, r) := sqlite3_exec w db q in
      if bool_decide (r <> SQLITE_OK) then (w1, Some message)
      else exec_script w1 db rest
  end.

Definition primary_packages_columns : list (string * coltype) :=
  [("pkgKey", INTEGER_PRIMARY_KEY); ("pkgId", TEXT); ("name", TEXT);
   ("arch", TEXT); ("version", TEXT); ("epoch", TEXT); ("release", TEXT);
   ("summary", TEXT); ("description", TEXT); ("url", TEXT);
   ("time_file", TEXT); ("time_build", TEXT); ("rpm_license", TEXT);
   ("rpm_vendor", TEXT); ("rpm_group", TEXT); ("rpm_buildhost", TEXT);
   ("rpm_sourcerpm", TEXT); ("rpm_header_start", TEXT);
   ("rpm_header_end", TEXT); ("rpm_packager", TEXT); ("size_package", TEXT);
   ("size_installed", TEXT); ("size_archive", TEXT); ("location_href", TEXT);
   ("location_base", TEXT); ("checksum_type", TEXT); ("checksum_value", TEXT)].

Definition files_columns : list (string * coltype) :=
  [("name", TEXT); ("type", TEXT); ("pkgKey", TEXT)].

Definition dependency_columns : list (string * coltype) :=
  [("name", TEXT); ("flags", TEXT); ("epoch", TEXT); ("version", TEXT);
   ("release", TEXT); ("pkgKey", TEXT)].

Definition deps : list string := ["requires"; "provides"; "conflicts"; "obsoletes"].

Definition primary_script : list (sql * GError) :=
  [(CREATE_TABLE "packages" primary_packages_columns,
    "Can not create packages table: %s");
   (CREATE_INDEX "packagename" "packages" "name",
    "Can not create packagename index: %s");
   (CREATE_INDEX "packageId" "packages" "pkgId",
    "Can not create packageId index: %s");
   (CREATE_TABLE "files" files_columns,
    "Can not create files table: %s")]
  ++ map (fun dep => (CREATE_TABLE dep dependency_columns,
                      "Can not create %s table: %s")) deps
  ++ [(CREATE_INDEX "providesname" "provides" "name",
       "Can not create providesname index: %s");
      (CREATE_TRIGGER "removals" "packages"
         ["files"; "requires"; "provides"; "conflicts"; "obsoletes"],
       "Can not create removals trigger: %s")].

Definition yum_db_create_primary_tables : CreateTablesFn :=
  fun w db => exec_script w db primary_script.

Definition ids_packages_columns : list (string * coltype) :=
  [("pkgKey", INTEGER_PRIMARY_KEY); ("pkgId", TEXT)].

Definition filelist_columns : list (string * coltype) :=
  [("pkgKey", INTEGER); ("dirname", TEXT); ("filenames", TEXT); ("filetypes", TEXT)].

Definition filelist_script : list (sql * GError) :=
  [(CREATE_TABLE "packages" ids_packages_columns,
    "Can not create packages table: %s");
   (CREATE_TABLE "filelist" filelist_columns,
    "Can not create filelist table: %s");
   (CREATE_INDEX "keyfile" "filelist" "pkgKey",
    "Can not create keyfile index: %s");
   (CREATE_INDEX "pkgId" "packages" "pkgId",
    "Can not create pkgId index: %s");
   (CREATE_TRIGGER "remove_filelist" "packages" ["filelist"],
    "Can not create remove_filelist trigger: %s")].

Definition yum_db_create_filelist_tables : CreateTablesFn :=
  fun w db => exec_script w db filelist_script.

Definition changelog_columns : list (string * coltype) :=
  [("pkgKey", INTEGER); ("author", TEXT); ("date", TEXT); ("changelog", TEXT)].

Definition other_script : list (sql * GError) :=
  [(CREATE_TABLE "packages" ids_packages_columns,
    "Can not create packages table: %s");
   (CREATE_TABLE "changelog" changelog_columns,
    "Can not create changelog table: %s");
   (CREATE_INDEX "keychange" "changelog" "pkgKey",
    "Can not create keychange index: %s");
   (CREATE_INDEX "pkgId" "packages" "pkgId",
    "Can not create pkgId index: %s");
   (CREATE_TRIGGER "remove_changelogs" "packages" ["changelog"],
    "Can not create remove_changelogs trigger: %s")].

Definition yum_db_create_other_tables : CreateTablesFn :=
  fun w db => exec_script w db other_script.

(** The three kinds of cache file. *)
Inductive SchemaKind := Primary | FileLists | Other.

Definition create_tables_of (kind : SchemaKind) : CreateTablesFn :=
  match kind with
  | Primary => yum_db_create_primary_tables
  | FileLists => yum_db_create_filelist_tables
  | Other => yum_db_create_other_tables
  end.

(** The tables of a kind whose rows belong to a package. *)
Definition dependent_tables (kind : SchemaKind) : list string :=
  match kind with
  | Primary => ["files"; "requires"; "provides"; "conflicts"; "obsoletes"]
  | FileLists => ["filelist"]
  | Other => ["changelog"]
  end.

(* ===================================================================== *)
(** ** db.c: the row writers *)
(* ===================================================================== *)

(** A prepared INSERT ([sqlite3_stmt *]): its connection, table and the
    columns its parameters stand for, in order. *)
Record sqlite3_stmt := mkStmt {
  stmt_db : sqlite3;
  stmt_table : string;
  stmt_columns : list string
}.

(** [sqlite3_prepare] of [INSERT INTO tbl (cols) VALUES (?, ..)]: the
    statement compiles when the table and the columns exist. *)
Definition sqlite3_prepare_insert (w : world) (db : sqlite3) (tbl : string)
    (cols : list string) : option sqlite3_stmt :=
  match get_db w db with
  | Some d =>
      match tables d !! tbl with
      | Some t => if has_columns t cols then Some (mkStmt db tbl cols) else None
      | None => None
      end
  | None => None
  end.

(** [sqlite3_bind_text] of a [char *], NULL included. *)
Definition sqlite3_bind_text (s : option string) : value :=
  match s with
  | Some s => VText s
  | None => VNull
  end.

(** [sqlite3_bind_int]: the parameter is an [int]. *)
Definition sqlite3_bind_int (v : Z) : value := VInt (to_int v).

(** [sqlite3_step] of a prepared INSERT with its parameters bound
    (followed by [sqlite3_reset]).  A step the storage fails changes no
    table. *)
Definition sqlite3_step (w : world) (handle : sqlite3_stmt) (binds : list value)
  : world * rc :=
  match step_faults w with
  | true :: rest => (set_step_faults rest w, SQLITE_ERROR)
  | faults =>
      let w0 := set_step_faults (tail faults) w in
      match get_db w0 (stmt_db handle) with
      | Some d =>
          match tables d !! stmt_table handle,
                insert_into d (stmt_table handle) (stmt_columns handle) binds with
          | Some t, Some d' =>
              (set_last_insert_rowid (next_rowid t) (set_db (stmt_db handle) d' w0),
               SQLITE_DONE)
          | _, _ => (w0, SQLITE_ERROR)
          end
      | None => (w0, SQLITE_ERROR)
      end
  end.

Definition sqlite3_last_insert_rowid (w : world) (db : sqlite3) : Z :=
  last_insert_rowid w.

(** Modelled from the spec: [Dependency] and [ChangelogEntry] are declared
    in package.h, which is not among the sources.  The fields are those of
    the specification's Dependency and ChangelogEntry, each a [char *] that
    [db.c] passes to [sqlite3_bind_text] (NULL is [None]). *)
Record Dependency := mkDependency {
  dep_name : option string;
  dep_flags : option string;
  dep_epoch : option string;
  dep_version : option string;
  dep_release : option string
}.

Record ChangelogEntry := mkChangelogEntry {
  cl_author : option string;
  cl_date : option string;
  cl_changelog : option string
}.

(** Modelled from the spec: [Package] is declared in package.h, which is
    not among the sources.  The fields are those [db.c] reads or writes:
    the surrogate key (a [gint64]), the external identity and the
    descriptive attributes ([char *]), the files and the changelog. *)
Record Package := mkPackage {
  p_pkgKey : Z;
  p_pkgId : option string;
  p_name : option string;
  p_arch : option string;
  p_version : option string;
  p_epoch : option string;
  p_release : option string;
  p_summary : option string;
  p_description : option string;
  p_url : option string;
  p_time_file : option string;
  p_time_build : option string;
  p_rpm_license : option string;
  p_rpm_vendor : option string;
  p_rpm_group : option string;
  p_rpm_buildhost : option string;
  p_rpm_sourcerpm : option string;
  p_rpm_header_start : option string;
  p_rpm_header_end : option string;
  p_rpm_packager : option string;
  p_size_package : option string;
  p_size_installed : option string;
  p_size_archive : option string;
  p_location_href : option string;
  p_location_base : option string;
  p_checksum_type : option string;
  p_checksum_value : option string;
  p_files : list PackageFile;
  p_changelogs : list ChangelogEntry
}.

Definition set_pkgKey (k : Z) (p : Package) : Package :=
  mkPackage k (p_pkgId p) (p_name p) (p_arch p) (p_version p) (p_epoch p)
    (p_release p) (p_summary p) (p_description p) (p_url p) (p_time_file p)
    (p_time_build p) (p_rpm_license p) (p_rpm_vendor p) (p_rpm_group p)
    (p_rpm_buildhost p) (p_rpm_sourcerpm p) (p_rpm_header_start p)
    (p_rpm_header_end p) (p_rpm_packager p) (p_size_package p)
    (p_size_installed p) (p_size_archive p) (p_location_href p)
    (p_location_base p) (p_checksum_type p) (p_checksum_value p)
    (p_files p) (p_changelogs p).

(** What a [_prepare] function returns: the statement, or NULL and the
    error set. *)
Definition prepared (o : option sqlite3_stmt) (message : GError)
  : option sqlite3_stmt * option GError :=
  match o with
  | Some handle => (Some handle, None)
  | None => (None, Some message)
  end.

Definition package_insert_columns : list string :=
  ["pkgId"; "name"; "arch"; "version"; "epoch"; "release"; "summary";
   "description"; "url"; "time_file"; "time_build"; "rpm_license";
   "rpm_vendor"; "rpm_group"; "rpm_buildhost"; "rpm_sourcerpm";
   "rpm_header_start"; "rpm_header_end"; "rpm_packager"; "size_package";
   "size_installed"; "size_archive"; "location_href"; "location_base";
   "checksum_type"; "checksum_value"].

Definition yum_db_package_prepare (w : world) (db : sqlite3)
  : option sqlite3_stmt * option GError :=
  prepared (sqlite3_prepare_insert w db "packages" package_insert_columns)
           "Can not prepare packages insertion: %s".

Definition yum_db_package_write (w : world) (db : sqlite3)
    (handle : sqlite3_stmt) (p : Package) : world * Package :=
  let binds :=
    map sqlite3_bind_text
      [p_pkgId p; p_name p; p_arch p; p_version p; p_epoch p; p_release p;
       p_summary p; p_description p; p_url p; p_time_file p; p_time_build p;
       p_rpm_license p; p_rpm_vendor p; p_rpm_group p; p_rpm_buildhost p;
       p_rpm_sourcerpm p; p_rpm_header_start p; p_rpm_header_end p;
       p_rpm_packager p; p_size_package p; p_size_installed p;
       p_size_archive p; p_location_href p; p_location_base p;
       p_checksum_type p; p_checksum_value p] in
  let '(w1, r) := sqlite3_step w handle binds in
  if bool_decide (r <> SQLITE_DONE) then
    (debug DEBUG_LEVEL_ERROR "Error adding package to SQL: %s" w1, p)
  else (w1, set_pkgKey (sqlite3_last_insert_rowid w1 db) p).

Definition dependency_insert_columns : list string :=
  ["name"; "flags"; "epoch"; "version"; "release"; "pkgKey"].

Definition yum_db_dependency_prepare (w : world) (db : sqlite3) (tbl : string)
  : option sqlite3_stmt * option GError :=
  prepared (sqlite3_prepare_insert w db tbl dependency_insert_columns)
           "Can not prepare dependency insertion: %s".

Definition yum_db_dependency_write (w : world) (db : sqlite3)
    (handle : sqlite3_stmt) (pkgKey : Z) (dep : Dependency) : world :=
  let binds :=
    [sqlite3_bind_text (dep_name dep);
     sqlite3_bind_text (dep_flags dep);
     sqlite3_bind_text (dep_epoch dep);
     sqlite3_bind_text (dep_version dep);
     sqlite3_bind_text (dep_release dep);
     sqlite3_bind_int pkgKey] in
  let '(w1, r) := sqlite3_step w handle binds in
  if bool_decide (r <> SQLITE_DONE)
  then debug DEBUG_LEVEL_ERROR "Error adding dependency to SQL: %s" w1
  else w1.

Definition file_insert_columns : list string := ["name"; "type"; "pkgKey"].

Definition yum_db_file_prepare (w : world) (db : sqlite3)
  : option sqlite3_stmt * option GError :=
  prepared (sqlite3_prepare_insert w db "files" file_insert_columns)
           "Can not prepare file insertion: %s".

(** Parameter 1 is [file->type] and parameter 2 is [file->name]. *)
Definition yum_db_file_write (w : world) (db : sqlite3)
    (handle : sqlite3_stmt) (pkgKey : Z) (file : PackageFile) : world :=
  let binds :=
    [sqlite3_bind_text (Some (pf_type file));
     sqlite3_bind_text (Some (pf_name file));
     sqlite3_bind_int pkgKey] in
  let '(w1, r) := sqlite3_step w handle binds in
  if bool_decide (r <> SQLITE_DONE)
  then debug DEBUG_LEVEL_ERROR "Error adding package file to SQL: %s" w1
  else w1.

Definition yum_db_package_ids_prepare (w : world) (db : sqlite3)
  : option sqlite3_stmt * option GError :=
  prepared (sqlite3_prepare_insert w db "packages" ["pkgId"])
           "Can not prepare package ids insertion: %s".

Definition yum_db_package_ids_write (w : world) (db : sqlite3)
    (handle : sqlite3_stmt) (p : Package) : world * Package :=
  let binds := [sqlite3_bind_text (p_pkgId p)] in
  let '(w1, r) := sqlite3_step w handle binds in
  if bool_decide (r <> SQLITE_DONE) then
    (debug DEBUG_LEVEL_ERROR "Error adding package to SQL: %s" w1, p)
  else (w1, set_pkgKey (sqlite3_last_insert_rowid w1 db) p).

Definition filelist_insert_columns : list string :=
  ["pkgKey"; "dirname"; "filenames"; "filetypes"].

Definition yum_db_filelists_prepare (w : world) (db : sqlite3)
  : option sqlite3_stmt * option GError :=
  prepared (sqlite3_prepare_insert w db "filelist" filelist_insert_columns)
           "Can not prepare filelist insertion: %s".

Record FileWriteInfo := mkFileWriteInfo {
  info_db : sqlite3;
  info_handle : sqlite3_stmt;
  info_pkgKey : Z
}.

(** The callback of [g_hash_table_foreach]: one row for one directory. *)
Definition write_file (key : string) (value : EncodedPackageFile)
    (info : FileWriteInfo) (w : world) : world :=
  let binds :=
    [sqlite3_bind_int (info_pkgKey info);
     sqlite3_bind_text (Some key);
     sqlite3_bind_text (Some (files value));
     sqlite3_bind_text (Some (types value))] in
  let '(w1, r) := sqlite3_step w (info_handle info) binds in
  if bool_decide (r <> SQLITE_DONE)
  then debug DEBUG_LEVEL_ERROR "Error adding file to SQL: %s" w1
  else w1.

(** [g_hash_table_foreach]: the order is the table's own; the model takes
    the order in which [map_to_list] lists the keys. *)
Definition g_hash_table_foreach {A} (hash : gmap string A)
    (func : string -> A -> world -> world) (w : world) : world :=
  fold_left (fun w kv => func (fst kv) (snd kv) w) (map_to_list hash) w.

Definition yum_db_filelists_write (w : world) (db : sqlite3)
    (handle : sqlite3_stmt) (p : Package) : world :=
  let info := mkFileWriteInfo db handle (p_pkgKey p) in
  let hash := package_files_to_hash (p_files p) in
  g_hash_table_foreach hash (fun key value => write_file key value info) w.

Definition changelog_insert_columns : list string :=
  ["pkgKey"; "author"; "date"; "changelog"].

Definition yum_db_changelog_prepare (w : world) (db : sqlite3)
  : option sqlite3_stmt * option GError :=
  prepared (sqlite3_prepare_insert w db "changelog" changelog_insert_columns)
           "Can not prepare changelog insertion: %s".

(** The body of the loop of [yum_db_changelog_write]. *)
Definition changelog_write_entry (handle : sqlite3_stmt) (pkgKey : Z)
    (w : world) (entry : ChangelogEntry) : world :=
  let binds :=
    [sqlite3_bind_int pkgKey;
     sqlite3_bind_text (cl_author entry);
     sqlite3_bind_text (cl_date entry);
     sqlite3_bind_text (cl_changelog entry)] in
  let '(w1, r) := sqlite3_step w handle binds in
  if bool_decide (r <> SQLITE_DONE)
  then debug DEBUG_LEVEL_ERROR "Error adding changelog to SQL: %s" w1
  else w1.

Definition yum_db_changelog_write (w : world) (db : sqlite3)
    (handle : sqlite3_stmt) (p : Package) : world :=
  fold_left (changelog_write_entry handle (p_pkgKey p)) (p_changelogs p) w.

(* ===================================================================== *)
(** ** Observations used in the statements *)
(* ===================================================================== *)

(** The rows of table [tbl] of the database behind [db] (none when there
    is no such database or table). *)
Definition rows_of (w : world) (db : sqlite3) (tbl : string) : list (list value) :=
  match get_db w db with
  | Some d =>
      match tables d !! tbl with
      | Some t => rows t
      | None => []
      end
  | None => []
  end.

(** The rows of [db_info] of the database behind [db]; [None] when there
    is no such database or table. *)
Definition stamps_of (w : world) (db : sqlite3) : option (list Stamp) :=
  match get_db w db with
  | Some d => db_info d
  | None => None
  end.

Fixpoint no_apostrophe (s : string) : bool :=
  match s with
  | EmptyString => true
  | String c s' => negb (Ascii.eqb c "'"%char) && no_apostrophe s'
  end.

(** The columns of table [tbl] of the database behind [db]. *)
Definition table_columns (w : world) (db : sqlite3) (tbl : string)
  : option (list (string * coltype)) :=
  match get_db w db with
  | Some d => columns <$> tables d !! tbl
  | None => None
  end.

(** The entries of [l] whose step the storage does not fail, when the
    steps are taken in order against the fault list [faults]. *)
Fixpoint kept {A} (faults : list bool) (l : list A) {struct l} : list A :=
  match l with
  | [] => []
  | x :: l' =>
      match faults with
      | true :: faults' => kept faults' l'
      | false :: faults' => x :: kept faults' l'
      | [] => x :: l'
      end
  end.

(** What every row writer does with its statement once the parameters
    are bound: one step, and a message when it did not end well. *)
Definition step_and_log (message : string) (handle : sqlite3_stmt)
    (binds : list value) (w : world) : world :=
  let '(w1, r) := sqlite3_step w handle binds in
  if bool_decide (r <> SQLITE_DONE)
  then debug DEBUG_LEVEL_ERROR message w1
  else w1.

(** The parameters each writer binds. *)
Definition dependency_binds (pkgKey : Z) (dep : Dependency) : list value :=
  [sqlite3_bind_text (dep_name dep); sqlite3_bind_text (dep_flags dep);
   sqlite3_bind_text (dep_epoch dep); sqlite3_bind_text (dep_version dep);
   sqlite3_bind_text (dep_release dep); sqlite3_bind_int pkgKey].

Definition file_binds (pkgKey : Z) (file : PackageFile) : list value :=
  [sqlite3_bind_text (Some (pf_type file));
   sqlite3_bind_text (Some (pf_name file));
   sqlite3_bind_int pkgKey].

Definition filelist_binds (pkgKey : Z) (key : string)
    (enc : EncodedPackageFile) : list value :=
  [sqlite3_bind_int pkgKey; sqlite3_bind_text (Some key);
   sqlite3_bind_text (Some (files enc)); sqlite3_bind_text (Some (types enc))].

Definition changelog_binds (pkgKey : Z) (entry : ChangelogEntry) : list value :=
  [sqlite3_bind_int pkgKey; sqlite3_bind_text (cl_author entry);
   sqlite3_bind_text (cl_date entry); sqlite3_bind_text (cl_changelog entry)].

(** The statements of a script run on a database, up to the first that
    fails. *)
Fixpoint run_script (d : database) (script : list (sql * GError))
  : database * option GError :=
  match script with
  | [] => (d, None)
  | (q, message) :: rest =>
      match run_sql d q with
      | Some d' => run_script d' rest
      | None => (d, Some message)
      end
  end.

Definition script_of (kind : SchemaKind) : list (sql * GError) :=
  match kind with
  | Primary => primary_script
  | FileLists => filelist_script
  | Other => other_script
  end.

(** The database [yum_db_open] leaves in a file it creates: an empty
    [db_info] and the schema of the kind. *)
Definition schema_db (kind : SchemaKind) : database :=
  fst (run_script (set_db_info (Some []) empty_database) (script_of kind)).

(** The statements that declare schema objects. *)
Definition schema_statement (q : sql) : bool :=
  match q with
  | CREATE_TABLE _ _ | CREATE_INDEX _ _ _ | CREATE_TRIGGER _ _ _ => true
  | _ => false
  end.

(** A world with one file and nothing else. *)
Definition one_file_world (path : string) (f : file) : world :=
  {| fs := {[ path := f ]}; last_insert_rowid := 0;
     step_faults := []; debug_log := [] |}.

Definition empty_world : world :=
  {| fs := ∅; last_insert_rowid := 0; step_faults := []; debug_log := [] |}.

(** A world with a new Primary cache and a new FileLists cache. *)
Definition two_cache_world : world :=
  {| fs := {[ "primary.sqlite" := Database (schema_db Primary);
              "filelists.sqlite" := Database (schema_db FileLists) ]};
     last_insert_rowid := 0; step_faults := []; debug_log := [] |}.

(* ===================================================================== *)
(** ** Deleting a package: what the trigger leaves *)
(* ===================================================================== *)

(** A database has the schema of [d0]: the same tables with the same
    columns, the same indexes and the same triggers; the rows are free. *)
Definition same_schema (d d0 : database) : Prop :=
  columns <$> tables d = columns <$> tables d0 /\
  indexes d = indexes d0 /\
  triggers d = triggers d0.

(** [r] is a row of [t] whose [pkgKey] is [k]. *)
Definition carries (t : table) (k : Z) (r : list value) : bool :=
  row_matches t "pkgKey" (VInt k) r.

(** [t] without the rows whose [pkgKey] is [k]. *)
Definition without_key (k : Z) (t : table) : table :=
  {| columns := columns t;
     rows := filter (fun r => negb (carries t k r)) (rows t) |}.




Definition table_rows (d : database) (tbl : string) : list (list value) :=
  match tables d !! tbl with
  | Some t => rows t
  | None => []
  end.


(** A FileLists cache with two packages and three directory rows. *)
Definition example_packages : table :=
  {| columns := ids_packages_columns;
     rows := [[VInt 1; VText "id1"]; [VInt 2; VText "id2"]] |}.

Definition example_filelist : table :=
  {| columns := filelist_columns;
     rows := [[VInt 1; VText "/a"; VText "b.txt/c.txt"; VText "ff"];
              [VInt 2; VText "/usr"; VText "bin"; VText "d"];
              [VInt 1; VText "/"; VText "a"; VText "d"]] |}.

Definition example_filelists_db : database :=
  set_tables (<["filelist" := example_filelist]>
                (<["packages" := example_packages]>
                   (tables (schema_db FileLists))))
             (schema_db FileLists).

(* ===================================================================== *)
(** ** The codec in closed form *)
(* ===================================================================== *)

(** The code the [if] chain of [package_files_to_hash] appends for a
    type: none for a type it does not name. *)
Definition type_code (t : string) : option ascii :=
  if String.eqb t "dir" then Some "d"%char
  else if String.eqb t "file" then Some "f"%char
  else if String.eqb t "ghost" then Some "g"%char
  else None.

(** The base names of the entries, in order. *)
Definition basenames (g : list PackageFile) : list string :=
  map (fun f => g_path_get_basename (pf_name f)) g.

(** The codes of the entries whose type has one, in order. *)
Definition type_codes (g : list PackageFile) : string :=
  string_of_list_ascii (omap (fun f => type_code (pf_type f)) g).

(** Each name with a separator before it, one after the other. *)
Fixpoint prefixed (names : list string) : string :=
  match names with
  | [] => EmptyString
  | n :: rest => String "/"%char (n +:+ prefixed rest)
  end.

(* ===================================================================== *)
(** ** A rebuild: row writes in any number and order *)
(* ===================================================================== *)

(** One call of a row writer of [db.c]. *)
Inductive row_write :=
  | PackageWrite (handle : sqlite3_stmt) (p : Package)
  | PackageIdsWrite (handle : sqlite3_stmt) (p : Package)
  | DependencyWrite (handle : sqlite3_stmt) (pkgKey : Z) (dep : Dependency)
  | FileWrite (handle : sqlite3_stmt) (pkgKey : Z) (file : PackageFile)
  | FilelistsWrite (handle : sqlite3_stmt) (p : Package)
  | ChangelogWrite (handle : sqlite3_stmt) (p : Package).

Definition run_row_write (db : sqlite3) (w : world) (op : row_write) : world :=
  match op with
  | PackageWrite handle p => fst (yum_db_package_write w db handle p)
  | PackageIdsWrite handle p => fst (yum_db_package_ids_write w db handle p)
  | DependencyWrite handle pkgKey dep => yum_db_dependency_write w db handle pkgKey dep
  | FileWrite handle pkgKey file => yum_db_file_write w db handle pkgKey file
  | FilelistsWrite handle p => yum_db_filelists_write w db handle p
  | ChangelogWrite handle p => yum_db_changelog_write w db handle p
  end.

Definition run_row_writes (db : sqlite3) (ops : list row_write) (w : world) : world :=
  fold_left (run_row_write db) ops w.

(** What a row write is not to touch in a database file: the stamp rows,
    the columns of every table, the indexes and the triggers. *)
Definition frame_of (w : world) (path : string)
  : option (option (list Stamp) * gmap string (list (string * coltype))
            * gmap string (string * string) * gmap string trigger) :=
  match get_db w path with
  | Some d => Some (db_info d, columns <$> tables d, indexes d, triggers d)
  | None => None
  end.

(** [w'] differs from [w] at most in rows of tables, in the log, the
    fault list and the last rowid. *)
Definition same_frame (w w' : world) : Prop :=
  (forall path, frame_of w' path = frame_of w path) /\
  (forall path, get_db w path = None -> fs w' !! path = fs w !! path).

(* ===================================================================== *)
(** ** Packages and their rows *)
(* ===================================================================== *)

(** The attributes [yum_db_package_write] binds, each with the name of
    the field of [Package] it is read from. *)
Definition package_attributes (p : Package) : list (string * option string) :=
  [("pkgId", p_pkgId p); ("name", p_name p); ("arch", p_arch p);
   ("version", p_version p); ("epoch", p_epoch p); ("release", p_release p);
   ("summary", p_summary p); ("description", p_description p);
   ("url", p_url p); ("time_file", p_time_file p);
   ("time_build", p_time_build p); ("rpm_license", p_rpm_license p);
   ("rpm_vendor", p_rpm_vendor p); ("rpm_group", p_rpm_group p);
   ("rpm_buildhost", p_rpm_buildhost p); ("rpm_sourcerpm", p_rpm_sourcerpm p);
   ("rpm_header_start", p_rpm_header_start p);
   ("rpm_header_end", p_rpm_header_end p); ("rpm_packager", p_rpm_packager p);
   ("size_package", p_size_package p); ("size_installed", p_size_installed p);
   ("size_archive", p_size_archive p); ("location_href", p_location_href p);
   ("location_base", p_location_base p); ("checksum_type", p_checksum_type p);
   ("checksum_value", p_checksum_value p)].

(** The keys of the rows of a table whose first column is the key. *)
Definition keys_of (rs : list (list value)) : list Z :=
  omap (fun r => match r !! 0%nat with
                 | Some (VInt k) => Some k
                 | _ => None
                 end) rs.

(* ===================================================================== *)
(** ** db.c: reading the package ids back *)
(* ===================================================================== *)

Section ReadPackageIds.

(** SQLite converts between its storage classes when a column is read
    as another type than it holds.  The model does not follow the
    conversions: the text an integer is rendered as and the integer a
    text is read as are parameters. *)
Variable text_of_int : Z -> string.
Variable int_of_text : string -> Z.

(** The order in which [SELECT pkgId, pkgKey FROM packages] yields the
    rows of the table (that of the table or of an index: SQLite's
    choice). *)
Variable scan : table -> list (list value).

(** [sqlite3_column_text] of a column of the current row: NULL for a
    NULL value. *)
Definition sqlite3_column_text (v : option value) : option string :=
  match v with
  | Some (VText s) => Some s
  | Some (VInt n) => Some (text_of_int n)
  | Some VNull | None => None
  end.

(** [sqlite3_column_int] of a column of the current row: the 64-bit
    value converted to [int]; 0 for a NULL value. *)
Definition sqlite3_column_int (v : option value) : Z :=
  match v with
  | Some (VInt n) => to_int n
  | Some (VText s) => to_int (int_of_text s)
  | Some VNull | None => 0
  end.

(** [sqlite3_prepare] of [SELECT cols FROM tbl]: the statement compiles
    when the table and the columns exist; the model keeps the table it
    reads. *)
Definition sqlite3_prepare_select (w : world) (db : sqlite3) (tbl : string)
    (cols : list string) : option table :=
  match get_db w db with
  | Some d =>
      match tables d !! tbl with
      | Some t => if has_columns t cols then Some t else None
      | None => None
      end
  | None => None
  end.

(** [g_strdup]: NULL for NULL. *)
Definition g_strdup (s : option string) : option string := s.

(** What [yum_db_read_package_ids] reads in a row. *)
Definition pkgId_of (t : table) (r : list value) : option string :=
  sqlite3_column_text (cell t "pkgId" r).

Definition pkgKey_of (t : table) (r : list value) : Z :=
  sqlite3_column_int (cell t "pkgKey" r).

(** The loop [while ((rc = sqlite3_step (handle)) == SQLITE_ROW)] on the
    rows still to come, and the [rc] that ends it.  Every
    [sqlite3_step], the last one included, uses up one entry of the
    fault list.  [g_hash_table_insert] of a key the table holds replaces
    the value.  The result is [None] when the loop does not return:
    a NULL [pkgId] is handed to [g_hash_table_insert], whose
    [g_str_hash] reads the string. *)
Fixpoint read_package_ids_loop (t : table) (pending : list (list value))
    (w : world) (hash : gmap string Z) {struct pending}
  : option (world * gmap string Z * rc) :=
  match step_faults w with
  | true :: rest => Some (set_step_faults rest w, hash, SQLITE_ERROR)
  | faults =>
      let w0 := set_step_faults (tail faults) w in
      match pending with
      | [] => Some (w0, hash, SQLITE_DONE)
      | r :: pending' =>
          match g_strdup (pkgId_of t r) with
          | Some pkgId =>
              let pkgKey := pkgKey_of t r in
              read_package_ids_loop t pending' w0 (<[pkgId := pkgKey]> hash)
          | None => None
          end
      end
  end.

(** [yum_db_read_package_ids]: the hash returned ([None]: NULL) and the
    error set; no result at all when the loop does not return. *)
Definition yum_db_read_package_ids (w : world) (db : sqlite3)
  : option (world * option (gmap string Z) * option GError) :=
  match sqlite3_prepare_select w db "packages" ["pkgId"; "pkgKey"] with
  | None => Some (w, None, Some "Can not prepare SQL clause: %s")
  | Some t =>
      match read_package_ids_loop t (scan t) w ∅ with
      | Some (w1, hash, r) =>
          if bool_decide (r <> SQLITE_DONE)
          then Some (w1, Some hash, Some "Error reading from SQL: %s")
          else Some (w1, Some hash, None)
      | None => None
      end
  end.

(** The entries of [hash] are read from rows of [l]: each key is the
    [pkgId] of a row and its value the [pkgKey] of that row. *)
Definition entries_from (t : table) (l : list (list value))
    (hash : gmap string Z) : Prop :=
  forall s k, hash !! s = Some k ->
    exists r, r ∈ l /\ pkgId_of t r = Some s /\ pkgKey_of t r = k.

(** Every row of [l] has its [pkgId] among the keys of [hash]. *)
Definition rows_covered (t : table) (l : list (list value))
    (hash : gmap string Z) : Prop :=
  forall r, r ∈ l -> exists s, pkgId_of t r = Some s /\ is_Some (hash !! s).

End ReadPackageIds.

(** The fault list fails none of the next [n] steps. *)
Definition no_fault (n : nat) (w : world) : Prop :=
  true ∉ take n (step_faults w).

(** The row of [filelist] for the entries [g] of one directory of a
    package: the key as an [int], the directory, the base names joined
    by the separator and the type codes. *)
Definition filelist_row (pkgKey : Z) (dir : string) (g : list PackageFile)
  : list value :=
  [VInt (to_int pkgKey); VText dir;
   VText (String.concat "/" (basenames g)); VText (type_codes g)].

(** [w'] holds what [w] holds at every path but [path]. *)
Definition others_kept (path : string) (w w' : world) : Prop :=
  forall p, p <> path -> fs w' !! p = fs w !! p.

(** The rows hold keys SQLite assigns by adding one to the largest: each
    an integer from 0 to 2^63 - 2 in the first column. *)
Definition keys_in_range (rs : list (list value)) : Prop :=
  Forall (fun r => exists k, r !! 0%nat = Some (VInt k) /\ 0 <= k < 2 ^ 63 - 1) rs.

(* ===================================================================== *)
(** * Properties *)
(* ===================================================================== *)

(** ** The codec on examples *)

Example basename_examples :
  map g_path_get_basename ["/a/b.txt"; "/a"; "/"; ""; "a"; "/a/b/"; "//"]
  = ["b.txt"; "a"; "/"; "."; "a"; "b"; "/"].
Proof. reflexivity. Qed.

Example dirname_examples :
  map g_path_get_dirname ["/a/b.txt"; "/a"; "/"; ""; "a"; "/a/b/"; "a//b"; "//a"]
  = ["/a"; "/"; "/"; "."; "."; "/a/b"; "a"; "/"].
Proof. reflexivity. Qed.

Example spec_codec_example :
  let h := package_files_to_hash
             [mkPackageFile "file" "/a/b.txt";
              mkPackageFile "file" "/a/c.txt";
              mkPackageFile "dir" "/a"] in
  h !! "/a" = Some {| files := "b.txt/c.txt"; types := "ff" |} /\
  h !! "/" = Some {| files := "a"; types := "d" |} /\
  size h = 2%nat.
Proof. vm_compute. repeat split. Qed.


(** ** Strings *)

Section StringLemmas.
Import CString.

#[local] Arguments String.append !_ _ / : simpl nomatch.

Lemma append_nil_r (s : string) : s +:+ "" = s.
Proof. induction s as [|c s IH]; simpl; [done | by rewrite IH]. Qed.

Lemma append_assoc (a b c : string) : (a +:+ b) +:+ c = a +:+ (b +:+ c).
Proof. induction a as [|x a IH]; simpl; [done | by rewrite IH]. Qed.

Lemma length_append (a b : string) :
  String.length (a +:+ b) = (String.length a + String.length b)%nat.
Proof. induction a as [|x a IH]; simpl; [done | by rewrite IH]. Qed.

Lemma chars_append (a b : string) :
  list_ascii_of_string (a +:+ b)
  = list_ascii_of_string a ++ list_ascii_of_string b.
Proof. induction a as [|x a IH]; simpl; [done | by rewrite IH]. Qed.

Lemma length_chars (a : string) :
  length (list_ascii_of_string a) = String.length a.
Proof. induction a as [|x a IH]; simpl; [done | by rewrite IH]. Qed.

Lemma split_slash_nonempty (s : string) : split_slash s <> [].
Proof.
  destruct s as [|c s]; simpl; [done |].
  destruct (is_dir_separator c); [done |].
  by destruct (split_slash s).
Qed.

Lemma split_slash_no_slash (s : string) :
  has_slash s = false -> split_slash s = [s].
Proof.
  induction s as [|c s IH]; simpl; [done |].
  destruct (is_dir_separator c); simpl; [done |].
  intros H. by rewrite (IH H).
Qed.

(** Splitting distributes over a separator put between two strings. *)
Lemma split_slash_join (a b : string) :
  split_slash (a +:+ String "/" b) = split_slash a ++ split_slash b.
Proof.
  induction a as [|c a IH]; simpl; [done |].
  rewrite IH.
  destruct (is_dir_separator c); [done |].
  pose proof (split_slash_nonempty a) as Hne.
  by destruct (split_slash a).
Qed.

Lemma strip_trailing_slashes_end (s : string) :
  ends_with_slash (strip_trailing_slashes s) = false.
Proof.
  induction s as [|c s IH]; simpl; [done |].
  destruct (strip_trailing_slashes s) as [|d r] eqn:E.
  - destruct (is_dir_separator c) eqn:Ec; simpl; [done | by rewrite Ec].
  - exact IH.
Qed.

Lemma last_component_no_slash (s : string) :
  has_slash (last_component s) = false.
Proof.
  induction s as [|c s IH]; simpl; [done |].
  destruct (is_dir_separator c) eqn:Ec; [done |].
  destruct (has_slash s) eqn:Es; [done |].
  simpl. by rewrite Ec, Es.
Qed.

Lemma last_component_empty (s : string) :
  last_component s = "" -> s = "" \/ ends_with_slash s = true.
Proof.
  induction s as [|c s IH]; simpl; [by left |].
  intros H. right.
  destruct (is_dir_separator c) eqn:Ec.
  - destruct (IH H) as [-> | Hs]; [done |]. by destruct s.
  - destruct (has_slash s) eqn:Es; [| done].
    destruct (IH H) as [-> | Hs]; [done |]. by destruct s.
Qed.

(** What GLib's base name can be: the separator alone, or a non-empty name
    free of separators. *)
Lemma g_path_get_basename_cases (s : string) :
  g_path_get_basename s = "/" \/
  (has_slash (g_path_get_basename s) = false /\ g_path_get_basename s <> "").
Proof.
  unfold g_path_get_basename.
  destruct s as [|c s]; [right; by split |].
  pose proof (strip_trailing_slashes_end (String c s)) as Hend.
  destruct (strip_trailing_slashes (String c s)) as [|d r]; [by left |].
  right. split; [apply last_component_no_slash |].
  intros H. apply last_component_empty in H as [H | H]; congruence.
Qed.

End StringLemmas.

(** ** The codec: what each group holds *)

Section Codec.
Import CString.

#[local] Arguments String.append !_ _ / : simpl nomatch.

Lemma package_files_fold_lookup (fs : list PackageFile)
    (hash : gmap string EncodedPackageFile) (dir : string) :
  fold_left package_files_step fs hash !! dir
  = group_fold (group_of dir fs) (hash !! dir).
Proof.
  revert hash. induction fs as [|f fs IH]; intros hash; [done |].
  cbn [fold_left]. rewrite IH. unfold group_of, package_files_step.
  rewrite filter_cons.
  destruct (decide (g_path_get_dirname (pf_name f) = dir)) as [<- | Hne].
  - rewrite lookup_insert_eq. unfold group_fold. cbn [fold_left].
    by destruct (hash !! g_path_get_dirname (pf_name f)).
  - by rewrite lookup_insert_ne.
Qed.

Lemma group_fold_Some (g : list PackageFile) (e : EncodedPackageFile) :
  group_fold g (Some e) = Some (fold_left encode_append g e).
Proof.
  revert e. induction g as [|f g IH]; intros e; [done |].
  unfold group_fold in *. cbn [fold_left]. apply IH.
Qed.

(** Every key of the table holds the entries of its directory, appended
    in input order to a fresh buffer pair; a directory with no entry has
    no key. *)
Lemma package_files_to_hash_lookup (fs : list PackageFile) (dir : string) :
  package_files_to_hash fs !! dir =
  match group_of dir fs with
  | [] => None
  | g => Some (fold_left encode_append g encoded_package_file_new)
  end.
Proof.
  unfold package_files_to_hash. rewrite package_files_fold_lookup, lookup_empty.
  destruct (group_of dir fs) as [|f g]; [done |].
  unfold group_fold. cbn [fold_left]. apply group_fold_Some.
Qed.

Lemma encode_append_files (enc : EncodedPackageFile) (f : PackageFile) :
  files (encode_append enc f) =
  match files enc with
  | EmptyString => g_path_get_basename (pf_name f)
  | _ => files enc +:+ String "/" (g_path_get_basename (pf_name f))
  end.
Proof.
  unfold encode_append. cbn [files].
  destruct (files enc) as [|c s]; [done |].
  cbn [String.length Nat.eqb negb]. by rewrite append_assoc.
Qed.

Lemma encode_append_types (enc : EncodedPackageFile) (f : PackageFile) (k : FileKind) :
  kind_of_type (pf_type f) = Some k ->
  exists c, types (encode_append enc f) = types enc +:+ String c ""
            /\ kind_of_code c = Some k.
Proof.
  unfold kind_of_type, encode_append. cbn [types].
  destruct (String.eqb (pf_type f) "dir");
    [intros [= <-]; by exists "d"%char |].
  destruct (String.eqb (pf_type f) "file");
    [intros [= <-]; by exists "f"%char |].
  destruct (String.eqb (pf_type f) "ghost");
    [intros [= <-]; by exists "g"%char | done].
Qed.

Lemma decode_group_fresh (enc : EncodedPackageFile) :
  files enc = "" -> types enc = "" -> decode_group enc = [].
Proof. unfold decode_group. by intros -> ->. Qed.

(** One append of a well-formed entry: the pair stays aligned and reads
    back as before, followed by the new entry. *)
Lemma encode_append_decode (enc : EncodedPackageFile) (f : PackageFile) :
  codec_inv enc -> codec_entry_ok f = true ->
  files (encode_append enc f) <> "" /\
  aligned (encode_append enc f) /\
  decode_group (encode_append enc f)
  = decode_group enc
    ++ [(g_path_get_basename (pf_name f), kind_of_type (pf_type f))].
Proof.
  intros Hinv Hok. unfold codec_entry_ok in Hok.
  destruct (kind_of_type (pf_type f)) as [k|] eqn:Hk; [| done].
  apply negb_true_iff, String.eqb_neq in Hok.
  destruct (g_path_get_basename_cases (pf_name f)) as [? | [Hns Hne]]; [done |].
  destruct (encode_append_types enc f k Hk) as (c & Hty & Hc).
  pose proof (encode_append_files enc f) as Hfi.
  unfold aligned, decode_group. rewrite Hty.
  destruct Hinv as [[Hf Ht] | [Hf Hal]].
  - rewrite Hf in Hfi. rewrite Hfi, Hf, Ht.
    rewrite (split_slash_no_slash _ Hns). simpl. by rewrite Hc.
  - assert (files (encode_append enc f)
            = files enc +:+ String "/" (g_path_get_basename (pf_name f))) as ->.
    { rewrite Hfi. by destruct (files enc). }
    rewrite split_slash_join, (split_slash_no_slash _ Hns).
    rewrite chars_append, map_app, length_append, length_app.
    unfold aligned in Hal. split; [by destruct (files enc) |].
    split; [simpl; lia |].
    rewrite zip_with_app; [by simpl; rewrite Hc |].
    by rewrite length_map, length_chars.
Qed.

Lemma fold_encode_append_decode (g : list PackageFile) (enc : EncodedPackageFile) :
  codec_inv enc -> forallb codec_entry_ok g = true ->
  codec_inv (fold_left encode_append g enc) /\
  decode_group (fold_left encode_append g enc)
  = decode_group enc
    ++ map (fun f => (g_path_get_basename (pf_name f), kind_of_type (pf_type f))) g.
Proof.
  revert enc. induction g as [|f g IH]; intros enc Hinv Hok.
  - by rewrite app_nil_r.
  - cbn [forallb] in Hok. apply andb_true_iff in Hok as [Hf Hg].
    destruct (encode_append_decode enc f Hinv Hf) as (Hne & Hal & Hdec).
    cbn [fold_left map].
    destruct (IH (encode_append enc f)) as [Hinv' Hdec']; [by right | done |].
    split; [done |]. by rewrite Hdec', Hdec, <- app_assoc.
Qed.

Lemma forallb_group_of (dir : string) (fs : list PackageFile) :
  forallb codec_entry_ok fs = true ->
  forallb codec_entry_ok (group_of dir fs) = true.
Proof.
  rewrite !forallb_forall. intros H f Hin. apply H.
  apply list_elem_of_In. apply list_elem_of_In in Hin.
  unfold group_of in Hin. by apply list_elem_of_filter in Hin as [_ ?].
Qed.

End Codec.

(** ** The codec: alignment and round trip *)

(** C4 (amended): for every file list whose entries all have one of the
    three types the codec knows and a name that is not made of separators
    only, every group the codec produces reads back, by splitting
    [filenames] on the separator and pairing the pieces with the type
    codes, as exactly the [(basename, kind)] pairs that path splitting
    assigns to the group's directory, in input order (so also as a
    multiset); such a group is never empty and satisfies the alignment
    invariant; and a directory with no entry has no group, so the empty
    list gives no group at all. *)
Theorem codec_round_trip (fs : list PackageFile) (dir : string) :
  forallb codec_entry_ok fs = true ->
  match package_files_to_hash fs !! dir with
  | Some enc =>
      decode_group enc = group_pairs dir fs /\
      decode_group enc ≡ₚ group_pairs dir fs /\
      group_pairs dir fs <> [] /\
      aligned enc
  | None => group_pairs dir fs = []
  end.
Proof.
  intros Hok. rewrite package_files_to_hash_lookup.
  change (group_pairs dir fs) with
    (map (fun f => (g_path_get_basename (pf_name f), kind_of_type (pf_type f)))
         (group_of dir fs)).
  pose proof (forallb_group_of dir fs Hok) as Hg.
  destruct (group_of dir fs) as [|f g]; [done |].
  cbn [forallb] in Hg. apply andb_true_iff in Hg as [Hf Hg].
  destruct (encode_append_decode encoded_package_file_new f)
    as (Hne1 & Hal1 & Hd1); [by left | done |].
  rewrite (decode_group_fresh encoded_package_file_new) in Hd1 by done.
  destruct (fold_encode_append_decode g (encode_append encoded_package_file_new f))
    as [Hinv Hdec]; [by right | done |].
  rewrite Hd1 in Hdec. cbn [fold_left map app] in *.
  assert (aligned (fold_left encode_append g
                     (encode_append encoded_package_file_new f))) as Hal.
  { destruct Hinv as [[Hf0 Ht0] | [_ ?]]; [| done].
    rewrite (decode_group_fresh _ Hf0 Ht0) in Hdec. done. }
  rewrite Hdec. by repeat split.
Qed.

Lemma codec_round_trip_witness :
  let fs := [mkPackageFile "file" "/a/b.txt";
             mkPackageFile "file" "/a/c.txt";
             mkPackageFile "dir" "/a"] in
  forallb codec_entry_ok fs = true /\
  match package_files_to_hash fs !! "/a" with
  | Some enc =>
      decode_group enc = group_pairs "/a" fs /\
      decode_group enc ≡ₚ group_pairs "/a" fs /\
      group_pairs "/a" fs <> [] /\
      aligned enc
  | None => group_pairs "/a" fs = []
  end.
Proof.
  split; [reflexivity |].
  apply (codec_round_trip
           [mkPackageFile "file" "/a/b.txt";
            mkPackageFile "file" "/a/c.txt";
            mkPackageFile "dir" "/a"] "/a").
  reflexivity.
Defined.

(** C4, as stated, fails at the root directory: its base name is the
    separator itself, so the one piece written for it splits into two
    empty pieces and the name does not come back. *)
Lemma codec_round_trip_root_counterexample :
  let fs := [mkPackageFile "dir" "/"] in
  package_files_to_hash fs !! "/" = Some {| files := "/"; types := "d" |} /\
  CString.split_slash "/" = [""; ""] /\
  decode_group {| files := "/"; types := "d" |} = [("", Some Directory)] /\
  group_pairs "/" fs = [("/", Some Directory)] /\
  bool_decide (decode_group {| files := "/"; types := "d" |} ≡ₚ group_pairs "/" fs)
  = false.
Proof. vm_compute. repeat split. Qed.

(** The same for a package that owns the root and a directory in it. *)
Example codec_root_and_child :
  let fs := [mkPackageFile "dir" "/"; mkPackageFile "dir" "/bin"] in
  package_files_to_hash fs !! "/" = Some {| files := "//bin"; types := "dd" |} /\
  decode_group {| files := "//bin"; types := "dd" |}
  = [("", Some Directory); ("", Some Directory)] /\
  group_pairs "/" fs = [("/", Some Directory); ("bin", Some Directory)].
Proof. vm_compute. repeat split. Qed.

(** C2 (the code at the failing input): an entry whose type is none of
    ["dir"], ["file"], ["ghost"] is neither rejected nor given a code: its
    base name is appended and [types] is left as it was, so the group has
    one name and no type code. *)
Lemma package_files_to_hash_unknown_type :
  let fs := [mkPackageFile "symlink" "/a/b"] in
  package_files_to_hash fs !! "/a" = Some {| files := "b"; types := "" |} /\
  length (CString.split_slash "b") = 1%nat /\
  String.length "" = 0%nat /\
  decode_group {| files := "b"; types := "" |} = [].
Proof. vm_compute. repeat split. Qed.

(** An unknown type between two known ones shifts the codes that follow:
    the second name is read with the third entry's kind. *)
Example package_files_to_hash_shifted_types :
  let fs := [mkPackageFile "file" "/a/x";
             mkPackageFile "symlink" "/a/y";
             mkPackageFile "dir" "/a/z"] in
  package_files_to_hash fs !! "/a" = Some {| files := "x/y/z"; types := "fd" |} /\
  decode_group {| files := "x/y/z"; types := "fd" |}
  = [("x", Some File); ("y", Some Directory)].
Proof. vm_compute. repeat split. Qed.

(** ** The world: lookups after updates *)

Lemma get_db_set_db (w : world) (db : sqlite3) (d : database) :
  get_db (set_db db d w) db = Some d.
Proof. unfold get_db, set_db. cbn. by rewrite lookup_insert_eq. Qed.

Lemma get_db_debug (w : world) (db : sqlite3) (l : DebugLevel) (m : string) :
  get_db (debug l m w) db = get_db w db.
Proof. done. Qed.

Lemma set_db_set_db (w : world) (db : string) (d1 d2 : database) :
  set_db db d2 (set_db db d1 w) = set_db db d2 w.
Proof. unfold set_db, set_fs. cbn. by rewrite insert_insert_eq. Qed.

Lemma set_db_same (w : world) (db : string) (d : database) :
  get_db w db = Some d -> set_db db d w = w.
Proof.
  unfold get_db, set_db, set_fs. destruct w as [f k l g]. cbn.
  destruct (f !! db) as [[]|] eqn:E; intros [= ->]. by rewrite insert_id.
Qed.

Lemma sqlite3_exec_ok (w : world) (db : string) (q : sql) (d d' : database) :
  get_db w db = Some d -> run_sql d q = Some d' ->
  sqlite3_exec w db q = (set_db db d' w, SQLITE_OK).
Proof. intros Hd Hq. unfold sqlite3_exec. by rewrite Hd, Hq. Qed.

Lemma sqlite3_exec_error (w : world) (db : string) (q : sql) (d : database) :
  get_db w db = Some d -> run_sql d q = None ->
  sqlite3_exec w db q = (w, SQLITE_ERROR).
Proof. intros Hd Hq. unfold sqlite3_exec. by rewrite Hd, Hq. Qed.

Lemma sql_literal_no_apostrophe (s : string) :
  no_apostrophe s = true -> sql_literal s = Some s.
Proof.
  induction s as [|c s IH]; [done |].
  cbn [no_apostrophe sql_literal].
  intros [Hc Hs]%andb_true_iff. apply negb_true_iff in Hc.
  by rewrite Hc, (IH Hs).
Qed.

Lemma to_int_fits (z : Z) : to_int z = z <-> fits_int z.
Proof.
  unfold to_int, fits_int. split.
  - intros <-. pose proof (Z.mod_pos_bound (z + 2 ^ 31) (2 ^ 32)). lia.
  - intros H. rewrite Z.mod_small; lia.
Qed.

Lemma to_int_range (z : Z) : fits_int (to_int z).
Proof.
  unfold to_int, fits_int.
  pose proof (Z.mod_pos_bound (z + 2 ^ 31) (2 ^ 32)). lia.
Qed.

Lemma to_int_mod (z : Z) : to_int z mod 2 ^ 32 = z mod 2 ^ 32.
Proof.
  unfold to_int.
  rewrite Zminus_mod_idemp_l.
  f_equal. lia.
Qed.

(** ** The coherency protocol *)

Section CacheProperties.

Variable V : Z.

Lemma dbinfo_status_first_row (w : world) (db : sqlite3) (checksum : string)
    (d : database) (row : Stamp) (rest : list Stamp) :
  get_db w db = Some d -> db_info d = Some (row :: rest) ->
  dbinfo_status V w db checksum =
  if negb (Z.eqb (stamp_dbversion row) V) then
    (debug DEBUG_LEVEL_INFO
       "Warning: cache file is version %d, we need %d, will regenerate" w,
     DB_STATUS_VERSION_MISMATCH)
  else if negb (String.eqb checksum (stamp_checksum row)) then
    (debug DEBUG_LEVEL_INFO
       "sqlite cache needs updating, reading in metadata\n" w,
     DB_STATUS_CHECKSUM_MISMATCH)
  else (w, DB_STATUS_OK).
Proof. intros Hd Hi. unfold dbinfo_status. by rewrite Hd, Hi. Qed.

Lemma sqlite3_open_existing (w : world) (path : string) (d : database) :
  get_db w path = Some d ->
  g_file_test_exists w path = true /\ sqlite3_open w path = (w, SQLITE_OK).
Proof.
  unfold get_db, g_file_test_exists, sqlite3_open.
  intros H. destruct (fs w !! path) as [[]|]; try discriminate H.
  split; [| reflexivity]. apply bool_decide_eq_true. by eexists.
Qed.

(** The stamp matches: nothing is touched, no connection, no error. *)
Lemma yum_db_open_current (w : world) (path checksum : string)
    (create_tables : CreateTablesFn) (d : database) (rest : list Stamp) :
  get_db w path = Some d ->
  db_info d = Some (mkStamp V checksum :: rest) ->
  yum_db_open V w path checksum create_tables = (w, None, None).
Proof.
  intros Hd Hi. unfold yum_db_open.
  destruct (sqlite3_open_existing w path d Hd) as [-> ->].
  rewrite bool_decide_eq_true_2 by done.
  rewrite (dbinfo_status_first_row w path checksum d _ rest Hd Hi). cbn.
  by rewrite Z.eqb_refl, String.eqb_refl.
Qed.

(** The version differs: the file is closed and opened again as it is,
    [CREATE TABLE db_info] fails on the table that is still there, and
    the caller gets NULL with an error; nothing is deleted or rebuilt. *)
Lemma yum_db_open_version_mismatch (w : world) (path checksum : string)
    (create_tables : CreateTablesFn) (d : database) (row : Stamp)
    (rest : list Stamp) :
  get_db w path = Some d ->
  db_info d = Some (row :: rest) ->
  stamp_dbversion row <> V ->
  yum_db_open V w path checksum create_tables =
  (debug DEBUG_LEVEL_INFO
     "Warning: cache file is version %d, we need %d, will regenerate" w,
   None, Some "Can not create db_info table: %s").
Proof.
  intros Hd Hi Hv. unfold yum_db_open.
  destruct (sqlite3_open_existing w path d Hd) as [-> ->].
  rewrite bool_decide_eq_true_2 by done.
  rewrite (dbinfo_status_first_row w path checksum d _ rest Hd Hi).
  apply Z.eqb_neq in Hv. rewrite Hv. cbn [negb].
  unfold yum_db_open_create, sqlite3_close.
  set (w1 := debug _ _ w).
  assert (get_db w1 path = Some d) as Hd1 by done.
  destruct (sqlite3_open_existing w1 path d Hd1) as [_ ->].
  rewrite bool_decide_eq_false_2 by (intros ?; done).
  unfold yum_db_create_dbinfo_table, sqlite3_exec. rewrite Hd1.
  cbn [run_sql]. unfold object_exists. rewrite Hi.
  rewrite (bool_decide_eq_true_2 (is_Some (Some (row :: rest)))) by by eexists.
  cbn [String.eqb Ascii.eqb Bool.eqb andb]. rewrite orb_true_r.
  by rewrite bool_decide_eq_true_2.
Qed.

(** The version matches and the checksum does not: [db_info] is emptied
    and the connection returned. *)
Lemma yum_db_open_refresh (w : world) (path checksum : string)
    (create_tables : CreateTablesFn) (d : database) (row : Stamp)
    (rest : list Stamp) :
  get_db w path = Some d ->
  db_info d = Some (row :: rest) ->
  stamp_dbversion row = V ->
  stamp_checksum row <> checksum ->
  yum_db_open V w path checksum create_tables
  = (set_db path (set_db_info (Some []) d)
       (debug DEBUG_LEVEL_INFO
          "sqlite cache needs updating, reading in metadata\n" w),
     Some path, None).
Proof.
  intros Hd Hi Hv Hc. unfold yum_db_open.
  destruct (sqlite3_open_existing w path d Hd) as [-> ->].
  rewrite bool_decide_eq_true_2 by done.
  rewrite (dbinfo_status_first_row w path checksum d _ rest Hd Hi).
  rewrite Hv, Z.eqb_refl. cbn [negb].
  assert (String.eqb checksum (stamp_checksum row) = false) as ->.
  { apply String.eqb_neq. congruence. }
  cbn [negb]. set (w2 := debug _ _ w).
  rewrite (sqlite3_exec_ok w2 path (PRAGMA_synchronous 0) d d) by done.
  rewrite (sqlite3_exec_ok (set_db path d w2) path DELETE_FROM_db_info d
             (set_db_info (Some []) d));
    [| apply get_db_set_db | by cbn; rewrite Hi].
  by rewrite set_db_set_db.
Qed.

(** C6: when the first row of [db_info] carries the compiled version and
    a checksum other than the expected one, [yum_db_open] empties [db_info]
    and returns the connection with no error, after reporting that the
    cache needs updating; the tables, indexes and triggers of the file and
    every row of every other table are as before, other files are not
    touched, and [create_tables] is not run (the result is the same for
    every [create_tables]). *)
Theorem yum_db_open_checksum_mismatch (w : world) (path checksum : string)
    (create_tables : CreateTablesFn) (d : database) (row : Stamp)
    (rest : list Stamp) :
  get_db w path = Some d ->
  db_info d = Some (row :: rest) ->
  stamp_dbversion row = V ->
  stamp_checksum row <> checksum ->
  let w' :=
    set_db path (set_db_info (Some []) d)
      (debug DEBUG_LEVEL_INFO
         "sqlite cache needs updating, reading in metadata\n" w) in
  yum_db_open V w path checksum create_tables = (w', Some path, None) /\
  (exists d', get_db w' path = Some d' /\ db_info d' = Some [] /\
              tables d' = tables d /\ indexes d' = indexes d /\
              triggers d' = triggers d) /\
  (forall tbl, rows_of w' path tbl = rows_of w path tbl) /\
  (forall p, p <> path -> fs w' !! p = fs w !! p).
Proof.
  intros Hd Hi Hv Hc w'. split; [| split; [| split]].
  - by apply (yum_db_open_refresh w path checksum create_tables d row rest).
  - exists (set_db_info (Some []) d). unfold w'. by rewrite get_db_set_db.
  - intros tbl. unfold rows_of, w'. by rewrite get_db_set_db, Hd.
  - intros p Hp. unfold w', set_db. cbn. by rewrite lookup_insert_ne.
Qed.

(** [yum_db_dbinfo_update] with a checksum free of apostrophes, on a
    database that has a [db_info] table: one row more, no error. *)
Lemma yum_db_dbinfo_update_ok (w : world) (db checksum : string)
    (d : database) (stamps : list Stamp) :
  get_db w db = Some d ->
  db_info d = Some stamps ->
  no_apostrophe checksum = true ->
  yum_db_dbinfo_update V w db checksum
  = (set_db db (set_db_info (Some (stamps ++ [mkStamp V checksum])) d) w, None).
Proof.
  intros Hd Hi Hq. unfold yum_db_dbinfo_update.
  rewrite (sqlite3_exec_ok w db _ d
             (set_db_info (Some (stamps ++ [mkStamp V checksum])) d) Hd);
    [| by cbn; rewrite Hi, (sql_literal_no_apostrophe _ Hq)].
  by rewrite bool_decide_eq_false_2 by (intros ?; done).
Qed.

(** C3 (amended): [yum_db_dbinfo_update] deletes nothing.  On a
    connection whose database has a [db_info] table, and for a checksum
    without an apostrophe, it sets no error and adds exactly one row
    [(YUM_SQLITE_CACHE_DBVERSION, checksum)] after the rows already there;
    so the table holds exactly one row afterwards when it was empty
    before, which is how [yum_db_open] hands it over. *)
Theorem yum_db_dbinfo_update_appends (w : world) (db checksum : string)
    (d : database) (stamps : list Stamp) :
  get_db w db = Some d ->
  db_info d = Some stamps ->
  no_apostrophe checksum = true ->
  let w' := set_db db (set_db_info (Some (stamps ++ [mkStamp V checksum])) d) w in
  yum_db_dbinfo_update V w db checksum = (w', None) /\
  stamps_of w' db = Some (stamps ++ [mkStamp V checksum]) /\
  (stamps = [] -> stamps_of w' db = Some [mkStamp V checksum]) /\
  (forall tbl, rows_of w' db tbl = rows_of w db tbl).
Proof.
  intros Hd Hi Hq w'.
  assert (stamps_of w' db = Some (stamps ++ [mkStamp V checksum])) as Hs.
  { unfold stamps_of, w'. by rewrite get_db_set_db. }
  split; [| split; [done | split]].
  - by apply (yum_db_dbinfo_update_ok w db checksum d stamps).
  - intros ->. by rewrite Hs.
  - intros tbl. unfold rows_of, w'. by rewrite get_db_set_db, Hd.
Qed.

(** *** Creating a file *)

Lemma exec_script_run (script : list (sql * string)) (w : world) (db : string)
    (d : database) :
  get_db w db = Some d ->
  exec_script w db script
  = (set_db db (fst (run_script d script)) w, snd (run_script d script)).
Proof.
  revert w d. induction script as [|[q m] script IH]; intros w d Hd.
  - cbn. by rewrite set_db_same.
  - cbn [exec_script run_script]. destruct (run_sql d q) as [d'|] eqn:Hq.
    + rewrite (sqlite3_exec_ok w db q d d' Hd Hq).
      rewrite bool_decide_eq_false_2 by (intros ?; done).
      rewrite (IH _ d') by apply get_db_set_db. by rewrite set_db_set_db.
    + rewrite (sqlite3_exec_error w db q d Hd Hq).
      rewrite bool_decide_eq_true_2 by done. cbn. by rewrite set_db_same.
Qed.

Lemma create_tables_of_script (kind : SchemaKind) (w : world) (db : string) :
  create_tables_of kind w db = exec_script w db (script_of kind).
Proof. by destruct kind. Qed.

Lemma script_of_schema (kind : SchemaKind) :
  forallb (fun qm => schema_statement (fst qm)) (script_of kind) = true.
Proof. by destruct kind. Qed.

Lemma schema_db_no_error (kind : SchemaKind) :
  snd (run_script (set_db_info (Some []) empty_database) (script_of kind)) = None.
Proof. destruct kind; vm_compute; reflexivity. Qed.

Lemma run_sql_schema_db_info (d d' : database) (q : sql) :
  schema_statement q = true -> run_sql d q = Some d' -> db_info d' = db_info d.
Proof.
  destruct q; try done; intros _; cbn [run_sql].
  - destruct (object_exists d name); [done |]. by intros [= <-].
  - destruct (object_exists d name); [done |].
    destruct (tables d !! tbl) as [t|]; [| done].
    destruct (column_index col (columns t)); [| done]. by intros [= <-].
  - destruct (triggers d !! name); [done |].
    destruct (tables d !! tbl); [| done]. by intros [= <-].
Qed.

Lemma run_script_schema_db_info (script : list (sql * string)) (d : database) :
  forallb (fun qm => schema_statement (fst qm)) script = true ->
  db_info (fst (run_script d script)) = db_info d.
Proof.
  revert d. induction script as [|[q m] script IH]; intros d Hs; [done |].
  cbn [forallb fst] in Hs. apply andb_true_iff in Hs as [Hq Hs].
  cbn [run_script]. destruct (run_sql d q) as [d'|] eqn:E; [| done].
  rewrite (IH d' Hs). by apply (run_sql_schema_db_info d d' q).
Qed.

(** The end of [yum_db_open] on an open database that has no [db_info]
    table: the table is created, then the schema. *)
Lemma yum_db_open_create_no_db_info (w : world) (path : string)
    (db : option string) (kind : SchemaKind) (d : database) :
  get_db w path = Some d ->
  object_exists d "db_info" = false ->
  let r := run_script (set_db_info (Some []) d) (script_of kind) in
  yum_db_open_create w path db (create_tables_of kind) =
  match snd r with
  | Some e => (set_db path (fst r) w, None, Some e)
  | None => (set_db path (fst r) w, Some path, None)
  end.
Proof.
  intros Hd Hno r. unfold yum_db_open_create.
  assert ((match db with
           | Some _ => (w, SQLITE_OK)
           | None => sqlite3_open w path
           end) = (w, SQLITE_OK)) as ->.
  { destruct db; [done |]. unfold get_db in Hd. unfold sqlite3_open.
    by destruct (fs w !! path) as [[]|]. }
  rewrite bool_decide_eq_false_2 by (intros ?; done).
  unfold yum_db_create_dbinfo_table.
  rewrite (sqlite3_exec_ok w path _ d (set_db_info (Some []) d) Hd)
    by (cbn; by rewrite Hno).
  rewrite bool_decide_eq_false_2 by (intros ?; done).
  rewrite create_tables_of_script.
  rewrite (exec_script_run _ _ _ (set_db_info (Some []) d))
    by apply get_db_set_db.
  rewrite set_db_set_db. fold r. destruct (snd r) as [e|]; [done |].
  rewrite (sqlite3_exec_ok _ path (PRAGMA_synchronous 0) (fst r) (fst r));
    [| apply get_db_set_db | done].
  by rewrite set_db_set_db.
Qed.

(** Absent: the file is created with an empty [db_info] and the schema
    of the kind, and its connection is returned with no error. *)
Lemma yum_db_open_absent (w : world) (path checksum : string)
    (kind : SchemaKind) :
  fs w !! path = None ->
  yum_db_open V w path checksum (create_tables_of kind)
  = (set_db path (schema_db kind) w, Some path, None).
Proof.
  intros Hn. unfold yum_db_open, g_file_test_exists, sqlite3_open.
  rewrite Hn. rewrite bool_decide_eq_true_2 by done.
  rewrite bool_decide_eq_false_2 by (intros [? ?]; done).
  rewrite (yum_db_open_create_no_db_info _ path _ kind empty_database);
    [| apply get_db_set_db | done].
  rewrite (schema_db_no_error kind). by rewrite set_db_set_db.
Qed.

Lemma yum_db_open_create_db_info_exists (w : world) (path : string)
    (create_tables : CreateTablesFn) (d : database) :
  get_db w path = Some d ->
  object_exists d "db_info" = true ->
  yum_db_open_create w path None create_tables
  = (w, None, Some "Can not create db_info table: %s").
Proof.
  intros Hd Hex. unfold yum_db_open_create, sqlite3_close.
  destruct (sqlite3_open_existing w path d Hd) as [_ ->].
  rewrite bool_decide_eq_false_2 by (intros ?; done).
  unfold yum_db_create_dbinfo_table.
  rewrite (sqlite3_exec_error w path _ d Hd) by (cbn; by rewrite Hex).
  by rewrite bool_decide_eq_true_2.
Qed.

Lemma yum_db_open_create_absent (w : world) (path : string) (kind : SchemaKind) :
  fs w !! path = None ->
  yum_db_open_create w path None (create_tables_of kind)
  = (set_db path (schema_db kind) w, Some path, None).
Proof.
  intros Hn.
  pose proof (yum_db_open_create_no_db_info
                (set_db path empty_database w) path (Some path) kind
                empty_database (get_db_set_db _ _ _) eq_refl) as H.
  cbn zeta in H. rewrite (schema_db_no_error kind), set_db_set_db in H.
  unfold schema_db. rewrite <- H.
  unfold yum_db_open_create, sqlite3_open. by rewrite Hn.
Qed.

(** A file that is no database is opened, found without a stamp, opened
    again, and fails the first statement: it is neither removed nor
    replaced. *)
Lemma yum_db_open_foreign (w : world) (path checksum : string)
    (create_tables : CreateTablesFn) :
  fs w !! path = Some Foreign ->
  yum_db_open V w path checksum create_tables
  = (w, None, Some "Can not create db_info table: %s").
Proof.
  intros Hf.
  assert (get_db w path = None) as Hd by (unfold get_db; by rewrite Hf).
  unfold yum_db_open, g_file_test_exists, sqlite3_open. rewrite Hf.
  rewrite bool_decide_eq_true_2 by done.
  rewrite bool_decide_eq_true_2 by by eexists.
  unfold dbinfo_status. rewrite Hd. unfold sqlite3_close.
  unfold yum_db_open_create, sqlite3_open. rewrite Hf.
  rewrite bool_decide_eq_false_2 by (intros ?; done).
  unfold yum_db_create_dbinfo_table, sqlite3_exec. rewrite Hd.
  by rewrite bool_decide_eq_true_2.
Qed.

(** Every connection [yum_db_open] returns comes with an empty [db_info]
    table, whichever way the file was reached. *)
Lemma yum_db_open_handle_stamps (w w' : world) (path checksum h : string)
    (kind : SchemaKind) :
  yum_db_open V w path checksum (create_tables_of kind) = (w', Some h, None) ->
  h = path /\ stamps_of w' path = Some [].
Proof.
  destruct (fs w !! path) as [[d| | |]|] eqn:Hf.
  - assert (get_db w path = Some d) as Hd by (unfold get_db; by rewrite Hf).
    destruct (db_info d) as [[|row rest]|] eqn:Hi.
    + unfold yum_db_open.
      destruct (sqlite3_open_existing w path d Hd) as [-> ->].
      rewrite bool_decide_eq_true_2 by done.
      unfold dbinfo_status. rewrite Hd, Hi. unfold sqlite3_close.
      rewrite (yum_db_open_create_db_info_exists w path _ d Hd); [done |].
      unfold object_exists. rewrite Hi.
      rewrite (bool_decide_eq_true_2 (is_Some (Some []))) by by eexists.
      apply orb_true_r.
    + destruct (decide (stamp_dbversion row = V)) as [Hv | Hv].
      * destruct (decide (stamp_checksum row = checksum)) as [Hc | Hc].
        -- destruct row as [v c]. cbn in Hv, Hc. subst v c.
           by rewrite (yum_db_open_current w path checksum _ d rest Hd Hi).
        -- rewrite (yum_db_open_refresh w path checksum
                       (create_tables_of kind) d row rest Hd Hi Hv Hc).
           intros [= <- <-]. split; [done |].
           unfold stamps_of. by rewrite get_db_set_db.
      * by rewrite (yum_db_open_version_mismatch w path checksum _ d row rest Hd Hi Hv).
    + unfold yum_db_open.
      destruct (sqlite3_open_existing w path d Hd) as [-> ->].
      rewrite bool_decide_eq_true_2 by done.
      unfold dbinfo_status. rewrite Hd, Hi. unfold sqlite3_close.
      destruct (object_exists d "db_info") eqn:Hex.
      * by rewrite (yum_db_open_create_db_info_exists w path _ d Hd Hex).
      * rewrite (yum_db_open_create_no_db_info w path None kind d Hd Hex).
        destruct (snd (run_script _ _)); [done |]. intros [= <- <-].
        split; [done |]. unfold stamps_of. rewrite get_db_set_db.
        by rewrite (run_script_schema_db_info _ _ (script_of_schema kind)).
  - by rewrite (yum_db_open_foreign w path checksum _ Hf).
  - unfold yum_db_open, sqlite3_open. rewrite Hf.
    rewrite bool_decide_eq_false_2 by (intros ?; done).
    unfold sqlite3_close.
    rewrite (yum_db_open_create_absent (unlink w path) path kind).
    + intros [= <- <-]. split; [done |]. unfold stamps_of.
      rewrite get_db_set_db. unfold schema_db.
      by rewrite (run_script_schema_db_info _ _ (script_of_schema kind)).
    + unfold unlink. rewrite Hf. cbn. apply lookup_delete_eq.
  - unfold yum_db_open, sqlite3_open. rewrite Hf.
    rewrite bool_decide_eq_false_2 by (intros ?; done).
    unfold sqlite3_close, unlink. rewrite Hf.
    unfold yum_db_open_create, sqlite3_open. rewrite Hf.
    by rewrite bool_decide_eq_true_2.
  - rewrite (yum_db_open_absent w path checksum kind Hf).
    intros [= <- <-]. split; [done |]. unfold stamps_of.
    rewrite get_db_set_db. unfold schema_db.
    by rewrite (run_script_schema_db_info _ _ (script_of_schema kind)).
Qed.

(** After [yum_db_dbinfo_update] on an empty [db_info], with a checksum
    free of apostrophes, the next [yum_db_open] with that checksum finds
    the cache current: no connection, no error, nothing changed. *)
Lemma yum_db_dbinfo_update_then_open (w : world) (path checksum : string)
    (create_tables : CreateTablesFn) :
  stamps_of w path = Some [] ->
  no_apostrophe checksum = true ->
  exists w', yum_db_dbinfo_update V w path checksum = (w', None) /\
             yum_db_open V w' path checksum create_tables = (w', None, None).
Proof.
  intros Hs Hq. unfold stamps_of in Hs.
  destruct (get_db w path) as [d|] eqn:Hd; [| done].
  pose proof (yum_db_dbinfo_update_ok w path checksum d [] Hd Hs Hq) as Hu.
  rewrite app_nil_l in Hu.
  eexists. split; [exact Hu |].
  by apply (yum_db_open_current _ path checksum create_tables
              (set_db_info (Some [mkStamp V checksum]) d) []);
    [apply get_db_set_db |].
Qed.


End CacheProperties.

(** ** The coherency protocol on examples *)

Lemma yum_db_open_checksum_mismatch_witness :
  let d := set_db_info (Some [mkStamp 10 "old"]) (schema_db FileLists) in
  let w := one_file_world "filelists.sqlite" (Database d) in
  yum_db_open 10 w "filelists.sqlite" "new" yum_db_create_filelist_tables
  = (set_db "filelists.sqlite" (set_db_info (Some []) d)
       (debug DEBUG_LEVEL_INFO
          "sqlite cache needs updating, reading in metadata\n" w),
     Some "filelists.sqlite", None).
Proof.
  intros d w.
  apply (yum_db_open_checksum_mismatch 10 w "filelists.sqlite" "new"
           yum_db_create_filelist_tables d (mkStamp 10 "old") []);
    [reflexivity | reflexivity | reflexivity | discriminate].
Defined.

Lemma yum_db_dbinfo_update_appends_witness :
  let d := schema_db FileLists in
  let w := one_file_world "filelists.sqlite" (Database d) in
  yum_db_dbinfo_update 10 w "filelists.sqlite" "abc"
  = (set_db "filelists.sqlite" (set_db_info (Some [mkStamp 10 "abc"]) d) w, None).
Proof.
  intros d w.
  apply (yum_db_dbinfo_update_appends 10 w "filelists.sqlite" "abc" d []);
    reflexivity.
Defined.

(** C3, as stated, fails on a table that already holds a row: the old
    row stays and the table holds two rows after the call. *)
Lemma yum_db_dbinfo_update_keeps_rows_counterexample :
  let d := set_db_info (Some [mkStamp 10 "old"]) (schema_db FileLists) in
  let w := one_file_world "filelists.sqlite" (Database d) in
  let r := yum_db_dbinfo_update 10 w "filelists.sqlite" "new" in
  snd r = None /\
  stamps_of (fst r) "filelists.sqlite" = Some [mkStamp 10 "old"; mkStamp 10 "new"] /\
  length <$> stamps_of (fst r) "filelists.sqlite" = Some 2%nat.
Proof. vm_compute. repeat split. Qed.



(** C1 (the code at the failing input): a file whose stamp carries
    version 9, opened by a program compiled for version 10, is not
    deleted and not rebuilt: the caller gets NULL and the error of the
    failed [CREATE TABLE db_info], and the file is as it was.  An absent
    file, for comparison, is created and its connection returned. *)
Lemma yum_db_open_stale_version_not_rebuilt :
  let d := set_db_info (Some [mkStamp 9 "abc"]) (schema_db Primary) in
  let w := one_file_world "primary.sqlite" (Database d) in
  yum_db_open 10 w "primary.sqlite" "abc" yum_db_create_primary_tables
  = (debug DEBUG_LEVEL_INFO
       "Warning: cache file is version %d, we need %d, will regenerate" w,
     None, Some "Can not create db_info table: %s") /\
  yum_db_open 10 empty_world "primary.sqlite" "abc" yum_db_create_primary_tables
  = (one_file_world "primary.sqlite" (Database (schema_db Primary)),
     Some "primary.sqlite", None).
Proof.
  intros d w. split.
  - by apply (yum_db_open_version_mismatch 10 w "primary.sqlite" "abc"
                yum_db_create_primary_tables d (mkStamp 9 "abc") []).
  - exact (yum_db_open_absent 10 empty_world "primary.sqlite" "abc" Primary eq_refl).
Qed.

(** A file left with an empty [db_info] (a rebuild that did not reach
    [yum_db_dbinfo_update]) meets the same end. *)
Example yum_db_open_unstamped_not_rebuilt :
  let w := one_file_world "primary.sqlite" (Database (schema_db Primary)) in
  yum_db_open 10 w "primary.sqlite" "abc" yum_db_create_primary_tables
  = (w, None, Some "Can not create db_info table: %s").
Proof. vm_compute. reflexivity. Qed.

(** A checksum with a doubled apostrophe is stored with a single one. *)
Example yum_db_dbinfo_update_doubled_apostrophe :
  let w := one_file_world "filelists.sqlite" (Database (schema_db FileLists)) in
  let r := yum_db_dbinfo_update 10 w "filelists.sqlite" "a''b" in
  snd r = None /\
  stamps_of (fst r) "filelists.sqlite" = Some [mkStamp 10 "a'b"].
Proof. vm_compute. repeat split. Qed.

(** ** The row writers *)

Section Writers.

Lemma sqlite3_step_fault (w : world) (rest : list bool) (handle : sqlite3_stmt)
    (binds : list value) :
  sqlite3_step (set_step_faults (true :: rest) w) handle binds
  = (set_step_faults rest w, SQLITE_ERROR).
Proof. done. Qed.

Lemma sqlite3_step_faults (w : world) (handle : sqlite3_stmt) (binds : list value) :
  step_faults (fst (sqlite3_step w handle binds)) = tail (step_faults w).
Proof.
  unfold sqlite3_step.
  destruct (step_faults w) as [|[] rest] eqn:E; [| done |];
    destruct (get_db _ _); try done;
    destruct (tables _ !! _); try done;
    by destruct (insert_into _ _ _ _).
Qed.

Lemma step_and_log_faults (m : string) (handle : sqlite3_stmt)
    (binds : list value) (w : world) :
  step_faults (step_and_log m handle binds w) = tail (step_faults w).
Proof.
  unfold step_and_log.
  pose proof (sqlite3_step_faults w handle binds) as H.
  destruct (sqlite3_step w handle binds) as [w1 r]. cbn in H.
  by destruct (bool_decide _).
Qed.

Lemma step_and_log_fault (m : string) (handle : sqlite3_stmt)
    (binds : list value) (w : world) (rest : list bool) :
  step_and_log m handle binds (set_step_faults (true :: rest) w)
  = debug DEBUG_LEVEL_ERROR m (set_step_faults rest w).
Proof. done. Qed.

(** A step the storage does not fail, on a table that has the columns of
    the statement: the row is added at the end of the table, and nothing
    else of the database changes. *)
Lemma step_and_log_done (m : string) (db tbl : string) (icols : list string)
    (binds : list value) (w : world) (d : database) (t : table) :
  head (step_faults w) <> Some true ->
  get_db w db = Some d ->
  tables d !! tbl = Some t ->
  has_columns t icols = true ->
  length icols = length binds ->
  step_and_log m (mkStmt db tbl icols) binds w
  = set_last_insert_rowid (next_rowid t)
      (set_db db
         (set_tables (<[tbl := {| columns := columns t;
                                  rows := rows t ++ [new_row t icols binds] |}]>
                        (tables d)) d)
         (set_step_faults (tail (step_faults w)) w)).
Proof.
  intros Hf Hd Ht Hc Hl. unfold step_and_log, sqlite3_step. cbn [stmt_db stmt_table stmt_columns].
  assert (get_db (set_step_faults (tail (step_faults w)) w) db = Some d) as Hd'
    by done.
  assert (insert_into d tbl icols binds
          = Some (set_tables (<[tbl := {| columns := columns t;
                                           rows := rows t ++ [new_row t icols binds] |}]>
                                (tables d)) d)) as Hi.
  { unfold insert_into. rewrite Ht, Hc. apply Nat.eqb_eq in Hl. by rewrite Hl. }
  destruct (step_faults w) as [|[] rest]; [| done |];
    rewrite Hd', Ht, Hi; by rewrite bool_decide_eq_false_2 by (intros ?; done).
Qed.

Lemma step_and_log_fault_eq (m : string) (handle : sqlite3_stmt)
    (binds : list value) (w : world) (rest : list bool) :
  step_faults w = true :: rest ->
  step_and_log m handle binds w
  = debug DEBUG_LEVEL_ERROR m (set_step_faults rest w).
Proof.
  intros H. destruct w as [f k l g]. cbn in H. by subst l.
Qed.

Lemma table_columns_Some (w : world) (db tbl : string)
    (cols : list (string * coltype)) :
  table_columns w db tbl = Some cols ->
  exists d t, get_db w db = Some d /\ tables d !! tbl = Some t /\
              columns t = cols /\ rows t = rows_of w db tbl.
Proof.
  unfold table_columns, rows_of. destruct (get_db w db) as [d|]; [| done].
  destruct (tables d !! tbl) as [t|] eqn:Ht; [| done].
  intros [= <-]. by exists d, t.
Qed.

(** The effect of one step on what the statements observe. *)
Lemma step_and_log_rows (m : string) (db tbl : string) (icols : list string)
    (binds : list value) (w : world) (cols : list (string * coltype)) :
  head (step_faults w) <> Some true ->
  table_columns w db tbl = Some cols ->
  has_columns (mkTable cols []) icols = true ->
  length icols = length binds ->
  let w' := step_and_log m (mkStmt db tbl icols) binds w in
  rows_of w' db tbl
  = rows_of w db tbl ++ [new_row (mkTable cols (rows_of w db tbl)) icols binds] /\
  table_columns w' db tbl = Some cols /\
  step_faults w' = tail (step_faults w) /\
  debug_log w' = debug_log w /\
  stamps_of w' db = stamps_of w db /\
  (forall tbl', tbl' <> tbl -> rows_of w' db tbl' = rows_of w db tbl').
Proof.
  intros Hf Hc Hh Hl w'.
  destruct (table_columns_Some w db tbl cols Hc) as (d & t & Hd & Ht & Hct & Hrt).
  destruct t as [tc tr]. cbn in Hct, Hrt. subst tc. rewrite <- Hrt.
  unfold w'.
  rewrite (step_and_log_done m db tbl icols binds w d _ Hf Hd Ht Hh Hl).
  cbn [columns rows].
  set (d' := set_tables _ d). set (w0 := set_step_faults _ w).
  assert (get_db (set_last_insert_rowid (next_rowid (mkTable cols tr))
                    (set_db db d' w0)) db = Some d') as Hg.
  { change (get_db (set_db db d' w0) db = Some d'). apply get_db_set_db. }
  unfold rows_of, table_columns, stamps_of. rewrite Hg, Hd.
  unfold d'. cbn [tables set_tables db_info]. rewrite lookup_insert_eq.
  repeat split; try done.
  intros tbl' Hne. by rewrite lookup_insert_ne.
Qed.

(** A loop that takes one step per entry: the rows of the entries whose
    step is not failed are added, in order, and every entry uses up one
    entry of the fault list. *)
Lemma step_loop_rows {A} (m : string) (db tbl : string) (icols : list string)
    (cols : list (string * coltype)) (bindf rowf : A -> list value)
    (l : list A) (w : world) :
  table_columns w db tbl = Some cols ->
  has_columns (mkTable cols []) icols = true ->
  (forall a rs, length icols = length (bindf a) /\
                new_row (mkTable cols rs) icols (bindf a) = rowf a) ->
  let w' := fold_left (fun w a => step_and_log m (mkStmt db tbl icols) (bindf a) w) l w in
  rows_of w' db tbl = rows_of w db tbl ++ map rowf (kept (step_faults w) l) /\
  table_columns w' db tbl = Some cols /\
  step_faults w' = drop (length l) (step_faults w).
Proof.
  intros Hc Hh Hb. revert w Hc. induction l as [|a l IH]; intros w Hc w'.
  - unfold w'. cbn [fold_left kept map length drop]. by rewrite app_nil_r.
  - unfold w'. cbn [fold_left kept length].
    destruct (step_faults w) as [|[] rest] eqn:Hf.
    + pose proof (step_and_log_rows m db tbl icols (bindf a) w cols) as H.
      cbn zeta in H. rewrite Hf in H.
      destruct H as (Hr & Hc' & Hf' & _);
        [done | done | done | exact (proj1 (Hb a [])) |].
      specialize (IH _ Hc'). cbn zeta in IH. destruct IH as (Hr2 & Hc2 & Hf2).
      rewrite Hr2, Hc2, Hf2, Hr, Hf'. cbn [tail].
      rewrite (proj2 (Hb a _)), <- app_assoc. cbn [app].
      split; [by destruct l | split; [done | by rewrite !drop_nil]].
    + rewrite (step_and_log_fault_eq m _ _ w rest Hf).
      specialize (IH (debug DEBUG_LEVEL_ERROR m (set_step_faults rest w)) Hc).
      cbn zeta in IH. destruct IH as (Hr2 & Hc2 & Hf2).
      by rewrite Hr2, Hc2, Hf2.
    + pose proof (step_and_log_rows m db tbl icols (bindf a) w cols) as H.
      cbn zeta in H. rewrite Hf in H.
      destruct H as (Hr & Hc' & Hf' & _);
        [done | done | done | exact (proj1 (Hb a [])) |].
      specialize (IH _ Hc'). cbn zeta in IH. destruct IH as (Hr2 & Hc2 & Hf2).
      rewrite Hr2, Hc2, Hf2, Hr, Hf'. cbn [tail].
      by rewrite (proj2 (Hb a _)), <- app_assoc.
Qed.

Lemma fold_step_faults {A} (f : world -> A -> world) (l : list A) (w : world) :
  (forall w a, step_faults (f w a) = tail (step_faults w)) ->
  step_faults (fold_left f l w) = drop (length l) (step_faults w).
Proof.
  intros Hf. revert w. induction l as [|a l IH]; intros w; [done |].
  cbn [fold_left length]. rewrite IH, Hf.
  destruct (step_faults w); cbn; [by destruct (length l) | done].
Qed.

Lemma prepared_handle (w : world) (db tbl : string) (icols : list string)
    (m : string) (handle : sqlite3_stmt) (e : option string) :
  prepared (sqlite3_prepare_insert w db tbl icols) m = (Some handle, e) ->
  handle = mkStmt db tbl icols.
Proof.
  unfold prepared, sqlite3_prepare_insert.
  destruct (get_db w db) as [d|]; [| done].
  destruct (tables d !! tbl) as [t|]; [| done].
  destruct (has_columns t icols); [| done]. by intros [= <-].
Qed.

(** C9: a file entry written by [yum_db_file_write] on the [files]
    table of the Primary schema, with a statement that
    [yum_db_file_prepare] returned and a step the storage does not fail,
    adds one row whose [name] column holds the entry's type string and
    whose [type] column holds the entry's path. *)
Theorem yum_db_file_write_swaps_columns (w : world) (db : string)
    (handle : sqlite3_stmt) (pkgKey : Z) (file : PackageFile) :
  yum_db_file_prepare w db = (Some handle, None) ->
  table_columns w db "files" = Some files_columns ->
  head (step_faults w) <> Some true ->
  let w' := yum_db_file_write w db handle pkgKey file in
  let row := [VText (pf_type file); VText (pf_name file); VInt (to_int pkgKey)] in
  rows_of w' db "files" = rows_of w db "files" ++ [row] /\
  cell (mkTable files_columns []) "name" row = Some (VText (pf_type file)) /\
  cell (mkTable files_columns []) "type" row = Some (VText (pf_name file)).
Proof.
  intros Hp Hc Hf w' row. split; [| by split].
  apply prepared_handle in Hp. subst handle.
  pose proof (step_and_log_rows "Error adding package file to SQL: %s"
                db "files" file_insert_columns (file_binds pkgKey file)
                w files_columns Hf Hc eq_refl eq_refl) as H.
  cbn zeta in H. exact (proj1 H).
Qed.

(** C10: the dependency writer, the per-file writer and the compacted
    writer store, in the [pkgKey] column of the row they add, the given
    64-bit key converted to a 32-bit [int]: a value of the 32-bit range
    that is congruent to the key modulo 2^32, and equal to the key exactly
    when the key is in that range. *)
Theorem pkgKey_bound_as_int (w : world) (primary filelists tbl : string)
    (pkgKey : Z) (dep : Dependency) (file : PackageFile) (key : string)
    (enc : EncodedPackageFile) :
  table_columns w primary tbl = Some dependency_columns ->
  table_columns w primary "files" = Some files_columns ->
  table_columns w filelists "filelist" = Some filelist_columns ->
  head (step_faults w) <> Some true ->
  rows_of (yum_db_dependency_write w primary
             (mkStmt primary tbl dependency_insert_columns) pkgKey dep)
    primary tbl
  = rows_of w primary tbl
    ++ [[sqlite3_bind_text (dep_name dep); sqlite3_bind_text (dep_flags dep);
         sqlite3_bind_text (dep_epoch dep); sqlite3_bind_text (dep_version dep);
         sqlite3_bind_text (dep_release dep); VInt (to_int pkgKey)]] /\
  rows_of (yum_db_file_write w primary
             (mkStmt primary "files" file_insert_columns) pkgKey file)
    primary "files"
  = rows_of w primary "files"
    ++ [[VText (pf_type file); VText (pf_name file); VInt (to_int pkgKey)]] /\
  rows_of (write_file key enc
             (mkFileWriteInfo filelists
                (mkStmt filelists "filelist" filelist_insert_columns) pkgKey) w)
    filelists "filelist"
  = rows_of w filelists "filelist"
    ++ [[VInt (to_int pkgKey); VText key; VText (files enc); VText (types enc)]] /\
  to_int pkgKey mod 2 ^ 32 = pkgKey mod 2 ^ 32 /\
  fits_int (to_int pkgKey) /\
  (to_int pkgKey = pkgKey <-> fits_int pkgKey).
Proof.
  intros Hd Hfi Hfl Hf.
  pose proof (step_and_log_rows "Error adding dependency to SQL: %s"
                primary tbl dependency_insert_columns
                (dependency_binds pkgKey dep) w dependency_columns
                Hf Hd eq_refl eq_refl) as H1.
  pose proof (step_and_log_rows "Error adding package file to SQL: %s"
                primary "files" file_insert_columns (file_binds pkgKey file)
                w files_columns Hf Hfi eq_refl eq_refl) as H2.
  pose proof (step_and_log_rows "Error adding file to SQL: %s"
                filelists "filelist" filelist_insert_columns
                (filelist_binds pkgKey key enc) w filelist_columns
                Hf Hfl eq_refl eq_refl) as H3.
  cbn zeta in H1, H2, H3.
  destruct H1 as (H1 & _), H2 as (H2 & _), H3 as (H3 & _).
  exact (conj H1 (conj H2 (conj H3
           (conj (to_int_mod pkgKey)
              (conj (to_int_range pkgKey) (to_int_fits pkgKey)))))).
Qed.

(** C8: when the storage fails the step of a row write, every writer
    (package, package id, dependency, file, compacted group, changelog
    entry) returns as usual, with no error value: the result is the world
    before the call with one line added to the log and the failed step
    used up, so no table has changed and the row is not stored.  The
    loops go on after a failed row: each entry of a changelog and each
    group of a file list gets its step, whatever happened to the entries
    before, and the rows added are exactly those of the entries whose
    step was not failed, in order. *)
Theorem row_write_failure_logged_and_skipped (w : world) (rest : list bool)
    (db : string) (handle : sqlite3_stmt) (p : Package) (pkgKey : Z)
    (dep : Dependency) (file : PackageFile) (key : string)
    (enc : EncodedPackageFile) (info : FileWriteInfo) (entry : ChangelogEntry) :
  let failing := set_step_faults (true :: rest) w in
  let skipped m := debug DEBUG_LEVEL_ERROR m (set_step_faults rest w) in
  yum_db_package_write failing db handle p
  = (skipped "Error adding package to SQL: %s", p) /\
  yum_db_package_ids_write failing db handle p
  = (skipped "Error adding package to SQL: %s", p) /\
  yum_db_dependency_write failing db handle pkgKey dep
  = skipped "Error adding dependency to SQL: %s" /\
  yum_db_file_write failing db handle pkgKey file
  = skipped "Error adding package file to SQL: %s" /\
  write_file key enc info failing = skipped "Error adding file to SQL: %s" /\
  changelog_write_entry handle pkgKey failing entry
  = skipped "Error adding changelog to SQL: %s" /\
  (forall m, fs (skipped m) = fs w /\
             debug_log (skipped m) = debug_log w ++ [(DEBUG_LEVEL_ERROR, m)] /\
             step_faults (skipped m) = rest /\
             last_insert_rowid (skipped m) = last_insert_rowid w) /\
  step_faults (yum_db_changelog_write w db handle p)
  = drop (length (p_changelogs p)) (step_faults w) /\
  step_faults (yum_db_filelists_write w db handle p)
  = drop (size (package_files_to_hash (p_files p))) (step_faults w) /\
  (table_columns w db "changelog" = Some changelog_columns ->
   rows_of (yum_db_changelog_write w db
              (mkStmt db "changelog" changelog_insert_columns) p) db "changelog"
   = rows_of w db "changelog"
     ++ map (fun e => [VInt (to_int (p_pkgKey p)); sqlite3_bind_text (cl_author e);
                       sqlite3_bind_text (cl_date e);
                       sqlite3_bind_text (cl_changelog e)])
            (kept (step_faults w) (p_changelogs p))) /\
  (table_columns w db "filelist" = Some filelist_columns ->
   rows_of (yum_db_filelists_write w db
              (mkStmt db "filelist" filelist_insert_columns) p) db "filelist"
   = rows_of w db "filelist"
     ++ map (fun kv => [VInt (to_int (p_pkgKey p)); VText (fst kv);
                        VText (files (snd kv)); VText (types (snd kv))])
            (kept (step_faults w)
                  (map_to_list (package_files_to_hash (p_files p))))).
Proof.
  intros failing skipped.
  do 6 (split; [reflexivity |]).
  split; [by intros m |].
  split; [| split; [| split]].
  - unfold yum_db_changelog_write. apply fold_step_faults.
    intros w0 e. apply step_and_log_faults.
  - unfold yum_db_filelists_write, g_hash_table_foreach.
    rewrite fold_step_faults; [by rewrite length_map_to_list |].
    intros w0 kv. apply step_and_log_faults.
  - intros Hc.
    pose proof (step_loop_rows "Error adding changelog to SQL: %s" db "changelog"
                  changelog_insert_columns changelog_columns
                  (changelog_binds (p_pkgKey p))
                  (fun e => [VInt (to_int (p_pkgKey p)); sqlite3_bind_text (cl_author e);
                             sqlite3_bind_text (cl_date e);
                             sqlite3_bind_text (cl_changelog e)])
                  (p_changelogs p) w Hc eq_refl) as H.
    cbn zeta in H. by destruct H as (H & _).
  - intros Hc.
    pose proof (step_loop_rows "Error adding file to SQL: %s" db "filelist"
                  filelist_insert_columns filelist_columns
                  (fun kv => filelist_binds (p_pkgKey p) (fst kv) (snd kv))
                  (fun kv => [VInt (to_int (p_pkgKey p)); VText (fst kv);
                              VText (files (snd kv)); VText (types (snd kv))])
                  (map_to_list (package_files_to_hash (p_files p))) w Hc eq_refl) as H.
    cbn zeta in H. by destruct H as (H & _).
Qed.

End Writers.

(** ** The row writers on examples *)

Lemma yum_db_file_write_swaps_columns_witness :
  let w := one_file_world "primary.sqlite" (Database (schema_db Primary)) in
  let file := mkPackageFile "dir" "/usr/bin" in
  let handle := mkStmt "primary.sqlite" "files" file_insert_columns in
  rows_of (yum_db_file_write w "primary.sqlite" handle 7 file) "primary.sqlite" "files"
  = rows_of w "primary.sqlite" "files"
    ++ [[VText "dir"; VText "/usr/bin"; VInt (to_int 7)]].
Proof.
  intros w file handle.
  apply (yum_db_file_write_swaps_columns w "primary.sqlite" handle 7 file);
    [reflexivity | reflexivity | discriminate].
Defined.

Example yum_db_file_write_row :
  let w := one_file_world "primary.sqlite" (Database (schema_db Primary)) in
  let handle := mkStmt "primary.sqlite" "files" file_insert_columns in
  rows_of (yum_db_file_write w "primary.sqlite" handle 7
             (mkPackageFile "dir" "/usr/bin")) "primary.sqlite" "files"
  = [[VText "dir"; VText "/usr/bin"; VInt 7]].
Proof. vm_compute. reflexivity. Qed.

Lemma pkgKey_bound_as_int_witness :
  let dep := mkDependency (Some "glibc") (Some "GE") (Some "0") (Some "2.3") None in
  rows_of (yum_db_dependency_write two_cache_world "primary.sqlite"
             (mkStmt "primary.sqlite" "requires" dependency_insert_columns)
             (2 ^ 32 + 5) dep)
    "primary.sqlite" "requires"
  = rows_of two_cache_world "primary.sqlite" "requires"
    ++ [[sqlite3_bind_text (dep_name dep); sqlite3_bind_text (dep_flags dep);
         sqlite3_bind_text (dep_epoch dep); sqlite3_bind_text (dep_version dep);
         sqlite3_bind_text (dep_release dep); VInt (to_int (2 ^ 32 + 5))]].
Proof.
  intros dep.
  apply (pkgKey_bound_as_int two_cache_world "primary.sqlite" "filelists.sqlite"
           "requires" (2 ^ 32 + 5) dep (mkPackageFile "file" "/bin/sh") "/bin"
           (mkEncodedPackageFile "sh" "f"));
    [reflexivity | reflexivity | reflexivity | discriminate].
Defined.

(** A key beyond 32 bits is stored as another key. *)
Example pkgKey_wraps :
  to_int (2 ^ 32 + 5) = 5 /\
  to_int (2 ^ 31) = - 2 ^ 31 /\
  rows_of (yum_db_dependency_write two_cache_world "primary.sqlite"
             (mkStmt "primary.sqlite" "requires" dependency_insert_columns)
             (2 ^ 32 + 5)
             (mkDependency (Some "glibc") None None None None))
    "primary.sqlite" "requires"
  = [[VText "glibc"; VNull; VNull; VNull; VNull; VInt 5]].
Proof. vm_compute. repeat split. Qed.

(** The second of three changelog entries fails: the first and the third
    are stored, one line is logged, and the three steps are used up. *)
Example yum_db_changelog_write_middle_failure :
  let w := set_step_faults [false; true; false; false]
             (one_file_world "other.sqlite" (Database (schema_db Other))) in
  let p := mkPackage 3 (Some "id") None None None None None None None None
             None None None None None None None None None None None None
             None None None None None []
             [mkChangelogEntry (Some "a") (Some "1") (Some "one");
              mkChangelogEntry (Some "b") (Some "2") (Some "two");
              mkChangelogEntry (Some "c") (Some "3") (Some "three")] in
  let w' := yum_db_changelog_write w "other.sqlite"
              (mkStmt "other.sqlite" "changelog" changelog_insert_columns) p in
  rows_of w' "other.sqlite" "changelog"
  = [[VInt 3; VText "a"; VText "1"; VText "one"];
     [VInt 3; VText "c"; VText "3"; VText "three"]] /\
  debug_log w' = [(DEBUG_LEVEL_ERROR, "Error adding changelog to SQL: %s")] /\
  step_faults w' = [false].
Proof. vm_compute. repeat split. Qed.

(** Package rows get the keys 1, 2, .. in the order of the inserts. *)
Example yum_db_package_ids_write_keys :
  let w := one_file_world "other.sqlite" (Database (schema_db Other)) in
  let handle := mkStmt "other.sqlite" "packages" ["pkgId"] in
  let p := mkPackage 0 (Some "id") None None None None None None None None
             None None None None None None None None None None None None
             None None None None None [] [] in
  let '(w1, p1) := yum_db_package_ids_write w "other.sqlite" handle p in
  let '(w2, p2) := yum_db_package_ids_write w1 "other.sqlite" handle p in
  p_pkgKey p1 = 1 /\ p_pkgKey p2 = 2 /\
  rows_of w2 "other.sqlite" "packages"
  = [[VInt 1; VText "id"]; [VInt 2; VText "id"]].
Proof. vm_compute. repeat split. Qed.

(** ** Deleting a package row *)

Section Cascade.

Variable k : Z.

Lemma carries_without_key (t : table) (r : list value) :
  carries (without_key k t) k r = carries t k r.
Proof. done. Qed.














Lemma same_schema_lookup (d d0 : database) (tbl : string) :
  same_schema d d0 ->
  columns <$> tables d !! tbl = columns <$> tables d0 !! tbl.
Proof. intros (H & _). by rewrite <- !lookup_fmap, H. Qed.



End Cascade.



Lemma schema_db_tables (kind : SchemaKind) (d : database) :
  same_schema d (schema_db kind) ->
  dom (tables d) = list_to_set ("packages" :: dependent_tables kind).
Proof.
  intros (Hc & _).
  rewrite <- (dom_fmap_L columns (tables d)), Hc, dom_fmap_L.
  destruct kind; vm_compute; reflexivity.
Qed.



(** Deleting package 1 leaves the one directory row of package 2. *)
Example package_delete_example :
  (fun d' => (table_rows d' "packages", table_rows d' "filelist"))
    <$> run_sql example_filelists_db (DELETE_FROM_WHERE "packages" "pkgKey" (VInt 1))
  = Some ([[VInt 2; VText "id2"]],
          [[VInt 2; VText "/usr"; VText "bin"; VText "d"]]).
Proof. vm_compute. reflexivity. Qed.

(** A key stored through the 32-bit binding is not the key of its
    package once that is beyond 32 bits, and the trigger, which compares
    with the package's own key, leaves such a row behind. *)
Example package_delete_wrapped_key :
  let d := set_tables
             (<["filelist" := {| columns := filelist_columns;
                                 rows := [[sqlite3_bind_int (2 ^ 32 + 5);
                                           VText "/a"; VText "b"; VText "f"]] |}]>
                (<["packages" := {| columns := ids_packages_columns;
                                    rows := [[VInt (2 ^ 32 + 5); VText "id"]] |}]>
                   (tables (schema_db FileLists))))
             (schema_db FileLists) in
  (fun d' => (table_rows d' "packages", table_rows d' "filelist"))
    <$> run_sql d (DELETE_FROM_WHERE "packages" "pkgKey" (VInt (2 ^ 32 + 5)))
  = Some ([], [[VInt 5; VText "/a"; VText "b"; VText "f"]]).
Proof. vm_compute. reflexivity. Qed.

(* ===================================================================== *)
(** * Further properties *)
(* ===================================================================== *)

(** ** The codec in closed form *)

Section CodecClosedForm.
Import CString.

#[local] Arguments String.append !_ _ / : simpl nomatch.

Lemma concat_slash_cons (n : string) (rest : list string) :
  String.concat "/" (n :: rest) = n +:+ prefixed rest.
Proof.
  revert n. induction rest as [|m rest IH]; intros n.
  - cbn. by rewrite append_nil_r.
  - change (String.concat "/" (n :: m :: rest))
      with (n +:+ "/" +:+ String.concat "/" (m :: rest)).
    by rewrite (IH m).
Qed.

Lemma g_path_get_basename_nonempty (s : string) : g_path_get_basename s <> "".
Proof. destruct (g_path_get_basename_cases s) as [-> | [_ ?]]; done. Qed.

Lemma append_nonempty_l (a b : string) : a <> "" -> a +:+ b <> "".
Proof. by destruct a. Qed.

Lemma fold_encode_append_files (g : list PackageFile) (enc : EncodedPackageFile) :
  files enc <> "" ->
  files (fold_left encode_append g enc) = files enc +:+ prefixed (basenames g).
Proof.
  revert enc. induction g as [|f g IH]; intros enc Hne.
  - cbn. by rewrite append_nil_r.
  - cbn [fold_left basenames map prefixed]. rewrite IH.
    + rewrite encode_append_files. destruct (files enc) as [|c s]; [done |].
      by rewrite append_assoc.
    + rewrite encode_append_files. destruct (files enc) as [|c s]; [done |].
      by apply append_nonempty_l.
Qed.

Lemma encode_append_type_code (enc : EncodedPackageFile) (f : PackageFile) :
  types (encode_append enc f)
  = types enc +:+ match type_code (pf_type f) with
                  | Some c => String c ""
                  | None => ""
                  end.
Proof.
  unfold encode_append, type_code. cbn [types].
  destruct (String.eqb (pf_type f) "dir"); [done |].
  destruct (String.eqb (pf_type f) "file"); [done |].
  destruct (String.eqb (pf_type f) "ghost"); [done |].
  by rewrite append_nil_r.
Qed.

Lemma fold_encode_append_types (g : list PackageFile) (enc : EncodedPackageFile) :
  types (fold_left encode_append g enc) = types enc +:+ type_codes g.
Proof.
  revert enc. induction g as [|f g IH]; intros enc.
  - cbn. by rewrite append_nil_r.
  - cbn [fold_left]. rewrite IH, encode_append_type_code. unfold type_codes.
    destruct (type_code (pf_type f)) as [c|] eqn:E; cbn; rewrite E; cbn.
    + by rewrite append_assoc.
    + by rewrite append_nil_r.
Qed.

Lemma encode_group_closed_form (f : PackageFile) (g : list PackageFile) :
  fold_left encode_append (f :: g) encoded_package_file_new
  = {| files := String.concat "/" (basenames (f :: g));
       types := type_codes (f :: g) |}.
Proof.
  pose proof (fold_encode_append_types (f :: g) encoded_package_file_new) as Ht.
  cbn [fold_left] in *.
  pose proof (fold_encode_append_files g (encode_append encoded_package_file_new f)) as Hf.
  rewrite encode_append_files in Hf. cbn [files encoded_package_file_new] in Hf.
  specialize (Hf (g_path_get_basename_nonempty _)).
  destruct (fold_left encode_append g _) as [fi ty]. cbn in Hf, Ht. subst fi ty.
  f_equal. cbn [basenames map]. by rewrite concat_slash_cons.
Qed.

End CodecClosedForm.

(** X1: the codec in closed form, for every file list and directory.  A
    directory has a group exactly when some entry has it as its
    [g_path_get_dirname]; the group's [files] is the base names of those
    entries, in input order, joined by the separator, and its [types]
    holds, in the same order, one code for each of those entries whose
    type is ["dir"], ["file"] or ["ghost"], and nothing for an entry of
    another type. *)
Theorem package_files_to_hash_closed_form (fs : list PackageFile) (dir : string) :
  package_files_to_hash fs !! dir =
  match group_of dir fs with
  | [] => None
  | g => Some {| files := String.concat "/" (basenames g);
                 types := type_codes g |}
  end.
Proof.
  rewrite package_files_to_hash_lookup.
  destruct (group_of dir fs) as [|f g]; [done |].
  by rewrite encode_group_closed_form.
Qed.

Lemma package_files_fold_size (fs : list PackageFile)
    (hash : gmap string EncodedPackageFile) :
  (size (fold_left package_files_step fs hash) <= size hash + length fs)%nat.
Proof.
  revert hash. induction fs as [|f fs IH]; intros hash; [cbn; lia |].
  cbn [fold_left length]. etrans; [apply IH |].
  unfold package_files_step.
  destruct (hash !! g_path_get_dirname (pf_name f)) as [e|] eqn:E.
  - rewrite map_size_insert_Some by done. lia.
  - rewrite map_size_insert_None by done. lia.
Qed.

(** X2: the groups are the directories of the entries: the keys of the
    table are exactly the [g_path_get_dirname] of the names in the list,
    so there is one group per distinct directory, at most as many as
    entries, and none for the empty list. *)
Theorem package_files_to_hash_groups (fs : list PackageFile) :
  dom (package_files_to_hash fs)
  = list_to_set (map (fun f => g_path_get_dirname (pf_name f)) fs) /\
  (size (package_files_to_hash fs) <= length fs)%nat /\
  package_files_to_hash [] = ∅.
Proof.
  split; [| split; [| done]].
  - apply set_eq. intros dir.
    rewrite elem_of_dom, package_files_to_hash_lookup, elem_of_list_to_set.
    rewrite list_elem_of_fmap. unfold group_of. split.
    + destruct (filter _ fs) as [|f g] eqn:E; [by intros [? ?] |]. intros _.
      assert (f ∈ filter (fun f => g_path_get_dirname (pf_name f) = dir) fs) as Hf
        by (rewrite E; apply elem_of_cons; by left).
      apply list_elem_of_filter in Hf as [Hd Hin]. by exists f.
    + intros (f & -> & Hin).
      assert (f ∈ filter (fun f0 => g_path_get_dirname (pf_name f0)
                                    = g_path_get_dirname (pf_name f)) fs) as Hf
        by by apply list_elem_of_filter.
      destruct (filter _ fs); [by apply elem_of_nil in Hf | by eexists].
  - pose proof (package_files_fold_size fs ∅) as H.
    rewrite map_size_empty in H. exact H.
Qed.

(** X3: entries of different directories do not influence each other:
    two lists that hold, for every directory, the same entries in the
    same order give the same table, however the directories are
    interleaved. *)
Theorem package_files_to_hash_interleaving (fs fs' : list PackageFile) :
  (forall dir, group_of dir fs = group_of dir fs') ->
  package_files_to_hash fs = package_files_to_hash fs'.
Proof.
  intros H. apply map_eq. intros dir.
  by rewrite !package_files_to_hash_lookup, H.
Qed.

Lemma package_files_to_hash_interleaving_witness :
  package_files_to_hash
    [mkPackageFile "file" "/a/x"; mkPackageFile "dir" "/b/y";
     mkPackageFile "ghost" "/a/z"]
  = package_files_to_hash
      [mkPackageFile "dir" "/b/y"; mkPackageFile "file" "/a/x";
       mkPackageFile "ghost" "/a/z"].
Proof.
  apply package_files_to_hash_interleaving.
  intros dir. unfold group_of. rewrite !filter_cons, !filter_nil.
  change (g_path_get_dirname (pf_name (mkPackageFile "file" "/a/x"))) with "/a".
  change (g_path_get_dirname (pf_name (mkPackageFile "dir" "/b/y"))) with "/b".
  change (g_path_get_dirname (pf_name (mkPackageFile "ghost" "/a/z"))) with "/a".
  destruct (decide ("/a" = dir)) as [Ha | Ha];
    destruct (decide ("/b" = dir)) as [Hb | Hb];
    try reflexivity.
  rewrite <- Ha in Hb. discriminate Hb.
Defined.

(** ** The coherency protocol: the other cases *)

Section OpenCases.

Variable V : Z.

Lemma schema_db_db_info (kind : SchemaKind) : db_info (schema_db kind) = Some [].
Proof.
  unfold schema_db. by rewrite (run_script_schema_db_info _ _ (script_of_schema kind)).
Qed.

Lemma same_schema_refl (d : database) : same_schema d d.
Proof. by repeat split. Qed.

(** X4: Absent.  On a path that holds no file, [yum_db_open] with the
    create function of any of the three kinds creates the file, leaves
    in it an empty [db_info] and the kind's schema (the table [packages]
    and the dependent tables, nothing else), returns the connection and
    sets no error; no other file is touched. *)
Theorem yum_db_open_creates_absent (w : world) (path checksum : string)
    (kind : SchemaKind) :
  fs w !! path = None ->
  yum_db_open V w path checksum (create_tables_of kind)
  = (set_db path (schema_db kind) w, Some path, None) /\
  db_info (schema_db kind) = Some [] /\
  dom (tables (schema_db kind))
  = list_to_set ("packages" :: dependent_tables kind) /\
  forall p, p <> path ->
    fs (set_db path (schema_db kind) w) !! p = fs w !! p.
Proof.
  intros Hn. split; [by apply yum_db_open_absent |].
  split; [apply schema_db_db_info |].
  split; [apply schema_db_tables, same_schema_refl |].
  intros p Hp. unfold set_db. cbn. by rewrite lookup_insert_ne.
Qed.

(** X5: Current.  Only the first row of [db_info] is read: when it
    carries the compiled version and the expected checksum, whatever
    rows follow it, [yum_db_open] returns no connection, sets no error,
    does not run [create_tables] and changes nothing. *)
Theorem yum_db_open_first_row_current (w : world) (path checksum : string)
    (create_tables : CreateTablesFn) (d : database) (rest : list Stamp) :
  get_db w path = Some d ->
  db_info d = Some (mkStamp V checksum :: rest) ->
  yum_db_open V w path checksum create_tables = (w, None, None).
Proof. apply yum_db_open_current. Qed.

(** X6: an existing database whose [db_info] table is there but empty
    (a rebuild that stopped before [yum_db_dbinfo_update]) is not
    rebuilt: [dbinfo_status] finds no row, the file is opened again as
    it is, [CREATE TABLE db_info] fails, and [yum_db_open] returns NULL
    with that error, for every checksum and every [create_tables], and
    changes nothing. *)
Theorem yum_db_open_unstamped (w : world) (path checksum : string)
    (create_tables : CreateTablesFn) (d : database) :
  get_db w path = Some d ->
  db_info d = Some [] ->
  yum_db_open V w path checksum create_tables
  = (w, None, Some "Can not create db_info table: %s").
Proof.
  intros Hd Hi. unfold yum_db_open.
  destruct (sqlite3_open_existing w path d Hd) as [-> ->].
  rewrite bool_decide_eq_true_2 by done.
  unfold dbinfo_status. rewrite Hd, Hi. unfold sqlite3_close.
  apply (yum_db_open_create_db_info_exists w path _ d Hd).
  unfold object_exists. rewrite Hi.
  rewrite (bool_decide_eq_true_2 (is_Some (Some []))) by by eexists.
  apply orb_true_r.
Qed.

(** X7: an existing file that is no database the program can use.
    When [sqlite3_open] fails on the file, [yum_db_open] unlinks the
    path and tries once more: if the file could be removed, a new cache
    of the kind is created in its place and its connection returned,
    exactly as for an absent file; if the second [sqlite3_open] fails
    too, NULL is returned with the error of the failed open, and nothing
    has changed.  A file that [sqlite3_open] opens but that is no
    database does not reach the [unlink]: it is found without a stamp,
    opened again, and the first statement fails on it, so NULL is
    returned with the error of [CREATE TABLE db_info] and the file is
    kept as it is. *)
Theorem yum_db_open_retry (w : world) (path checksum : string)
    (kind : SchemaKind) (create_tables : CreateTablesFn) :
  match fs w !! path with
  | Some Unreadable =>
      yum_db_open V w path checksum (create_tables_of kind)
      = (set_db path (schema_db kind) w, Some path, None)
  | Some Blocked =>
      yum_db_open V w path checksum create_tables
      = (w, None, Some "Can not open SQL database: %s")
  | Some Foreign =>
      yum_db_open V w path checksum create_tables
      = (w, None, Some "Can not create db_info table: %s")
  | _ => True
  end.
Proof.
  destruct (fs w !! path) as [[d| | |]|] eqn:Hf; [done | | | | done].
  - by apply yum_db_open_foreign.
  - unfold yum_db_open, sqlite3_open. rewrite Hf.
    rewrite bool_decide_eq_false_2 by (intros ?; done).
    unfold sqlite3_close.
    rewrite (yum_db_open_create_absent (unlink w path) path kind).
    + unfold unlink. rewrite Hf. unfold set_db, set_fs. cbn.
      by rewrite insert_delete_eq.
    + unfold unlink. rewrite Hf. cbn. apply lookup_delete_eq.
  - unfold yum_db_open, sqlite3_open. rewrite Hf.
    rewrite bool_decide_eq_false_2 by (intros ?; done).
    unfold sqlite3_close, unlink. rewrite Hf.
    unfold yum_db_open_create, sqlite3_open. rewrite Hf.
    by rewrite bool_decide_eq_true_2.
Qed.

(** X8: [yum_db_open] never returns a connection together with an
    error, whatever the file and whatever [create_tables] does; the
    connection it returns is the one of the path it was given. *)
Theorem yum_db_open_handle_or_error (w w' : world) (path checksum : string)
    (create_tables : CreateTablesFn) (h : option string) (e : option string) :
  yum_db_open V w path checksum create_tables = (w', h, e) ->
  (h = None \/ e = None) /\ (forall x, h = Some x -> x = path).
Proof.
  unfold yum_db_open, yum_db_open_create, yum_db_create_dbinfo_table.
  intros H.
  repeat (case_match; simplify_eq); split; auto; intros; congruence.
Qed.

(** X9: [yum_db_dbinfo_update] on a connection whose database has no
    [db_info] table (or whose file is no database) sets the error
    "Can not update dbinfo table" and changes nothing. *)
Theorem yum_db_dbinfo_update_no_table (w : world) (db checksum : string) :
  stamps_of w db = None ->
  yum_db_dbinfo_update V w db checksum
  = (w, Some "Can not update dbinfo table: %s").
Proof.
  unfold stamps_of, yum_db_dbinfo_update, sqlite3_exec. intros H.
  destruct (get_db w db) as [d|]; [| by rewrite bool_decide_eq_true_2].
  cbn [run_sql]. rewrite H. by rewrite bool_decide_eq_true_2.
Qed.

End OpenCases.

(** ** Row writes leave the frame alone *)

Section Frame.

Lemma same_frame_refl (w : world) : same_frame w w.
Proof. by split. Qed.

Lemma same_frame_trans (w1 w2 w3 : world) :
  same_frame w1 w2 -> same_frame w2 w3 -> same_frame w1 w3.
Proof.
  intros [H1 G1] [H2 G2]. split.
  - intros p. by rewrite H2, H1.
  - intros p Hn. rewrite G2, G1; [done | done |].
    specialize (H1 p). unfold frame_of in H1. rewrite Hn in H1.
    by destruct (get_db w2 p).
Qed.

Lemma same_frame_debug (w : world) (l : DebugLevel) (m : string) :
  same_frame w (debug l m w).
Proof. by split. Qed.

Lemma same_frame_stamps (w w' : world) (path : string) :
  same_frame w w' -> stamps_of w' path = stamps_of w path.
Proof.
  intros [H _]. specialize (H path). unfold frame_of, stamps_of in *.
  destruct (get_db w' path), (get_db w path); congruence.
Qed.

Lemma same_frame_columns (w w' : world) (path tbl : string) :
  same_frame w w' -> table_columns w' path tbl = table_columns w path tbl.
Proof.
  intros [H _]. specialize (H path). unfold frame_of, table_columns in *.
  destruct (get_db w' path) as [d'|], (get_db w path) as [d|]; try done.
  injection H as _ Hc _ _. by rewrite <- !lookup_fmap, Hc.
Qed.

Lemma insert_into_frame (d d' : database) (tbl : string) (cols : list string)
    (vals : list value) :
  insert_into d tbl cols vals = Some d' ->
  db_info d' = db_info d /\ columns <$> tables d' = columns <$> tables d /\
  indexes d' = indexes d /\ triggers d' = triggers d.
Proof.
  unfold insert_into. destruct (tables d !! tbl) as [t|] eqn:Ht; [| done].
  destruct (_ && _); [| done]. intros [= <-]. cbn.
  repeat split. rewrite fmap_insert. cbn. apply insert_id.
  by rewrite lookup_fmap, Ht.
Qed.

Lemma sqlite3_step_frame (w : world) (handle : sqlite3_stmt) (binds : list value) :
  same_frame w (fst (sqlite3_step w handle binds)).
Proof.
  unfold sqlite3_step.
  assert (forall faults, same_frame w (set_step_faults faults w)) as Hsf
    by (intros; by split).
  assert (forall faults,
             same_frame w
               (fst (let w0 := set_step_faults faults w in
                     match get_db w0 (stmt_db handle) with
                     | Some d =>
                         match tables d !! stmt_table handle,
                               insert_into d (stmt_table handle)
                                 (stmt_columns handle) binds with
                         | Some t, Some d' =>
                             (set_last_insert_rowid (next_rowid t)
                                (set_db (stmt_db handle) d' w0), SQLITE_DONE)
                         | _, _ => (w0, SQLITE_ERROR)
                         end
                     | None => (w0, SQLITE_ERROR)
                     end))) as Hgo.
  { intros faults. cbn zeta.
    change (get_db (set_step_faults faults w) (stmt_db handle))
      with (get_db w (stmt_db handle)).
    destruct (get_db w (stmt_db handle)) as [d|] eqn:Hd; [| apply Hsf].
    destruct (tables d !! stmt_table handle) as [t|]; [| apply Hsf].
    destruct (insert_into d _ _ binds) as [d'|] eqn:Hi; [| apply Hsf].
    destruct (insert_into_frame _ _ _ _ _ Hi) as (Hi1 & Hc & Hx & Ht).
    cbn [fst]. split.
    - intros p. unfold frame_of, get_db, set_db. cbn.
      destruct (decide (p = stmt_db handle)) as [-> | Hne].
      + rewrite lookup_insert_eq. unfold get_db in Hd.
        destruct (fs w !! stmt_db handle) as [[]|]; try done.
        injection Hd as ->. by rewrite Hi1, Hc, Hx, Ht.
      + by rewrite lookup_insert_ne.
    - intros p Hn. unfold set_db. cbn.
      destruct (decide (p = stmt_db handle)) as [-> | Hne]; [congruence |].
      by rewrite lookup_insert_ne. }
  destruct (step_faults w) as [|[] rest]; [apply Hgo | apply Hsf | apply Hgo].
Qed.

Lemma step_and_log_frame (m : string) (handle : sqlite3_stmt)
    (binds : list value) (w : world) :
  same_frame w (step_and_log m handle binds w).
Proof.
  unfold step_and_log. pose proof (sqlite3_step_frame w handle binds) as H.
  destruct (sqlite3_step w handle binds) as [w1 r]. cbn in H.
  destruct (bool_decide _); [| done].
  eapply same_frame_trans; [exact H | apply same_frame_debug].
Qed.

Lemma fold_same_frame {A} (f : world -> A -> world) (l : list A) (w : world) :
  (forall w a, same_frame w (f w a)) -> same_frame w (fold_left f l w).
Proof.
  intros Hf. revert w. induction l as [|a l IH]; intros w; [apply same_frame_refl |].
  cbn [fold_left]. eapply same_frame_trans; [apply Hf | apply IH].
Qed.

Lemma package_write_frame (w : world) (db : string) (handle : sqlite3_stmt)
    (p : Package) :
  same_frame w (fst (yum_db_package_write w db handle p)) /\
  same_frame w (fst (yum_db_package_ids_write w db handle p)).
Proof.
  unfold yum_db_package_write, yum_db_package_ids_write. split.
  - match goal with |- context [sqlite3_step w handle ?b] =>
      pose proof (sqlite3_step_frame w handle b) as H;
      destruct (sqlite3_step w handle b) as [w1 r] end.
    cbn in H. destruct (bool_decide _); [| done].
    eapply same_frame_trans; [exact H | apply same_frame_debug].
  - match goal with |- context [sqlite3_step w handle ?b] =>
      pose proof (sqlite3_step_frame w handle b) as H;
      destruct (sqlite3_step w handle b) as [w1 r] end.
    cbn in H. destruct (bool_decide _); [| done].
    eapply same_frame_trans; [exact H | apply same_frame_debug].
Qed.

Lemma run_row_write_frame (db : string) (w : world) (op : row_write) :
  same_frame w (run_row_write db w op).
Proof.
  destruct op; cbn [run_row_write].
  - apply package_write_frame.
  - apply package_write_frame.
  - apply step_and_log_frame.
  - apply step_and_log_frame.
  - unfold yum_db_filelists_write, g_hash_table_foreach.
    apply fold_same_frame. intros w0 kv. apply step_and_log_frame.
  - unfold yum_db_changelog_write.
    apply fold_same_frame. intros w0 e. apply step_and_log_frame.
Qed.

Lemma run_row_writes_frame (db : string) (ops : list row_write) (w : world) :
  same_frame w (run_row_writes db ops w).
Proof.
  unfold run_row_writes. apply fold_same_frame. intros. apply run_row_write_frame.
Qed.

(** X10: whatever row writers run, in whatever number and order, with
    whatever statements and whether their steps fail or not, they change
    rows only: in every file the rows of [db_info], the columns of every
    table, the indexes and the triggers are as before, and a path that
    holds no database is left as it is. *)
Theorem row_writes_keep_frame (db : string) (ops : list row_write) (w : world)
    (path tbl : string) :
  frame_of (run_row_writes db ops w) path = frame_of w path /\
  stamps_of (run_row_writes db ops w) path = stamps_of w path /\
  table_columns (run_row_writes db ops w) path tbl = table_columns w path tbl /\
  (get_db w path = None -> fs (run_row_writes db ops w) !! path = fs w !! path).
Proof.
  pose proof (run_row_writes_frame db ops w) as H.
  split; [apply H |]. split; [by apply same_frame_stamps |].
  split; [by apply same_frame_columns | apply H].
Qed.

End Frame.

(** ** A rebuild from open to open *)

Section Rebuild.

Variable V : Z.

(** X11: a complete rebuild.  After [yum_db_open] has returned a
    connection (for a new file or for a checksum mismatch), any row
    writes, failed or not, and [yum_db_dbinfo_update] with a checksum
    that has no apostrophe: the update sets no error and keeps every
    row written, and the next [yum_db_open] with that checksum finds the
    cache current, whatever [create_tables] it is given. *)
Theorem rebuild_then_open_current (w0 w1 : world) (path checksum0 checksum h : string)
    (kind : SchemaKind) (ops : list row_write) :
  yum_db_open V w0 path checksum0 (create_tables_of kind) = (w1, Some h, None) ->
  no_apostrophe checksum = true ->
  exists w3,
    yum_db_dbinfo_update V (run_row_writes h ops w1) h checksum = (w3, None) /\
    (forall tbl, rows_of w3 h tbl = rows_of (run_row_writes h ops w1) h tbl) /\
    forall create_tables,
      yum_db_open V w3 path checksum create_tables = (w3, None, None).
Proof.
  intros Hopen Hq.
  destruct (yum_db_open_handle_stamps V _ _ _ _ _ _ Hopen) as [-> Hs1].
  pose proof (same_frame_stamps _ _ path (run_row_writes_frame path ops w1)) as Hs2.
  rewrite Hs1 in Hs2. set (w2 := run_row_writes path ops w1) in *.
  unfold stamps_of in Hs2. destruct (get_db w2 path) as [d|] eqn:Hd; [| done].
  pose proof (yum_db_dbinfo_update_ok V w2 path checksum d [] Hd Hs2 Hq) as Hu.
  rewrite app_nil_l in Hu. eexists. split; [exact Hu |]. split.
  - intros tbl. unfold rows_of. by rewrite get_db_set_db, Hd.
  - intros ct.
    by apply (yum_db_open_current V _ path checksum ct
                (set_db_info (Some [mkStamp V checksum]) d) []);
      [apply get_db_set_db |].
Qed.

(** X12: a rebuild that stops before [yum_db_dbinfo_update].  After
    [yum_db_open] has returned a connection and any row writes, the next
    [yum_db_open], with any checksum and any [create_tables], never
    finds the cache current; it does not rebuild it either: it returns
    NULL with the error of the failed [CREATE TABLE db_info] and leaves
    the file as the writes left it. *)
Theorem rebuild_unfinished_then_open (w0 w1 : world) (path checksum0 checksum h : string)
    (kind : SchemaKind) (ops : list row_write) (create_tables : CreateTablesFn) :
  yum_db_open V w0 path checksum0 (create_tables_of kind) = (w1, Some h, None) ->
  yum_db_open V (run_row_writes h ops w1) path checksum create_tables
  = (run_row_writes h ops w1, None, Some "Can not create db_info table: %s").
Proof.
  intros Hopen.
  destruct (yum_db_open_handle_stamps V _ _ _ _ _ _ Hopen) as [-> Hs1].
  pose proof (same_frame_stamps _ _ path (run_row_writes_frame path ops w1)) as Hs2.
  rewrite Hs1 in Hs2. set (w2 := run_row_writes path ops w1) in *.
  unfold stamps_of in Hs2. destruct (get_db w2 path) as [d|] eqn:Hd; [| done].
  unfold yum_db_open.
  destruct (sqlite3_open_existing w2 path d Hd) as [-> ->].
  rewrite bool_decide_eq_true_2 by done.
  unfold dbinfo_status. rewrite Hd, Hs2. unfold sqlite3_close.
  apply (yum_db_open_create_db_info_exists w2 path _ d Hd).
  unfold object_exists. rewrite Hs2.
  rewrite (bool_decide_eq_true_2 (is_Some (Some []))) by by eexists.
  apply orb_true_r.
Qed.

End Rebuild.

(** ** The writers and the schemas *)

Lemma sqlite3_prepare_insert_columns (w : world) (db tbl : string)
    (icols : list string) (d : database) :
  get_db w db = Some d ->
  sqlite3_prepare_insert w db tbl icols =
  match columns <$> tables d !! tbl with
  | Some cols =>
      if has_columns (mkTable cols []) icols
      then Some (mkStmt db tbl icols) else None
  | None => None
  end.
Proof.
  intros Hd. unfold sqlite3_prepare_insert. rewrite Hd.
  by destruct (tables d !! tbl).
Qed.

(** X13: the INSERT of every writer names only columns that the CREATE
    TABLE of its schema declares.  On a database with the schema of a
    kind, the prepare functions of that kind's writers return their
    statement and set no error: package, the four dependency tables and
    file for Primary; package id and file list for FileLists; package id
    and changelog for Other.  The package and file writers of Primary do
    not prepare on the two other kinds: they return NULL with their
    error. *)
Theorem prepare_matches_schema (kind : SchemaKind) (w : world) (db : string)
    (d : database) :
  get_db w db = Some d ->
  same_schema d (schema_db kind) ->
  match kind with
  | Primary =>
      yum_db_package_prepare w db
      = (Some (mkStmt db "packages" package_insert_columns), None) /\
      (forall tbl, tbl ∈ deps ->
         yum_db_dependency_prepare w db tbl
         = (Some (mkStmt db tbl dependency_insert_columns), None)) /\
      yum_db_file_prepare w db
      = (Some (mkStmt db "files" file_insert_columns), None)
  | FileLists =>
      yum_db_package_ids_prepare w db
      = (Some (mkStmt db "packages" ["pkgId"]), None) /\
      yum_db_filelists_prepare w db
      = (Some (mkStmt db "filelist" filelist_insert_columns), None) /\
      yum_db_package_prepare w db
      = (None, Some "Can not prepare packages insertion: %s") /\
      yum_db_file_prepare w db = (None, Some "Can not prepare file insertion: %s")
  | Other =>
      yum_db_package_ids_prepare w db
      = (Some (mkStmt db "packages" ["pkgId"]), None) /\
      yum_db_changelog_prepare w db
      = (Some (mkStmt db "changelog" changelog_insert_columns), None) /\
      yum_db_package_prepare w db
      = (None, Some "Can not prepare packages insertion: %s") /\
      yum_db_file_prepare w db = (None, Some "Can not prepare file insertion: %s")
  end.
Proof.
  intros Hd Hs.
  assert (forall tbl icols m,
            prepared (sqlite3_prepare_insert w db tbl icols) m
            = prepared
                (match columns <$> tables (schema_db kind) !! tbl with
                 | Some cols =>
                     if has_columns (mkTable cols []) icols
                     then Some (mkStmt db tbl icols) else None
                 | None => None
                 end) m) as H.
  { intros. by rewrite (sqlite3_prepare_insert_columns w db tbl icols d Hd),
              (same_schema_lookup d _ tbl Hs). }
  unfold yum_db_package_prepare, yum_db_dependency_prepare, yum_db_file_prepare,
    yum_db_package_ids_prepare, yum_db_filelists_prepare, yum_db_changelog_prepare.
  destruct kind.
  - split; [rewrite H; vm_compute; reflexivity |].
    split; [| rewrite H; vm_compute; reflexivity].
    intros tbl Hin. rewrite H. unfold deps in Hin.
    repeat (apply elem_of_cons in Hin as [-> | Hin]; [vm_compute; reflexivity |]).
    by apply elem_of_nil in Hin.
  - repeat split; rewrite H; vm_compute; reflexivity.
  - repeat split; rewrite H; vm_compute; reflexivity.
Qed.

Lemma prepare_matches_schema_witness :
  yum_db_package_ids_prepare
    (one_file_world "other.sqlite" (Database (schema_db Other))) "other.sqlite"
  = (Some (mkStmt "other.sqlite" "packages" ["pkgId"]), None).
Proof.
  apply (prepare_matches_schema Other
           (one_file_world "other.sqlite" (Database (schema_db Other)))
           "other.sqlite" (schema_db Other));
    [reflexivity | apply same_schema_refl].
Defined.

(** ** Package rows and their keys *)

Lemma sqlite3_step_done (db tbl : string) (icols : list string)
    (binds : list value) (w : world) (d : database) (t : table) :
  head (step_faults w) <> Some true ->
  get_db w db = Some d ->
  tables d !! tbl = Some t ->
  has_columns t icols = true ->
  length icols = length binds ->
  sqlite3_step w (mkStmt db tbl icols) binds
  = (set_last_insert_rowid (next_rowid t)
       (set_db db
          (set_tables (<[tbl := {| columns := columns t;
                                   rows := rows t ++ [new_row t icols binds] |}]>
                         (tables d)) d)
          (set_step_faults (tail (step_faults w)) w)),
     SQLITE_DONE).
Proof.
  intros Hf Hd Ht Hc Hl. unfold sqlite3_step. cbn [stmt_db stmt_table stmt_columns].
  assert (get_db (set_step_faults (tail (step_faults w)) w) db = Some d) as Hd'
    by done.
  assert (insert_into d tbl icols binds
          = Some (set_tables (<[tbl := {| columns := columns t;
                                           rows := rows t ++ [new_row t icols binds] |}]>
                                (tables d)) d)) as Hi.
  { unfold insert_into. rewrite Ht, Hc. apply Nat.eqb_eq in Hl. by rewrite Hl. }
  destruct (step_faults w) as [|[] rest]; [| done |]; by rewrite Hd', Ht, Hi.
Qed.

Lemma fold_max_key (t : table) (c : string) (rs : list (list value)) (m : Z) :
  let M := fold_left (fun m r => match cell t c r with
                                 | Some (VInt k) => Z.max m k
                                 | _ => m
                                 end) rs m in
  m <= M /\
  (forall r k, r ∈ rs -> cell t c r = Some (VInt k) -> k <= M) /\
  (M = m \/ exists r, r ∈ rs /\ cell t c r = Some (VInt M)).
Proof.
  revert m. induction rs as [|r0 rs IH]; intros m M.
  - split; [subst M; cbn; lia |]. split; [| by left].
    intros r k Hin. by apply elem_of_nil in Hin.
  - subst M. cbn [fold_left].
    specialize (IH (match cell t c r0 with
                    | Some (VInt k) => Z.max m k
                    | _ => m
                    end)).
    cbn zeta in IH. destruct IH as (Hm & Hall & Hmem). split; [| split].
    + destruct (cell t c r0) as [[| k0 |]|]; lia.
    + intros r k [-> | Hin]%elem_of_cons Hc; [| by eapply Hall].
      rewrite Hc in Hm |- *. lia.
    + destruct Hmem as [He | (r & Hr & Hc)]; [| right; exists r; split; [by right | done]].
      destruct (cell t c r0) as [[| k0 |]|] eqn:E; try (by left).
      destruct (Z.max_spec m k0) as [[_ Hx] | [_ Hx]]; rewrite Hx in He |- *.
      * right. exists r0. split; [by left |]. by rewrite He.
      * by left.
Qed.

(** The key of a new row of a table whose first column is the key, when
    the keys in use are in the range where SQLite adds one to the
    largest. *)
Lemma next_rowid_in_range (cols : list (string * coltype)) (rs : list (list value)) :
  primary_key_column (mkTable cols rs) = Some "pkgKey" ->
  column_index "pkgKey" cols = Some 0%nat ->
  keys_in_range rs ->
  let key := next_rowid (mkTable cols rs) in
  0 < key <= 2 ^ 63 - 1 /\
  (forall k, k ∈ keys_of rs -> k < key) /\
  (rs = [] -> key = 1) /\
  (rs <> [] -> key - 1 ∈ keys_of rs).
Proof.
  intros Hpk Hci Hr key. subst key. unfold next_rowid. rewrite Hpk. unfold max_key.
  pose proof (fold_max_key (mkTable cols rs) "pkgKey" rs 0) as H.
  cbn zeta in H. cbn [rows]. destruct H as (H0 & Hall & Hmem).
  assert (forall r, cell (mkTable cols rs) "pkgKey" r = r !! 0%nat) as Hcell
    by (intros r; unfold cell; cbn [columns]; by rewrite Hci).
  assert (forall r k, r ∈ rs -> r !! 0%nat = Some (VInt k) -> k ∈ keys_of rs) as Hk.
  { intros r k Hin Hc. unfold keys_of. apply list_elem_of_omap. exists r.
    split; [done |]. by rewrite Hc. }
  set (M := fold_left _ rs 0) in *.
  unfold keys_in_range in Hr. rewrite Forall_forall in Hr.
  split; [| split; [| split]].
  - destruct Hmem as [-> | (r & Hin & Hc)]; [lia |].
    destruct (Hr r Hin) as (k & Hk' & Hb). rewrite Hcell, Hk' in Hc.
    injection Hc as <-. lia.
  - intros k Hin. unfold keys_of in Hin.
    apply list_elem_of_omap in Hin as (r & Hin & Hc).
    assert (cell (mkTable cols rs) "pkgKey" r = Some (VInt k)) as Hc'.
    { rewrite Hcell. destruct (r !! 0%nat) as [[| k0 |]|]; congruence. }
    specialize (Hall r k Hin Hc'). lia.
  - intros ->. subst M. cbn. lia.
  - intros Hne. replace (M + 1 - 1) with M by lia.
    destruct Hmem as [He | (r & Hin & Hc)].
    + destruct rs as [|r rs']; [done |].
      destruct (Hr r) as (k & Hk' & Hb); [by left |].
      assert (k <= M) as Hle by (apply (Hall r k); [by left | by rewrite Hcell]).
      assert (k = M) as <- by lia. apply (Hk r); [by left | done].
    + rewrite Hcell in Hc. by apply (Hk r).
Qed.

(** X14: a package id written by [yum_db_package_ids_write] on the
    [packages] table of a FileLists or Other cache whose keys are
    integers from 0 to 2^63 - 2, with a step the storage does not fail:
    one row is added, made of the key SQLite assigned and the [pkgId];
    the package comes back with that key in [pkgKey] and is otherwise
    unchanged; the key is 1 in an empty table and one more than the
    largest key otherwise, so it is positive, larger than the key of
    every row the table held, and within the range of a [gint64]. *)
Theorem yum_db_package_ids_write_key (w : world) (db : string) (p : Package) :
  table_columns w db "packages" = Some ids_packages_columns ->
  head (step_faults w) <> Some true ->
  keys_in_range (rows_of w db "packages") ->
  let r := yum_db_package_ids_write w db (mkStmt db "packages" ["pkgId"]) p in
  let key := p_pkgKey (snd r) in
  snd r = set_pkgKey key p /\
  rows_of (fst r) db "packages"
  = rows_of w db "packages" ++ [[VInt key; sqlite3_bind_text (p_pkgId p)]] /\
  0 < key <= 2 ^ 63 - 1 /\
  (forall k, k ∈ keys_of (rows_of w db "packages") -> k < key) /\
  (rows_of w db "packages" = [] -> key = 1) /\
  (rows_of w db "packages" <> [] ->
   key - 1 ∈ keys_of (rows_of w db "packages")).
Proof.
  intros Hc Hf Hr.
  destruct (table_columns_Some w db "packages" _ Hc) as (d & t & Hd & Ht & Hct & Hrt).
  destruct t as [tc tr]. cbn in Hct, Hrt. subst tc. rewrite <- Hrt in *.
  unfold yum_db_package_ids_write.
  rewrite (sqlite3_step_done db "packages" ["pkgId"] _ w d _ Hf Hd Ht eq_refl)
    by reflexivity.
  rewrite bool_decide_eq_false_2 by (intros ?; done).
  cbn [fst snd]. unfold sqlite3_last_insert_rowid. cbn [last_insert_rowid set_last_insert_rowid].
  pose proof (next_rowid_in_range ids_packages_columns tr eq_refl eq_refl Hr) as Hk.
  cbn zeta in Hk.
  split; [done |]. split; [| exact Hk].
  unfold rows_of.
  change (get_db (set_last_insert_rowid ?k ?w0) db) with (get_db w0 db).
  rewrite get_db_set_db. cbn [tables set_tables]. by rewrite lookup_insert_eq.
Qed.

Lemma yum_db_package_ids_write_key_witness :
  let w := one_file_world "filelists.sqlite" (Database example_filelists_db) in
  let p := mkPackage 0 (Some "id3") None None None None None None None None
             None None None None None None None None None None None None
             None None None None None [] [] in
  let r := yum_db_package_ids_write w "filelists.sqlite"
             (mkStmt "filelists.sqlite" "packages" ["pkgId"]) p in
  0 < p_pkgKey (snd r) <= 2 ^ 63 - 1 /\
  forall k, k ∈ keys_of (rows_of w "filelists.sqlite" "packages") ->
    k < p_pkgKey (snd r).
Proof.
  intros w p r.
  assert (table_columns w "filelists.sqlite" "packages" = Some ids_packages_columns)
    as Hc by reflexivity.
  assert (head (step_faults w) <> Some true) as Hf by discriminate.
  assert (keys_in_range (rows_of w "filelists.sqlite" "packages")) as Hr.
  { change (keys_in_range [[VInt 1; VText "id1"]; [VInt 2; VText "id2"]]).
    repeat constructor; eexists; (split; [reflexivity | lia]). }
  pose proof (yum_db_package_ids_write_key w "filelists.sqlite" p Hc Hf Hr) as H.
  cbn zeta in H. destruct H as (_ & _ & Hk & Hall & _). exact (conj Hk Hall).
Defined.

(** X15: a package written by [yum_db_package_write] on the [packages]
    table of a Primary cache whose keys are integers from 0 to 2^63 - 2,
    with a step the storage does not fail: one row is added, whose first
    cell is the key SQLite assigned and whose other cells are the 26
    attributes, each in the column that has the name of its field; the
    package comes back with that key in [pkgKey]; the key is 1 in an
    empty table and one more than the largest key otherwise, so it is
    positive, larger than the key of every row the table held, and
    within the range of a [gint64]. *)
Theorem yum_db_package_write_row (w : world) (db : string) (p : Package) :
  table_columns w db "packages" = Some primary_packages_columns ->
  head (step_faults w) <> Some true ->
  keys_in_range (rows_of w db "packages") ->
  let r := yum_db_package_write w db (mkStmt db "packages" package_insert_columns) p in
  let key := p_pkgKey (snd r) in
  snd r = set_pkgKey key p /\
  rows_of (fst r) db "packages"
  = rows_of w db "packages"
    ++ [VInt key :: map (fun a => sqlite3_bind_text (snd a)) (package_attributes p)] /\
  map fst primary_packages_columns = "pkgKey" :: map fst (package_attributes p) /\
  0 < key <= 2 ^ 63 - 1 /\
  (forall k, k ∈ keys_of (rows_of w db "packages") -> k < key) /\
  (rows_of w db "packages" = [] -> key = 1) /\
  (rows_of w db "packages" <> [] ->
   key - 1 ∈ keys_of (rows_of w db "packages")).
Proof.
  intros Hc Hf Hr.
  destruct (table_columns_Some w db "packages" _ Hc) as (d & t & Hd & Ht & Hct & Hrt).
  destruct t as [tc tr]. cbn in Hct, Hrt. subst tc. rewrite <- Hrt in *.
  unfold yum_db_package_write.
  rewrite (sqlite3_step_done db "packages" package_insert_columns _ w d _
             Hf Hd Ht eq_refl) by reflexivity.
  rewrite bool_decide_eq_false_2 by (intros ?; done).
  cbn [fst snd]. unfold sqlite3_last_insert_rowid. cbn [last_insert_rowid set_last_insert_rowid].
  pose proof (next_rowid_in_range primary_packages_columns tr eq_refl eq_refl Hr) as Hk.
  cbn zeta in Hk.
  split; [done |]. split; [| split; [done | exact Hk]].
  unfold rows_of.
  change (get_db (set_last_insert_rowid ?k ?w0) db) with (get_db w0 db).
  rewrite get_db_set_db. cbn [tables set_tables]. by rewrite lookup_insert_eq.
Qed.

Lemma yum_db_package_write_row_witness :
  let w := one_file_world "primary.sqlite" (Database (schema_db Primary)) in
  let p := mkPackage 0 (Some "id") (Some "bash") (Some "i386") (Some "3.0")
             (Some "0") (Some "1") None None None None None None None None None
             None None None None None None None None None None None [] [] in
  p_pkgKey (snd (yum_db_package_write w "primary.sqlite"
                   (mkStmt "primary.sqlite" "packages" package_insert_columns) p))
  = 1.
Proof.
  intros w p.
  assert (table_columns w "primary.sqlite" "packages" = Some primary_packages_columns)
    as Hc by reflexivity.
  assert (head (step_faults w) <> Some true) as Hf by discriminate.
  assert (rows_of w "primary.sqlite" "packages" = []) as He by reflexivity.
  assert (keys_in_range (rows_of w "primary.sqlite" "packages")) as Hr
    by (rewrite He; constructor).
  pose proof (yum_db_package_write_row w "primary.sqlite" p Hc Hf Hr) as H.
  cbn zeta in H. destruct H as (_ & _ & _ & _ & _ & H1 & _). exact (H1 He).
Defined.

(** ** The cases at concrete files *)

Lemma yum_db_open_creates_absent_witness :
  yum_db_open 10 empty_world "primary.sqlite" "abc" (create_tables_of Primary)
  = (set_db "primary.sqlite" (schema_db Primary) empty_world,
     Some "primary.sqlite", None).
Proof.
  assert (fs empty_world !! "primary.sqlite" = None) as Hn by reflexivity.
  exact (proj1 (yum_db_open_creates_absent 10 empty_world "primary.sqlite" "abc"
                  Primary Hn)).
Defined.

Lemma yum_db_open_first_row_current_witness :
  let d := set_db_info (Some [mkStamp 10 "abc"; mkStamp 9 "old"])
             (schema_db Other) in
  let w := one_file_world "other.sqlite" (Database d) in
  yum_db_open 10 w "other.sqlite" "abc" yum_db_create_other_tables
  = (w, None, None).
Proof.
  intros d w.
  apply (yum_db_open_first_row_current 10 w "other.sqlite" "abc"
           yum_db_create_other_tables d [mkStamp 9 "old"]);
    reflexivity.
Defined.

Lemma yum_db_open_unstamped_witness :
  let w := one_file_world "other.sqlite" (Database (schema_db Other)) in
  yum_db_open 10 w "other.sqlite" "abc" yum_db_create_other_tables
  = (w, None, Some "Can not create db_info table: %s").
Proof.
  intros w.
  apply (yum_db_open_unstamped 10 w "other.sqlite" "abc"
           yum_db_create_other_tables (schema_db Other));
    [reflexivity | apply schema_db_db_info].
Defined.

Lemma yum_db_open_handle_or_error_witness :
  (Some "filelists.sqlite" = None \/ @None string = None) /\
  forall x, Some "filelists.sqlite" = Some x -> x = "filelists.sqlite".
Proof.
  apply (yum_db_open_handle_or_error 10 empty_world
           (set_db "filelists.sqlite" (schema_db FileLists) empty_world)
           "filelists.sqlite" "abc" (create_tables_of FileLists)).
  apply yum_db_open_absent. reflexivity.
Defined.

Lemma yum_db_dbinfo_update_no_table_witness :
  yum_db_dbinfo_update 10 (one_file_world "notes.txt" Foreign) "notes.txt" "abc"
  = (one_file_world "notes.txt" Foreign, Some "Can not update dbinfo table: %s").
Proof.
  apply (yum_db_dbinfo_update_no_table 10 (one_file_world "notes.txt" Foreign)
           "notes.txt" "abc").
  reflexivity.
Defined.

Lemma rebuild_then_open_current_witness :
  let p := mkPackage 0 (Some "id") None None None None None None None None
             None None None None None None None None None None None None
             None None None None None [] [] in
  let w1 := set_db "other.sqlite" (schema_db Other) empty_world in
  let ops := [PackageIdsWrite (mkStmt "other.sqlite" "packages" ["pkgId"]) p] in
  exists w3,
    yum_db_dbinfo_update 10 (run_row_writes "other.sqlite" ops w1)
      "other.sqlite" "abc" = (w3, None) /\
    (forall tbl, rows_of w3 "other.sqlite" tbl
                 = rows_of (run_row_writes "other.sqlite" ops w1) "other.sqlite" tbl) /\
    forall create_tables,
      yum_db_open 10 w3 "other.sqlite" "abc" create_tables = (w3, None, None).
Proof.
  intros p w1 ops.
  apply (rebuild_then_open_current 10 empty_world w1 "other.sqlite" "none" "abc"
           "other.sqlite" Other ops);
    [apply yum_db_open_absent; reflexivity | reflexivity].
Defined.

Lemma rebuild_unfinished_then_open_witness :
  let p := mkPackage 0 (Some "id") None None None None None None None None
             None None None None None None None None None None None None
             None None None None None [] [] in
  let w1 := set_db "other.sqlite" (schema_db Other) empty_world in
  let ops := [PackageIdsWrite (mkStmt "other.sqlite" "packages" ["pkgId"]) p] in
  yum_db_open 10 (run_row_writes "other.sqlite" ops w1) "other.sqlite" "abc"
    yum_db_create_other_tables
  = (run_row_writes "other.sqlite" ops w1, None,
     Some "Can not create db_info table: %s").
Proof.
  intros p w1 ops.
  apply (rebuild_unfinished_then_open 10 empty_world w1 "other.sqlite" "none" "abc"
           "other.sqlite" Other ops yum_db_create_other_tables).
  apply yum_db_open_absent. reflexivity.
Defined.

(** ** Reading the package ids back *)

Section ReadPackageIdsProperties.

Variable text_of_int : Z -> string.
Variable int_of_text : string -> Z.
Variable scan : table -> list (list value).
Hypothesis scan_rows : forall t, scan t ≡ₚ rows t.

#[local] Abbreviation pkgId_of := (pkgId_of text_of_int).
#[local] Abbreviation pkgKey_of := (pkgKey_of int_of_text).
#[local] Abbreviation read_package_ids_loop :=
  (read_package_ids_loop text_of_int int_of_text).
#[local] Abbreviation yum_db_read_package_ids :=
  (yum_db_read_package_ids text_of_int int_of_text scan).
#[local] Abbreviation entries_from := (entries_from text_of_int int_of_text).
#[local] Abbreviation rows_covered := (rows_covered text_of_int).
#[local] Abbreviation sqlite3_column_text := (sqlite3_column_text text_of_int).

Lemma read_package_ids_loop_returns (t : table) (l : list (list value))
    (w : world) (hash : gmap string Z) :
  Forall (fun r => is_Some (pkgId_of t r)) l ->
  exists w' hash' r,
    read_package_ids_loop t l w hash = Some (w', hash', r) /\
    fs w' = fs w /\
    (r = SQLITE_DONE \/ r = SQLITE_ERROR) /\
    (r = SQLITE_DONE <-> no_fault (S (length l)) w) /\
    (forall s k, hash' !! s = Some k ->
       hash !! s = Some k \/
       exists x, x ∈ l /\ pkgId_of t x = Some s /\ pkgKey_of t x = k) /\
    (r = SQLITE_DONE ->
       rows_covered t l hash' /\
       (forall s, is_Some (hash !! s) -> is_Some (hash' !! s))).
Proof.
  intros Hall. revert w hash.
  induction Hall as [|x l [s Hs] Hall IH]; intros w hash.
  - cbn [read_package_ids_loop length]. unfold no_fault.
    destruct (step_faults w) as [|[] rest] eqn:Hf; cbn [take].
    + eexists _, _, _. split; [done |]. split; [done |].
      split; [by left |]. split; [split; [intros _; by intros ?%elem_of_nil | done] |].
      split; [by left |]. intros _. split; [| done].
      intros r Hr. by apply elem_of_nil in Hr.
    + eexists _, _, _. split; [done |]. split; [done |].
      split; [by right |].
      split; [split; [done | intros H; exfalso; apply H; by left] |].
      split; [by left | done].
    + eexists _, _, _. split; [done |]. split; [done |].
      split; [by left |].
      split; [split; [intros _; by intros [?|?%elem_of_nil]%elem_of_cons | done] |].
      split; [by left |]. intros _. split; [| done].
      intros r Hr. by apply elem_of_nil in Hr.
  - cbn [read_package_ids_loop length].
    destruct (step_faults w) as [|[] rest] eqn:Hf.
    + unfold g_strdup. rewrite Hs.
      destruct (IH (set_step_faults (tail []) w) (<[s := pkgKey_of t x]> hash))
        as (w' & hash' & r & Hr & Hfs & Hrc & Hnf & Hsound & Hcompl).
      exists w', hash', r. split; [exact Hr |]. split; [exact Hfs |].
      split; [exact Hrc |]. split; [| split].
      * rewrite Hnf. unfold no_fault. cbn. rewrite Hf.
        split; intros _; by intros ?%elem_of_nil.
      * intros s' k Hk. destruct (Hsound s' k Hk) as [Hi | (y & Hy & Hy1 & Hy2)].
        -- destruct (decide (s = s')) as [<- | Hne].
           ++ rewrite lookup_insert_eq in Hi. injection Hi as <-.
              right. exists x. split; [by left | done].
           ++ rewrite lookup_insert_ne in Hi by done. by left.
        -- right. exists y. split; [by right | done].
      * intros Hd. destruct (Hcompl Hd) as [Hcov Hmono]. split.
        -- intros y [-> | Hy]%elem_of_cons; [| by apply Hcov].
           exists s. split; [done |]. apply Hmono. rewrite lookup_insert_eq. by eexists.
        -- intros s' Hs'. apply Hmono.
           destruct (decide (s = s')) as [<- | Hne];
             [rewrite lookup_insert_eq; by eexists | by rewrite lookup_insert_ne].
    + eexists _, _, _. split; [done |]. split; [done |].
      split; [by right |].
      split; [split; [done | unfold no_fault; rewrite Hf; intros H; exfalso; apply H; by left] |].
      split; [by left | done].
    + unfold g_strdup. rewrite Hs.
      destruct (IH (set_step_faults (tail (false :: rest)) w)
                  (<[s := pkgKey_of t x]> hash))
        as (w' & hash' & r & Hr & Hfs & Hrc & Hnf & Hsound & Hcompl).
      exists w', hash', r. split; [exact Hr |]. split; [exact Hfs |].
      split; [exact Hrc |]. split; [| split].
      * rewrite Hnf. unfold no_fault. cbn. rewrite Hf. cbn.
        split; [intros H [?|?]%elem_of_cons; [done | by apply H] |].
        intros H Hin. apply H. by right.
      * intros s' k Hk. destruct (Hsound s' k Hk) as [Hi | (y & Hy & Hy1 & Hy2)].
        -- destruct (decide (s = s')) as [<- | Hne].
           ++ rewrite lookup_insert_eq in Hi. injection Hi as <-.
              right. exists x. split; [by left | done].
           ++ rewrite lookup_insert_ne in Hi by done. by left.
        -- right. exists y. split; [by right | done].
      * intros Hd. destruct (Hcompl Hd) as [Hcov Hmono]. split.
        -- intros y [-> | Hy]%elem_of_cons; [| by apply Hcov].
           exists s. split; [done |]. apply Hmono. rewrite lookup_insert_eq. by eexists.
        -- intros s' Hs'. apply Hmono.
           destruct (decide (s = s')) as [<- | Hne];
             [rewrite lookup_insert_eq; by eexists | by rewrite lookup_insert_ne].
Qed.

Lemma NoDup_map_eq {A B} (f : A -> B) (l : list A) (x y : A) :
  NoDup (map f l) -> x ∈ l -> y ∈ l -> f x = f y -> x = y.
Proof.
  induction l as [|a l IH]; [by intros _ ?%elem_of_nil |].
  cbn [map]. intros [Hn Hd]%NoDup_cons [-> | Hx]%elem_of_cons [-> | Hy]%elem_of_cons He;
    [done | | | by apply IH].
  - exfalso. apply Hn. rewrite He. by apply list_elem_of_fmap_2.
  - exfalso. apply Hn. rewrite <- He. by apply list_elem_of_fmap_2.
Qed.

Lemma scan_elem_of (t : table) (x : list value) : x ∈ scan t <-> x ∈ rows t.
Proof. by rewrite scan_rows. Qed.

(** What the reader returns once the statement is prepared and no
    [pkgId] is NULL. *)
Lemma yum_db_read_package_ids_spec (w : world) (db : string) (t : table) :
  sqlite3_prepare_select w db "packages" ["pkgId"; "pkgKey"] = Some t ->
  Forall (fun r => is_Some (pkgId_of t r)) (rows t) ->
  exists w' hash e,
    yum_db_read_package_ids w db = Some (w', Some hash, e) /\
    fs w' = fs w /\
    (e = None \/ e = Some "Error reading from SQL: %s") /\
    (e = None <-> no_fault (S (length (rows t))) w) /\
    entries_from t (rows t) hash /\
    (e = None -> rows_covered t (rows t) hash).
Proof.
  intros Hp Hall. unfold yum_db_read_package_ids. rewrite Hp.
  rewrite <- (scan_rows t) in Hall.
  destruct (read_package_ids_loop_returns t (scan t) w ∅ Hall)
    as (w' & hash & r & Hr & Hfs & Hrc & Hnf & Hsound & Hcompl).
  rewrite Hr. rewrite (Permutation_length (scan_rows t)) in Hnf.
  assert (entries_from t (rows t) hash) as He.
  { intros s k Hk. destruct (Hsound s k Hk) as [Hi | (x & Hx & Hx')];
      [by rewrite lookup_empty in Hi |].
    exists x. by rewrite <- scan_elem_of. }
  destruct Hrc as [-> | ->].
  - rewrite bool_decide_eq_false_2 by (intros ?; done).
    exists w', hash, None. split; [done |]. split; [done |].
    split; [by left |]. split; [by rewrite <- Hnf |]. split; [exact He |].
    intros _ x Hx. apply (proj1 (Hcompl eq_refl)). by rewrite scan_elem_of.
  - rewrite bool_decide_eq_true_2 by done.
    exists w', hash, (Some "Error reading from SQL: %s").
    split; [done |]. split; [done |]. split; [by right |].
    split; [| split; [exact He | done]].
    rewrite <- Hnf. split; intros ?; done.
Qed.

(** X16: the hash [yum_db_read_package_ids] returns.  On a database
    whose [packages] table has the two columns and no NULL [pkgId], and
    with no step failed by the storage, the function returns a hash and
    sets no error, whatever the order in which the rows are yielded;
    every entry of the hash is the [pkgId] of a row with the [pkgKey] of
    that row read as an [int]; every row has its [pkgId] among the keys;
    and when no two rows share a [pkgId], each [pkgId] is mapped to the
    key of its row.  No file is changed. *)
Theorem yum_db_read_package_ids_hash (w : world) (db : string) (t : table) :
  sqlite3_prepare_select w db "packages" ["pkgId"; "pkgKey"] = Some t ->
  Forall (fun r => is_Some (pkgId_of t r)) (rows t) ->
  no_fault (S (length (rows t))) w ->
  exists w' hash,
    yum_db_read_package_ids w db = Some (w', Some hash, None) /\
    fs w' = fs w /\
    (forall s k, hash !! s = Some k ->
       exists r, r ∈ rows t /\ pkgId_of t r = Some s /\ pkgKey_of t r = k) /\
    (forall r, r ∈ rows t ->
       exists s, pkgId_of t r = Some s /\ is_Some (hash !! s)) /\
    (NoDup (map (pkgId_of t) (rows t)) ->
     forall r s, r ∈ rows t -> pkgId_of t r = Some s ->
       hash !! s = Some (pkgKey_of t r)).
Proof.
  intros Hp Hall Hnf.
  destruct (yum_db_read_package_ids_spec w db t Hp Hall)
    as (w' & hash & e & Hr & Hfs & _ & He & Hsound & Hcov).
  apply He in Hnf. subst e. specialize (Hcov eq_refl).
  exists w', hash. split; [exact Hr |]. split; [exact Hfs |].
  split; [exact Hsound |]. split; [exact Hcov |].
  intros Hnd r s Hin Hs.
  destruct (Hcov r Hin) as (s' & Hs' & [k Hk]).
  rewrite Hs in Hs'. injection Hs' as <-.
  destruct (Hsound s k Hk) as (x & Hx & Hxs & Hxk).
  rewrite Hk. f_equal. rewrite <- Hxk. f_equal.
  apply (NoDup_map_eq (pkgId_of t) (rows t) x r Hnd Hx Hin). by rewrite Hxs, Hs.
Qed.

(** X17: the errors of [yum_db_read_package_ids].  When the statement
    does not compile (no database behind the connection, no [packages]
    table, or one without the two columns), NULL is returned with the
    error "Can not prepare SQL clause" and nothing has changed.  When a
    step is failed by the storage, the error "Error reading from SQL" is
    set and the hash is returned all the same, not NULL: it holds
    entries of rows of the table, those read before the failure. *)
Theorem yum_db_read_package_ids_errors (w : world) (db : string) :
  (sqlite3_prepare_select w db "packages" ["pkgId"; "pkgKey"] = None ->
   yum_db_read_package_ids w db
   = Some (w, None, Some "Can not prepare SQL clause: %s")) /\
  (forall t,
     sqlite3_prepare_select w db "packages" ["pkgId"; "pkgKey"] = Some t ->
     Forall (fun r => is_Some (pkgId_of t r)) (rows t) ->
     ~ no_fault (S (length (rows t))) w ->
     exists w' hash,
       yum_db_read_package_ids w db
       = Some (w', Some hash, Some "Error reading from SQL: %s") /\
       fs w' = fs w /\
       forall s k, hash !! s = Some k ->
         exists r, r ∈ rows t /\ pkgId_of t r = Some s /\ pkgKey_of t r = k).
Proof.
  split.
  - intros Hp. unfold yum_db_read_package_ids. by rewrite Hp.
  - intros t Hp Hall Hnf.
    destruct (yum_db_read_package_ids_spec w db t Hp Hall)
      as (w' & hash & e & Hr & Hfs & [-> | ->] & He & Hsound & _).
    + exfalso. apply Hnf. by apply He.
    + by exists w', hash.
Qed.

(** X18: a package id written and read back.  On the [packages] table
    of a FileLists or Other cache whose rows have a [pkgId] other than
    the new one, and with no step failed: after
    [yum_db_package_ids_write] of a package with [pkgId] [s],
    [yum_db_read_package_ids] returns a hash with no error, in which [s]
    is mapped to the key the writer stored in the package, converted to
    [int] (the key itself when it is in the range of [int]), and in
    which the [pkgId] of every row that was there is still a key. *)
Theorem package_ids_write_then_read (w : world) (db s : string) (p : Package) :
  table_columns w db "packages" = Some ids_packages_columns ->
  true ∉ step_faults w ->
  p_pkgId p = Some s ->
  Forall (fun r => exists s', sqlite3_column_text (r !! 1%nat) = Some s' /\ s' <> s)
         (rows_of w db "packages") ->
  let r := yum_db_package_ids_write w db (mkStmt db "packages" ["pkgId"]) p in
  exists w' hash,
    yum_db_read_package_ids (fst r) db = Some (w', Some hash, None) /\
    hash !! s = Some (to_int (p_pkgKey (snd r))) /\
    (fits_int (p_pkgKey (snd r)) -> hash !! s = Some (p_pkgKey (snd r))) /\
    forall x s', x ∈ rows_of w db "packages" ->
      sqlite3_column_text (x !! 1%nat) = Some s' -> is_Some (hash !! s').
Proof.
  intros Hc Hf Hs Hold.
  destruct (table_columns_Some w db "packages" _ Hc) as (d & t & Hd & Ht & Hct & Hrt).
  destruct t as [tc tr]. cbn in Hct, Hrt. subst tc. rewrite <- Hrt in *.
  assert (head (step_faults w) <> Some true) as Hh.
  { destruct (step_faults w) as [|[] rest]; cbn; [done | | done].
    intros _. apply Hf. by left. }
  unfold yum_db_package_ids_write.
  rewrite (sqlite3_step_done db "packages" ["pkgId"] _ w d _ Hh Hd Ht eq_refl)
    by reflexivity.
  rewrite bool_decide_eq_false_2 by (intros ?; done).
  cbn [fst snd]. unfold sqlite3_last_insert_rowid.
  cbn [last_insert_rowid set_last_insert_rowid p_pkgKey set_pkgKey].
  rewrite Hs. cbn [columns rows].
  set (key := next_rowid (mkTable ids_packages_columns tr)).
  change (new_row (mkTable ids_packages_columns tr) ["pkgId"] [sqlite3_bind_text (Some s)])
    with [VInt key; VText s].
  set (t' := {| columns := ids_packages_columns; rows := tr ++ [[VInt key; VText s]] |}).
  set (w1 := set_last_insert_rowid key _).
  assert (sqlite3_prepare_select w1 db "packages" ["pkgId"; "pkgKey"] = Some t') as Hp.
  { unfold sqlite3_prepare_select, w1.
    change (get_db (set_last_insert_rowid ?k ?w0) db) with (get_db w0 db).
    rewrite get_db_set_db. cbn [tables set_tables]. by rewrite lookup_insert_eq. }
  assert (forall x, pkgId_of t' x = sqlite3_column_text (x !! 1%nat)) as Hid by done.
  assert (Forall (fun r => is_Some (pkgId_of t' r)) (rows t')) as Hall.
  { cbn [rows t']. apply Forall_app. split.
    - eapply Forall_impl; [exact Hold |]. intros x (s' & Hx & _). rewrite Hid, Hx. by eexists.
    - apply Forall_singleton. by eexists. }
  destruct (yum_db_read_package_ids_spec w1 db t' Hp Hall)
    as (w' & hash & e & Hr & _ & _ & He & Hsound & Hcov).
  assert (e = None) as ->.
  { apply He. unfold no_fault, w1. cbn [step_faults set_last_insert_rowid set_db set_fs set_step_faults].
    intros Hin. apply Hf. apply elem_of_take in Hin as (i & Hi & _).
    rewrite lookup_tail in Hi. by eapply list_elem_of_lookup_2. }
  specialize (Hcov eq_refl).
  assert (hash !! s = Some (to_int key)) as Hk.
  { destruct (Hcov [VInt key; VText s]) as (s0 & Hs0 & [k Hk]).
    { cbn [rows t']. apply elem_of_app. right. by left. }
    injection Hs0 as <-. rewrite Hk. f_equal.
    destruct (Hsound s k Hk) as (x & Hx & Hxs & Hxk).
    cbn [rows t'] in Hx. apply elem_of_app in Hx as [Hx | Hx].
    - rewrite Forall_forall in Hold. destruct (Hold x Hx) as (s' & Hx' & Hne).
      rewrite Hid, Hx' in Hxs. by injection Hxs as ->.
    - apply list_elem_of_singleton in Hx. subst x. by rewrite <- Hxk. }
  exists w', hash. split; [exact Hr |]. split; [exact Hk |]. split.
  - intros Hfit. apply to_int_fits in Hfit. by rewrite Hk, Hfit.
  - intros x s' Hx Hxs. destruct (Hcov x) as (s0 & Hs0 & Hin).
    { cbn [rows t']. apply elem_of_app. by left. }
    rewrite Hid, Hxs in Hs0. by injection Hs0 as <-.
Qed.

End ReadPackageIdsProperties.

Lemma example_packages_pkgIds_NoDup :
  NoDup (map (pkgId_of (fun _ => "id") example_packages) (rows example_packages)).
Proof.
  change (NoDup [Some "id1"; Some "id2"]).
  apply NoDup_cons. split; [| apply NoDup_singleton].
  intros [H | H]%elem_of_cons; [discriminate H | by apply elem_of_nil in H].
Defined.

Lemma yum_db_read_package_ids_hash_witness :
  let w := one_file_world "filelists.sqlite" (Database example_filelists_db) in
  exists w' hash,
    yum_db_read_package_ids (fun _ => "id") (fun _ => 0) rows w "filelists.sqlite"
    = Some (w', Some hash, None) /\
    hash !! "id2" = Some 2.
Proof.
  intros w.
  assert (sqlite3_prepare_select w "filelists.sqlite" "packages" ["pkgId"; "pkgKey"]
          = Some example_packages) as Hp by reflexivity.
  assert (Forall (fun r => is_Some (pkgId_of (fun _ => "id") example_packages r))
                 (rows example_packages)) as Hall
    by (repeat constructor; by eexists).
  assert (no_fault (S (length (rows example_packages))) w) as Hnf
    by apply not_elem_of_nil.
  destruct (yum_db_read_package_ids_hash (fun _ => "id") (fun _ => 0) rows
              (fun t => Permutation_refl (rows t))
              w "filelists.sqlite" example_packages Hp Hall Hnf)
    as (w' & hash & Hr & _ & _ & _ & Hnd).
  exists w', hash. split; [exact Hr |].
  apply (Hnd (example_packages_pkgIds_NoDup) [VInt 2; VText "id2"] "id2");
    [right; left | reflexivity].
Defined.

Lemma yum_db_read_package_ids_errors_witness :
  yum_db_read_package_ids (fun _ => "id") (fun _ => 0) rows
    (one_file_world "notes.txt" Foreign) "notes.txt"
  = Some (one_file_world "notes.txt" Foreign, None,
          Some "Can not prepare SQL clause: %s").
Proof.
  exact (proj1 (yum_db_read_package_ids_errors (fun _ => "id") (fun _ => 0) rows
                  (fun t => Permutation_refl (rows t))
                  (one_file_world "notes.txt" Foreign) "notes.txt") eq_refl).
Defined.

Lemma package_ids_write_then_read_witness :
  let w := one_file_world "other.sqlite" (Database (schema_db Other)) in
  let p := mkPackage 0 (Some "id") None None None None None None None None
             None None None None None None None None None None None None
             None None None None None [] [] in
  let r := yum_db_package_ids_write w "other.sqlite"
             (mkStmt "other.sqlite" "packages" ["pkgId"]) p in
  exists w' hash,
    yum_db_read_package_ids (fun _ => "id") (fun _ => 0) rows (fst r) "other.sqlite"
    = Some (w', Some hash, None) /\
    hash !! "id" = Some (to_int (p_pkgKey (snd r))).
Proof.
  intros w p r.
  assert (table_columns w "other.sqlite" "packages" = Some ids_packages_columns)
    as Hc by reflexivity.
  assert (true ∉ step_faults w) as Hf by apply not_elem_of_nil.
  assert (Forall (fun r => exists s', sqlite3_column_text (fun _ => "id") (r !! 1%nat)
                                      = Some s' /\ s' <> "id")
                 (rows_of w "other.sqlite" "packages")) as Hold
    by (assert (rows_of w "other.sqlite" "packages" = []) as -> by reflexivity;
        constructor).
  destruct (package_ids_write_then_read (fun _ => "id") (fun _ => 0) rows
              (fun t => Permutation_refl (rows t))
              w "other.sqlite" "id" p Hc Hf eq_refl Hold)
    as (w' & hash & Hr & Hk & _).
  by exists w', hash.
Defined.

(** ** The compacted file list of a package, from the list to the rows *)

Lemma kept_no_fault {A} (l : list A) (faults : list bool) :
  true ∉ take (length l) faults -> kept faults l = l.
Proof.
  revert faults. induction l as [|a l IH]; intros faults H; [done |].
  cbn [kept length take] in *. destruct faults as [|[] faults]; [done | |].
  - exfalso. apply H. by left.
  - f_equal. apply IH. intros Hin. apply H. by right.
Qed.

Lemma no_fault_le (n m : nat) (w : world) :
  (m <= n)%nat -> no_fault n w -> no_fault m w.
Proof.
  unfold no_fault. intros Hle H Hin. apply H.
  apply elem_of_take in Hin as (i & Hi & Hlt).
  apply elem_of_take. exists i. split; [done | lia].
Qed.

(** X19: the file list of a package, from the list to the table.  On
    the [filelist] table of a FileLists cache and with no step failed,
    [yum_db_filelists_write] adds rows at the end of the table and
    touches none that was there; the rows added are exactly one for each
    directory that holds an entry of the package, with the key of the
    package as an [int], the directory, the base names of its entries in
    input order joined by the separator, and their type codes; no two
    of the rows added have the same directory. *)
Theorem yum_db_filelists_write_rows (w : world) (db : string) (p : Package) :
  table_columns w db "filelist" = Some filelist_columns ->
  no_fault (length (p_files p)) w ->
  exists added,
    rows_of (yum_db_filelists_write w db
               (mkStmt db "filelist" filelist_insert_columns) p) db "filelist"
    = rows_of w db "filelist" ++ added /\
    (forall row, row ∈ added <->
       exists dir, group_of dir (p_files p) <> [] /\
                   row = filelist_row (p_pkgKey p) dir (group_of dir (p_files p))) /\
    NoDup (map (fun row => row !! 1%nat) added).
Proof.
  intros Hc Hnf.
  set (rowf := fun kv : string * EncodedPackageFile =>
                 [VInt (to_int (p_pkgKey p)); VText (fst kv);
                  VText (files (snd kv)); VText (types (snd kv))]).
  exists (map rowf (map_to_list (package_files_to_hash (p_files p)))).
  split; [| split].
  - pose proof (step_loop_rows "Error adding file to SQL: %s" db "filelist"
                  filelist_insert_columns filelist_columns
                  (fun kv => filelist_binds (p_pkgKey p) (fst kv) (snd kv))
                  rowf
                  (map_to_list (package_files_to_hash (p_files p))) w Hc eq_refl) as H.
    cbn zeta in H. destruct H as (H & _); [done |].
    unfold yum_db_filelists_write, g_hash_table_foreach. cbn [info_pkgKey info_handle].
    etrans; [exact H |]. f_equal. f_equal. apply kept_no_fault.
    rewrite length_map_to_list. apply (no_fault_le (length (p_files p))); [| done].
    pose proof (package_files_fold_size (p_files p) ∅) as Hs.
    by rewrite map_size_empty in Hs.
  - intros row. rewrite list_elem_of_fmap. split.
    + intros ([dir enc] & -> & Hin). apply elem_of_map_to_list in Hin.
      rewrite package_files_to_hash_lookup in Hin. exists dir.
      destruct (group_of dir (p_files p)) as [|f g] eqn:Hg; [done |].
      split; [done |]. rewrite encode_group_closed_form in Hin.
      by injection Hin as <-.
    + intros (dir & Hne & ->).
      destruct (group_of dir (p_files p)) as [|f g] eqn:Hg; [done |].
      exists (dir, {| files := String.concat "/" (basenames (f :: g));
                      types := type_codes (f :: g) |}).
      split; [done |]. apply elem_of_map_to_list.
      by rewrite package_files_to_hash_lookup, Hg, encode_group_closed_form.
  - rewrite map_map.
    change (fun x => rowf x !! 1%nat)
      with (fun x : string * EncodedPackageFile => Some (VText (fst x))).
    rewrite <- (map_map fst (fun s => Some (VText s))).
    apply NoDup_fmap_2; [by intros ? ? [= ->] | apply NoDup_fst_map_to_list].
Qed.

Lemma yum_db_filelists_write_rows_witness :
  let w := one_file_world "filelists.sqlite" (Database (schema_db FileLists)) in
  let p := mkPackage 7 (Some "id") None None None None None None None None
             None None None None None None None None None None None None
             None None None None None
             [mkPackageFile "dir" "/usr/bin"; mkPackageFile "file" "/usr/bin/ls"] [] in
  exists added,
    rows_of (yum_db_filelists_write w "filelists.sqlite"
               (mkStmt "filelists.sqlite" "filelist" filelist_insert_columns) p)
      "filelists.sqlite" "filelist"
    = rows_of w "filelists.sqlite" "filelist" ++ added /\
    [VInt (to_int 7); VText "/usr/bin"; VText "ls"; VText "f"] ∈ added.
Proof.
  intros w p.
  assert (table_columns w "filelists.sqlite" "filelist" = Some filelist_columns)
    as Hc by reflexivity.
  assert (no_fault (length (p_files p)) w) as Hnf by apply not_elem_of_nil.
  destruct (yum_db_filelists_write_rows w "filelists.sqlite" p Hc Hnf)
    as (added & Hr & Hin & _).
  exists added. split; [exact Hr |].
  apply Hin. exists "/usr/bin". split; [discriminate | reflexivity].
Defined.

(** ** Opening a database that holds other tables *)

Section OpenExisting.

Variable V : Z.

(** X20: an existing database with no [db_info] but a table [packages]
    (a database some other program made, or one whose [db_info] was
    dropped).  [yum_db_open] takes it for a cache to rebuild: it creates
    [db_info], then [create_tables] fails on [packages]; NULL is
    returned with that error, and the empty [db_info] stays in the file.
    From then on every [yum_db_open] of the file, with any checksum and
    any [create_tables], fails on [CREATE TABLE db_info] and changes
    nothing. *)
Theorem yum_db_open_existing_packages (w : world) (path checksum : string)
    (kind : SchemaKind) (d : database) :
  get_db w path = Some d ->
  object_exists d "db_info" = false ->
  is_Some (tables d !! "packages") ->
  let w1 := set_db path (set_db_info (Some []) d) w in
  yum_db_open V w path checksum (create_tables_of kind)
  = (w1, None, Some "Can not create packages table: %s") /\
  forall checksum' create_tables,
    yum_db_open V w1 path checksum' create_tables
    = (w1, None, Some "Can not create db_info table: %s").
Proof.
  intros Hd Hex Hp w1.
  assert (db_info d = None) as Hi.
  { unfold object_exists in Hex. destruct (db_info d); [| done].
    rewrite (bool_decide_eq_true_2 (is_Some (Some l))) in Hex by by eexists.
    by rewrite orb_true_r in Hex. }
  split.
  - unfold yum_db_open.
    destruct (sqlite3_open_existing w path d Hd) as [-> ->].
    rewrite bool_decide_eq_true_2 by done.
    unfold dbinfo_status. rewrite Hd, Hi. unfold sqlite3_close.
    unfold yum_db_open_create.
    destruct (sqlite3_open_existing w path d Hd) as [_ ->].
    rewrite bool_decide_eq_false_2 by (intros ?; done).
    unfold yum_db_create_dbinfo_table.
    rewrite (sqlite3_exec_ok w path _ d (set_db_info (Some []) d) Hd)
      by (cbn; by rewrite Hex).
    rewrite bool_decide_eq_false_2 by (intros ?; done).
    fold w1.
    assert (create_tables_of kind w1 path
            = (w1, Some "Can not create packages table: %s")) as ->; [| done].
    assert (get_db w1 path = Some (set_db_info (Some []) d)) as Hd1
      by apply get_db_set_db.
    assert (forall cols, run_sql (set_db_info (Some []) d) (CREATE_TABLE "packages" cols)
                         = None) as Hq.
    { intros cols. cbn [run_sql]. unfold object_exists. cbn [tables set_db_info].
      by rewrite (bool_decide_eq_true_2 _ Hp). }
    destruct kind; cbn [create_tables_of];
      unfold yum_db_create_primary_tables, yum_db_create_filelist_tables,
        yum_db_create_other_tables;
      [unfold primary_script | unfold filelist_script | unfold other_script];
      cbn [app exec_script];
      rewrite (sqlite3_exec_error w1 path _ _ Hd1 (Hq _));
      by rewrite bool_decide_eq_true_2.
  - intros checksum' ct. unfold yum_db_open.
    assert (get_db w1 path = Some (set_db_info (Some []) d)) as Hd1
      by apply get_db_set_db.
    destruct (sqlite3_open_existing w1 path _ Hd1) as [-> ->].
    rewrite bool_decide_eq_true_2 by done.
    unfold dbinfo_status. rewrite Hd1. cbn [db_info set_db_info]. unfold sqlite3_close.
    apply (yum_db_open_create_db_info_exists w1 path _ _ Hd1).
    unfold object_exists. cbn [db_info set_db_info].
    rewrite (bool_decide_eq_true_2 (is_Some (Some []))) by by eexists.
    apply orb_true_r.
Qed.

End OpenExisting.

Lemma yum_db_open_existing_packages_witness :
  let d := set_db_info None (schema_db Other) in
  let w := one_file_world "other.sqlite" (Database d) in
  yum_db_open 10 w "other.sqlite" "abc" (create_tables_of Other)
  = (set_db "other.sqlite" (set_db_info (Some []) d) w, None,
     Some "Can not create packages table: %s").
Proof.
  intros d w.
  assert (get_db w "other.sqlite" = Some d) as Hd by reflexivity.
  assert (object_exists d "db_info" = false) as Hex by reflexivity.
  assert (is_Some (tables d !! "packages")) as Hp by (by eexists).
  exact (proj1 (yum_db_open_existing_packages 10 w "other.sqlite" "abc" Other d
                  Hd Hex Hp)).
Defined.

(** ** The files [yum_db_open] leaves alone *)

Section OpenFrame.

Variable V : Z.
Variable path : string.

#[local] Abbreviation others_kept := (others_kept path).

Lemma others_kept_refl (w : world) : others_kept w w.
Proof. by intros p _. Qed.

Lemma others_kept_trans (w1 w2 w3 : world) :
  others_kept w1 w2 -> others_kept w2 w3 -> others_kept w1 w3.
Proof. intros H1 H2 p Hp. by rewrite H2, H1. Qed.

Lemma set_db_others (w : world) (d : database) : others_kept w (set_db path d w).
Proof. intros p Hp. unfold set_db. cbn. by rewrite lookup_insert_ne. Qed.

Lemma sqlite3_open_others (w : world) : others_kept w (fst (sqlite3_open w path)).
Proof.
  unfold sqlite3_open. destruct (fs w !! path) as [[| | |]|]; cbn [fst];
    try apply others_kept_refl. apply set_db_others.
Qed.

Lemma sqlite3_exec_others (w : world) (q : sql) :
  others_kept w (fst (sqlite3_exec w path q)).
Proof.
  unfold sqlite3_exec. destruct (get_db w path) as [d|]; [| apply others_kept_refl].
  destruct (run_sql d q); [apply set_db_others | apply others_kept_refl].
Qed.

Lemma unlink_others (w : world) : others_kept w (unlink w path).
Proof.
  unfold unlink. intros p Hp.
  destruct (fs w !! path) as [[| | |]|]; cbn; try done; by rewrite lookup_delete_ne.
Qed.

Lemma exec_script_others (script : list (sql * string)) (w : world) :
  others_kept w (fst (exec_script w path script)).
Proof.
  revert w. induction script as [|[q m] script IH]; intros w;
    [apply others_kept_refl |].
  cbn [exec_script]. pose proof (sqlite3_exec_others w q) as H.
  destruct (sqlite3_exec w path q) as [w1 r]. cbn [fst] in H.
  destruct (bool_decide (r <> SQLITE_OK)); [exact H |].
  eapply others_kept_trans; [exact H | apply IH].
Qed.

Lemma yum_db_open_create_others (w : world) (db : option string)
    (create_tables : CreateTablesFn) :
  (forall w0, others_kept w0 (fst (create_tables w0 path))) ->
  others_kept w (fst (fst (yum_db_open_create w path db create_tables))).
Proof.
  intros Hct. unfold yum_db_open_create, yum_db_create_dbinfo_table, sqlite3_close.
  assert (others_kept w (fst match db with
                             | None => sqlite3_open w path
                             | Some _ => (w, SQLITE_OK)
                             end)) as H1
    by (destruct db; [apply others_kept_refl | apply sqlite3_open_others]).
  destruct (match db with None => _ | Some _ => _ end) as [w1 r]. cbn [fst] in H1.
  destruct (bool_decide (r <> SQLITE_OK)); [exact H1 |].
  pose proof (sqlite3_exec_others w1 CREATE_TABLE_db_info) as H2.
  destruct (sqlite3_exec w1 path CREATE_TABLE_db_info) as [w2 r2]. cbn [fst] in H2.
  pose proof (others_kept_trans _ _ _ H1 H2) as H12.
  destruct (bool_decide (r2 <> SQLITE_OK)); [exact H12 |].
  pose proof (Hct w2) as H3. destruct (create_tables w2 path) as [w3 [e|]];
    cbn [fst] in *; pose proof (others_kept_trans _ _ _ H12 H3) as H13; [exact H13 |].
  pose proof (sqlite3_exec_others w3 (PRAGMA_synchronous 0)) as H4.
  destruct (sqlite3_exec w3 path (PRAGMA_synchronous 0)) as [w4 r4]. cbn [fst] in *.
  by eapply others_kept_trans.
Qed.

Lemma dbinfo_status_others (w : world) (checksum : string) :
  others_kept w (fst (dbinfo_status V w path checksum)).
Proof.
  unfold dbinfo_status. destruct (get_db w path) as [d|]; [| apply others_kept_refl].
  destruct (db_info d) as [[|row rest]|]; try apply others_kept_refl.
  destruct (negb _); [by intros p Hp |]. destruct (negb _); by intros p Hp.
Qed.

(** X21: [yum_db_open] works on the file of its path only: when
    [create_tables] changes no other file (as the three create functions
    of [db.c] do), no other file is created, changed or removed,
    whatever the state of the file at [path] and whatever the outcome. *)
Theorem yum_db_open_other_files (w : world) (checksum : string)
    (kind : SchemaKind) (create_tables : CreateTablesFn) :
  (forall w0 p, p <> path ->
     fs (fst (create_tables_of kind w0 path)) !! p = fs w0 !! p) /\
  ((forall w0 p, p <> path -> fs (fst (create_tables w0 path)) !! p = fs w0 !! p) ->
   forall p, p <> path ->
     fs (fst (fst (yum_db_open V w path checksum create_tables))) !! p = fs w !! p).
Proof.
  split.
  - intros w0. rewrite create_tables_of_script. apply exec_script_others.
  - intros Hct. change (others_kept w (fst (fst (yum_db_open V w path checksum create_tables)))).
    unfold yum_db_open, sqlite3_close.
    pose proof (sqlite3_open_others w) as H1.
    destruct (sqlite3_open w path) as [w1 r]. cbn [fst] in H1.
    destruct (bool_decide (r = SQLITE_OK)).
    + destruct (g_file_test_exists w path).
      * pose proof (dbinfo_status_others w1 checksum) as H2.
        destruct (dbinfo_status V w1 path checksum) as [w2 status]. cbn [fst] in H2.
        pose proof (others_kept_trans _ _ _ H1 H2) as H12.
        destruct status.
        -- exact H12.
        -- eapply others_kept_trans; [exact H12 |].
           by apply yum_db_open_create_others.
        -- pose proof (sqlite3_exec_others w2 (PRAGMA_synchronous 0)) as H3.
           destruct (sqlite3_exec w2 path (PRAGMA_synchronous 0)) as [w3 r3].
           pose proof (sqlite3_exec_others w3 DELETE_FROM_db_info) as H4.
           destruct (sqlite3_exec w3 path DELETE_FROM_db_info) as [w4 r4].
           cbn [fst] in *.
           eapply others_kept_trans; [exact H12 |]. by eapply others_kept_trans.
        -- eapply others_kept_trans; [exact H12 |].
           by apply yum_db_open_create_others.
      * eapply others_kept_trans; [exact H1 |]. by apply yum_db_open_create_others.
    + eapply others_kept_trans; [exact H1 |].
      eapply others_kept_trans; [apply unlink_others |].
      by apply yum_db_open_create_others.
Qed.

End OpenFrame.

(** ** The name of a cache file *)

Lemma append_inv_tail (a b s : string) : a +:+ s = b +:+ s -> a = b.
Proof.
  revert b. induction a as [|c a IH]; intros [|c' b] H.
  - done.
  - apply (f_equal String.length) in H. rewrite !length_append in H. cbn in H. lia.
  - apply (f_equal String.length) in H. rewrite !length_append in H. cbn in H. lia.
  - cbn in H. injection H as -> H. f_equal. by apply IH.
Qed.

(** X22: [yum_db_filename] gives different names for different
    prefixes, and never the prefix itself: the caches of two metadata
    files are two files, and neither is the metadata file. *)
Theorem yum_db_filename_injective (prefix prefix' : string) :
  (yum_db_filename prefix = yum_db_filename prefix' -> prefix = prefix') /\
  (yum_db_filename prefix = prefix -> False) /\
  String.length (yum_db_filename prefix) = (String.length prefix + 7)%nat.
Proof.
  unfold yum_db_filename. split; [apply append_inv_tail |].
  split; [| by rewrite length_append].
  intros H. apply (f_equal String.length) in H. rewrite length_append in H.
  cbn in H. lia.
Qed.
